(** * HoudiniEngineEditor: the editor module of the Houdini Engine plugin

    A shallow embedding of
    [Source/HoudiniEngineEditor/Private/HoudiniEngineEditor.cpp] and the
    properties of its registration glue and command handlers.

    The module is glue over the Unreal Editor: its functions read host
    state (global pointers, loaded modules, the object graph) and call host
    registries.  The host is modelled by explicit state: one finite map of
    registered extensions, records of the conditions the code tests, and
    oracles for the host calls whose results the code branches on. *)

From stdpp Require Import base gmap strings list pretty.
From Stdlib Require Import Ascii ZArith Lia.

Local Open Scope string_scope.
Local Open Scope list_scope.

(** ** Pointers

    A [UObject *] (or any raw or shared pointer) is an optional object
    identifier; [None] is [nullptr].  Pointer comparison is equality of the
    option values, so that two null pointers compare equal, as in C++. *)

Definition ObjId := nat.
Definition Ptr := option ObjId.

Definition ptr_eqb (p q : Ptr) : bool := bool_decide (p = q).

(** ** 32-bit signed counters

    [int32] counters are integers kept in [-2^31, 2^31) by wrap-around. *)

Definition int32_wrap (z : Z) : Z :=
  ((z + 2147483648) mod 4294967296 - 2147483648)%Z.

Definition int32_add (a b : Z) : Z := int32_wrap (a + b).

Definition INT32_MAX : Z := 2147483647%Z.

(** [FString]'s [operator==] compares ignoring case (it is
    [FCString::Stricmp]). *)
Definition to_lower_ascii (c : ascii) : ascii :=
  let n := Ascii.nat_of_ascii c in
  if (65 <=? n)%nat && (n <=? 90)%nat then Ascii.ascii_of_nat (n + 32) else c.

Fixpoint to_lower (s : string) : string :=
  match s with
  | EmptyString => EmptyString
  | String c s' => String (to_lower_ascii c) (to_lower s')
  end.

Definition FString_eq (a b : string) : bool := String.eqb (to_lower a) (to_lower b).

(** [FString::FromInt]. *)
Definition FromInt (z : Z) : string := pretty z.

(** ** Wide characters

    An [FString] holds [TCHAR]s, which are [wchar_t] code units.  Where
    the code compares, concatenates or prints strings they are modelled
    by [string]; where it converts the characters of a string, the string
    is the list of its code units. *)
Definition TCHAR := N.
Definition WideString := list TCHAR.

(** The conversion of a [wchar_t] to [char] keeps its low eight bits. *)
Definition char_of_wchar_t (c : TCHAR) : ascii := ascii_of_N (c mod 256)%N.

(** [std::string( First, Last )] over the [wchar_t]s of a
    [std::wstring]: each element is converted to [char]. *)
Definition std_string_of_wchar_range (s : WideString) : string :=
  String.string_of_list_ascii (map char_of_wchar_t s).

(** [TEXT( "..." )]: the wide string of a narrow literal. *)
Definition TEXT (s : string) : WideString := map N_of_ascii (String.list_ascii_of_string s).

(** ** Host and external calls

    The calls a handler makes that act on the editor, on the Houdini
    session or on the operating system, in the order it makes them. *)
Inductive Event :=
  | CreateSlateNotification (Notification : string)
  | HOUDINI_LOG_MESSAGE (msg : string)
  | HOUDINI_LOG_MESSAGE_s (Format : string) (Arg : WideString)  (* with one [%s] argument *)
  | HOUDINI_LOG_ERROR (msg : string)
  | LoadModuleChecked (module : string)
  | SaveFileDialog
  | HapiSaveHIPFile (path : string)            (* FHoudiniApi::SaveHIPFile *)
  | CreateProc (URL Parms : string)            (* FPlatformProcess::CreateProc *)
  | LaunchURL (URL : string)                   (* FPlatformProcess::LaunchURL *)
  | SetEnableCookingGlobal (b : bool)
  | StartHoudiniTicking (Component : ObjId)
  | LoadAssetDataFromPath (Path : string)
  | DeleteAssetsCall (count : nat)             (* ObjectTools::DeleteAssets on that many assets *)
  | ForceDeleteObjectsCall (count : nat).      (* ObjectTools::ForceDeleteObjects on that many objects *)

(** * Registration: StartupModule and ShutdownModule *)

Module Registration.

(** The member functions of [FHoudiniEngineEditor] that are bound to
    delegates, as the pointers [&FHoudiniEngineEditor::OpenInHoudini] and
    so on. *)
Inductive Handler :=
  | fn_OpenInHoudini
  | fn_SaveHIPFile
  | fn_ReportBug
  | fn_CleanUpTempFolder
  | fn_BakeAllAssets
  | fn_PauseAssetCooking
  | fn_RecookSelection
  | fn_RebuildSelection
  | fn_BakeSelection
  | fn_RecookAllAssets
  | fn_RebuildAllAssets.

(** The predicates bound as [FCanExecuteAction] and [FIsActionChecked]. *)
Inductive Predicate :=
  | fn_CanOpenInHoudini
  | fn_CanSaveHIPFile
  | fn_CanReportBug
  | fn_CanCleanUpTempFolder
  | fn_CanBakeAllAssets
  | fn_CanPauseAssetCooking
  | fn_IsAssetCookingPaused.

(** The commands of [FHoudiniEngineCommands::RegisterCommands]. *)
Inductive UICommand :=
  | OpenInHoudini
  | SaveHIPFile
  | ReportBug
  | CleanUpTempFolder
  | BakeAllAssets
  | PauseAssetCooking
  | CookSelec
  | RebuildSelec
  | BakeSelec.

(** The editor subsystems the module wires extensions into. *)
Inductive Subsystem :=
  | ComponentVisualizer
  | DetailCustomizer
  | AssetTypeAction
  | AssetBroker
  | ActorFactory
  | SlateStyle
  | ThumbnailRenderer
  | PlacementCategory
  | ConsoleCommand
  | MainMenuExtension
  | UndoHook
  | EditorMode.

#[global] Instance Handler_eq_dec : EqDecision Handler.
Proof. solve_decision. Defined.

#[global] Instance Predicate_eq_dec : EqDecision Predicate.
Proof. solve_decision. Defined.

#[global] Instance UICommand_eq_dec : EqDecision UICommand.
Proof. solve_decision. Defined.

#[global] Instance Subsystem_eq_dec : EqDecision Subsystem.
Proof. solve_decision. Defined.

Definition UICommand_to_nat (c : UICommand) : nat :=
  match c with
  | OpenInHoudini => 0 | SaveHIPFile => 1 | ReportBug => 2
  | CleanUpTempFolder => 3 | BakeAllAssets => 4 | PauseAssetCooking => 5
  | CookSelec => 6 | RebuildSelec => 7 | BakeSelec => 8
  end.

Definition UICommand_of_nat (n : nat) : UICommand :=
  match n with
  | 0 => OpenInHoudini | 1 => SaveHIPFile | 2 => ReportBug
  | 3 => CleanUpTempFolder | 4 => BakeAllAssets | 5 => PauseAssetCooking
  | 6 => CookSelec | 7 => RebuildSelec | _ => BakeSelec
  end.

#[global] Instance UICommand_countable : Countable UICommand.
Proof.
  refine (inj_countable' UICommand_to_nat UICommand_of_nat _).
  intros []; reflexivity.
Defined.

Definition Subsystem_to_nat (s : Subsystem) : nat :=
  match s with
  | ComponentVisualizer => 0 | DetailCustomizer => 1 | AssetTypeAction => 2
  | AssetBroker => 3 | ActorFactory => 4 | SlateStyle => 5
  | ThumbnailRenderer => 6 | PlacementCategory => 7 | ConsoleCommand => 8
  | MainMenuExtension => 9 | UndoHook => 10 | EditorMode => 11
  end.

Definition Subsystem_of_nat (n : nat) : Subsystem :=
  match n with
  | 0 => ComponentVisualizer | 1 => DetailCustomizer | 2 => AssetTypeAction
  | 3 => AssetBroker | 4 => ActorFactory | 5 => SlateStyle
  | 6 => ThumbnailRenderer | 7 => PlacementCategory | 8 => ConsoleCommand
  | 9 => MainMenuExtension | 10 => UndoHook | _ => EditorMode
  end.

#[global] Instance Subsystem_countable : Countable Subsystem.
Proof.
  refine (inj_countable' Subsystem_to_nat Subsystem_of_nat _).
  intros []; reflexivity.
Defined.

(** What a registry entry holds: the registered object (named by its
    class), or a console command with its help text and delegate. *)
Inductive Extension :=
  | ExtObject (class : string)
  | ExtConsole (help : string) (delegate : Handler).

(** [FUIAction]: the delegates of one [MapAction] call.  An unbound
    [FCanExecuteAction()] or a missing [FIsActionChecked] is [None]. *)
Record FUIAction := {
  ExecuteAction : Handler;
  CanExecuteAction : option Predicate;
  IsActionChecked : option Predicate
}.

(** A registry key: the subsystem and the name the host registers the
    extension under (a class [FName], a style or command name, a unique
    handle, or the class of the object for registries keyed by pointer).
    One finite map stands for the registries of the host: registering
    inserts the entry under its key, unregistering deletes the key. *)
Definition Key : Type := Subsystem * string.

(** The conditions of the host and of the build that the code tests. *)
Record Env := {
  GUnrealEd : bool;                  (* GUnrealEd != nullptr *)
  GEditor : bool;                    (* GEditor != nullptr *)
  IsRunningCommandlet : bool;
  HOUDINI_MODE : bool;               (* #ifdef HOUDINI_MODE *)
  EM_HoudiniShelfEdModeId : string;  (* declared in HoudiniShelfEdMode.h *)
  RuntimeSettings : bool;            (* GetDefault<UHoudiniRuntimeSettings>() != nullptr *)
  bHidePlacementModeHoudiniTools : bool;
  CustomHoudiniTools : list string;  (* names of the custom tools of the settings *)
  PropertyEditorLoaded : bool;       (* IsModuleLoaded( "PropertyEditor" ) *)
  AssetToolsLoaded : bool;           (* IsModuleLoaded( "AssetTools" ) *)
  UObjectInitialized : bool;
  PlacementModeAvailable : bool      (* IPlacementModeModule::IsAvailable() *)
}.

(** The state: the host registries and the members of
    [FHoudiniEngineEditor] that the registration code tests or reads back.
    [HoudiniAssetBroker], [MainMenuExtender] and the instance pointer are
    only assigned, and are left out. *)
Record State := {
  (* host *)
  Extensions : gmap Key Extension;
  GlobalLevelEditorActions : gmap UICommand FUIAction;
  CCmdStatics : bool;  (* the function-local statics of RegisterConsoleCommands exist *)
  (* members *)
  SplineComponentVisualizer : bool;  (* IsValid() *)
  HandleComponentVisualizer : bool;  (* IsValid() *)
  AssetTypeActions : list string;
  StyleSet : bool;                   (* IsValid() *)
  HEngineCommands : gmap UICommand FUIAction;
  HoudiniTools : list string
}.

Definition set_Extensions (f : gmap Key Extension -> gmap Key Extension) (s : State) : State :=
  let 'Build_State ext gl cc sp ha ata sty cmds tools := s in
  Build_State (f ext) gl cc sp ha ata sty cmds tools.

Definition set_GlobalLevelEditorActions (v : gmap UICommand FUIAction) (s : State) : State :=
  let 'Build_State ext gl cc sp ha ata sty cmds tools := s in
  Build_State ext v cc sp ha ata sty cmds tools.

Definition set_CCmdStatics (v : bool) (s : State) : State :=
  let 'Build_State ext gl cc sp ha ata sty cmds tools := s in
  Build_State ext gl v sp ha ata sty cmds tools.

Definition set_SplineComponentVisualizer (v : bool) (s : State) : State :=
  let 'Build_State ext gl cc sp ha ata sty cmds tools := s in
  Build_State ext gl cc v ha ata sty cmds tools.

Definition set_HandleComponentVisualizer (v : bool) (s : State) : State :=
  let 'Build_State ext gl cc sp ha ata sty cmds tools := s in
  Build_State ext gl cc sp v ata sty cmds tools.

Definition set_AssetTypeActions (v : list string) (s : State) : State :=
  let 'Build_State ext gl cc sp ha ata sty cmds tools := s in
  Build_State ext gl cc sp ha v sty cmds tools.

Definition set_StyleSet (v : bool) (s : State) : State :=
  let 'Build_State ext gl cc sp ha ata sty cmds tools := s in
  Build_State ext gl cc sp ha ata v cmds tools.

Definition set_HEngineCommands (v : gmap UICommand FUIAction) (s : State) : State :=
  let 'Build_State ext gl cc sp ha ata sty cmds tools := s in
  Build_State ext gl cc sp ha ata sty v tools.

Definition set_HoudiniTools (v : list string) (s : State) : State :=
  let 'Build_State ext gl cc sp ha ata sty cmds tools := s in
  Build_State ext gl cc sp ha ata sty cmds v.

(** The host's register and unregister calls on a keyed registry. *)
Definition host_register (k : Key) (e : Extension) : State -> State :=
  set_Extensions (fun m => <[k := e]> m).

Definition host_unregister (k : Key) : State -> State :=
  set_Extensions (fun m => delete k m).

(** *** Registration functions, in the order of the source *)

Definition RegisterComponentVisualizers (env : Env) (s : State) : State :=
  if GUnrealEd env then
    let s :=
      if negb (SplineComponentVisualizer s) then
        host_register (ComponentVisualizer, "HoudiniSplineComponent")
          (ExtObject "FHoudiniSplineComponentVisualizer")
          (set_SplineComponentVisualizer true s)
      else s in
    if negb (HandleComponentVisualizer s) then
      host_register (ComponentVisualizer, "HoudiniHandleComponent")
        (ExtObject "FHoudiniHandleComponentVisualizer")
        (set_HandleComponentVisualizer true s)
    else s
  else s.

Definition UnregisterComponentVisualizers (env : Env) (s : State) : State :=
  if GUnrealEd env then
    let s :=
      if SplineComponentVisualizer s then
        host_unregister (ComponentVisualizer, "HoudiniSplineComponent") s
      else s in
    if HandleComponentVisualizer s then
      host_unregister (ComponentVisualizer, "HoudiniHandleComponent") s
    else s
  else s.

Definition RegisterDetails (s : State) : State :=
  host_register (DetailCustomizer, "HoudiniRuntimeSettings")
    (ExtObject "FHoudiniRuntimeSettingsDetails")
    (host_register (DetailCustomizer, "HoudiniAssetComponent")
       (ExtObject "FHoudiniAssetComponentDetails") s).

Definition UnregisterDetails (env : Env) (s : State) : State :=
  if PropertyEditorLoaded env then
    host_unregister (DetailCustomizer, "HoudiniRuntimeSettings")
      (host_unregister (DetailCustomizer, "HoudiniAssetComponent") s)
  else s.

Definition RegisterAssetTypeAction (Action : string) (s : State) : State :=
  set_AssetTypeActions (AssetTypeActions s ++ [Action])
    (host_register (AssetTypeAction, Action) (ExtObject Action) s).

Definition RegisterAssetTypeActions (s : State) : State :=
  RegisterAssetTypeAction "FHoudiniAssetTypeActions" s.

Definition UnregisterAssetTypeActions (env : Env) (s : State) : State :=
  if AssetToolsLoaded env then
    set_AssetTypeActions []
      (foldl (fun st Action => host_unregister (AssetTypeAction, Action) st)
         s (AssetTypeActions s))
  else s.

Definition RegisterAssetBrokers (s : State) : State :=
  host_register (AssetBroker, "FHoudiniAssetBroker") (ExtObject "FHoudiniAssetBroker") s.

(** Defined in the source, and called from nowhere in it. *)
Definition UnregisterAssetBrokers (env : Env) (s : State) : State :=
  if UObjectInitialized env then
    host_unregister (AssetBroker, "FHoudiniAssetBroker") s
  else s.

Definition RegisterActorFactories (env : Env) (s : State) : State :=
  if GEditor env then
    host_register (ActorFactory, "UHoudiniAssetActorFactory")
      (ExtObject "UHoudiniAssetActorFactory") s
  else s.

(** [FUICommandList::MapAction]. *)
Definition MapAction (c : UICommand) (exec : Handler) (can checked : option Predicate)
    (l : gmap UICommand FUIAction) : gmap UICommand FUIAction :=
  <[c := {| ExecuteAction := exec; CanExecuteAction := can; IsActionChecked := checked |}]> l.

(** The command list that [BindMenuCommands] builds, in the order of its
    [MapAction] calls, starting from a new [FUICommandList]. *)
Definition BoundCommands : gmap UICommand FUIAction :=
  let l := MapAction OpenInHoudini fn_OpenInHoudini (Some fn_CanOpenInHoudini) None ∅ in
  let l := MapAction SaveHIPFile fn_SaveHIPFile (Some fn_CanSaveHIPFile) None l in
  let l := MapAction ReportBug fn_ReportBug (Some fn_CanReportBug) None l in
  let l := MapAction CleanUpTempFolder fn_CleanUpTempFolder (Some fn_CanCleanUpTempFolder) None l in
  let l := MapAction BakeAllAssets fn_BakeAllAssets (Some fn_CanBakeAllAssets) None l in
  let l := MapAction PauseAssetCooking fn_PauseAssetCooking
             (Some fn_CanPauseAssetCooking) (Some fn_IsAssetCookingPaused) l in
  (* Non menu command (used for shortcuts only) *)
  let l := MapAction CookSelec fn_RecookSelection None None l in
  let l := MapAction RebuildSelec fn_RebuildSelection None None l in
  MapAction BakeSelec fn_BakeSelection None None l.

(** [FHoudiniEngineCommands::Register] creates the command objects that
    [UICommand] enumerates. *)
Definition BindMenuCommands (s : State) : State :=
  let s := set_HEngineCommands BoundCommands s in
  (* Append the command to the editor module *)
  set_GlobalLevelEditorActions (GlobalLevelEditorActions s ∪ HEngineCommands s) s.

Definition ExtendMenu (env : Env) (s : State) : State :=
  if negb (IsRunningCommandlet env) then
    let s := BindMenuCommands s in
    host_register (MainMenuExtension, "FileLoadAndSave") (ExtObject "FExtender") s
  else s.

(** The constructor of a [FAutoConsoleCommand] registers the command with
    the console manager. *)
Definition FAutoConsoleCommand (name help : string) (delegate : Handler) : State -> State :=
  host_register (ConsoleCommand, name) (ExtConsole help delegate).

(** The commands are function-local statics: they are constructed by the
    first call only. *)
Definition RegisterConsoleCommands (s : State) : State :=
  if CCmdStatics s then s else
  let s := FAutoConsoleCommand "Houdini.Open"
             "Open the scene in Houdini." fn_OpenInHoudini s in
  let s := FAutoConsoleCommand "Houdini.Save"
             "Save the current Houdini scene to a hip file." fn_SaveHIPFile s in
  let s := FAutoConsoleCommand "Houdini.BakeAll"
             "Bakes and replaces with blueprints all Houdini Asset Actors in the current level."
             fn_BakeAllAssets s in
  let s := FAutoConsoleCommand "Houdini.Clean"
             "Cleans up unused/unreferenced Houdini Engine temporary files."
             fn_CleanUpTempFolder s in
  let s := FAutoConsoleCommand "Houdini.Pause"
             "Pauses Houdini Engine Asset cooking." fn_PauseAssetCooking s in
  (* Additional console only commands *)
  let s := FAutoConsoleCommand "Houdini.CookAll"
             "Re-cooks all Houdini Engine Asset Actors in the current level."
             fn_RecookAllAssets s in
  let s := FAutoConsoleCommand "Houdini.RebuildAll"
             "Rebuilds all Houdini Engine Asset Actors in the current level."
             fn_RebuildAllAssets s in
  let s := FAutoConsoleCommand "Houdini.Cook"
             "Re-cooks selected Houdini Asset Actors in the current level."
             fn_RecookSelection s in
  let s := FAutoConsoleCommand "Houdini.Rebuild"
             "Rebuilds selected Houdini Asset Actors in the current level."
             fn_RebuildSelection s in
  let s := FAutoConsoleCommand "Houdini.Bake"
             "Bakes and replaces with blueprints selected Houdini Asset Actors in the current level."
             fn_BakeSelection s in
  set_CCmdStatics true s.

Definition GetStyleSetName : string := "HoudiniEngineStyle".

Definition RegisterStyleSet (s : State) : State :=
  if negb (StyleSet s) then
    host_register (SlateStyle, GetStyleSetName) (ExtObject "FSlateStyleSet")
      (set_StyleSet true s)
  else s.

(** Defined in the source, and called from nowhere in it. *)
Definition UnregisterStyleSet (s : State) : State :=
  if StyleSet s then
    set_StyleSet false (host_unregister (SlateStyle, GetStyleSetName) s)
  else s.

Definition RegisterForUndo (env : Env) (s : State) : State :=
  if GUnrealEd env then
    host_register (UndoHook, "FHoudiniEngineEditor") (ExtObject "FHoudiniEngineEditor") s
  else s.

Definition UnregisterForUndo (env : Env) (s : State) : State :=
  if GUnrealEd env then host_unregister (UndoHook, "FHoudiniEngineEditor") s else s.

Definition RegisterModes (env : Env) (s : State) : State :=
  host_register (EditorMode, EM_HoudiniShelfEdModeId env) (ExtObject "FHoudiniShelfEdMode") s.

Definition UnregisterModes (env : Env) (s : State) : State :=
  host_unregister (EditorMode, EM_HoudiniShelfEdModeId env) s.

(** [TArray::Insert( Item, Index )]. *)
Definition TArray_Insert {A} (x : A) (i : nat) (l : list A) : list A :=
  take i l ++ x :: drop i l.

(** The tools are modelled by their names. *)
Definition AddDefaultHoudiniToolToArray (ToolArray : list string) : list string :=
  let ToolArray := TArray_Insert "Rock Generator" 0 ToolArray in
  let ToolArray := TArray_Insert "Boolean" 1 ToolArray in
  let ToolArray := TArray_Insert "Polyreducer" 2 ToolArray in
  TArray_Insert "Curve Instancer" 3 ToolArray.

(** [None] is the failure of [check( HoudiniRuntimeSettings )]. *)
Definition RegisterPlacementModeExtensions (env : Env) (s : State) : option State :=
  if negb (RuntimeSettings env) then None
  else if bHidePlacementModeHoudiniTools env then Some s
  else
    let ToolArray := AddDefaultHoudiniToolToArray (CustomHoudiniTools env) in
    let s := set_HoudiniTools (HoudiniTools s ++ ToolArray) s in
    Some (host_register (PlacementCategory, "HoudiniEngine") (ExtObject "PMHoudiniEngine") s).

Definition UnregisterPlacementModeExtensions (env : Env) (s : State) : State :=
  if PlacementModeAvailable env then
    host_unregister (PlacementCategory, "HoudiniEngine") s
  else s.

Definition RegisterThumbnails (s : State) : State :=
  host_register (ThumbnailRenderer, "HoudiniAsset")
    (ExtObject "UHoudiniAssetThumbnailRenderer") s.

Definition UnregisterThumbnails (env : Env) (s : State) : State :=
  if UObjectInitialized env then
    host_unregister (ThumbnailRenderer, "HoudiniAsset") s
  else s.

Definition StartupModule (env : Env) (s : State) : option State :=
  let s := RegisterAssetTypeActions s in
  let s := RegisterAssetBrokers s in
  let s := RegisterComponentVisualizers env s in
  let s := RegisterDetails s in
  let s := RegisterActorFactories env s in
  let s := RegisterStyleSet s in
  let s := RegisterThumbnails s in
  let s := ExtendMenu env s in
  let s := RegisterConsoleCommands s in
  let s := RegisterForUndo env s in
  let s := if HOUDINI_MODE env then RegisterModes env s else s in
  RegisterPlacementModeExtensions env s.

Definition ShutdownModule (env : Env) (s : State) : State :=
  let s := UnregisterAssetTypeActions env s in
  let s := UnregisterDetails env s in
  let s := UnregisterThumbnails env s in
  let s := UnregisterComponentVisualizers env s in
  let s := UnregisterForUndo env s in
  let s := if HOUDINI_MODE env then UnregisterModes env s else s in
  UnregisterPlacementModeExtensions env s.

(** A freshly constructed module (null visualizers and style set, no
    asset type actions, commands or tools) in an editor that holds the
    extensions [ext] and the level editor actions [gl]. *)
Definition fresh_module (ext : gmap Key Extension) (gl : gmap UICommand FUIAction) : State :=
  {| Extensions := ext; GlobalLevelEditorActions := gl; CCmdStatics := false;
     SplineComponentVisualizer := false; HandleComponentVisualizer := false;
     AssetTypeActions := []; StyleSet := false; HEngineCommands := ∅;
     HoudiniTools := [] |}.

Definition initial_state : State := fresh_module ∅ ∅.

(** An interactive editor session with every host module loaded. *)
Definition editor_env : Env :=
  {| GUnrealEd := true; GEditor := true; IsRunningCommandlet := false;
     HOUDINI_MODE := false; EM_HoudiniShelfEdModeId := "EM_HoudiniShelfEdModeId";
     RuntimeSettings := true; bHidePlacementModeHoudiniTools := false;
     CustomHoudiniTools := [];
     PropertyEditorLoaded := true; AssetToolsLoaded := true;
     UObjectInitialized := true; PlacementModeAvailable := true |}.

(** The state that [StartupModule] leaves in that session, started from
    [initial_state]. *)
Definition started : State :=
  default initial_state (StartupModule editor_env initial_state).

(** The keys whose registration [ShutdownModule] undoes. *)
Definition unregistered_keys (env : Env) : list Key :=
  [ (AssetTypeAction, "FHoudiniAssetTypeActions");
    (DetailCustomizer, "HoudiniAssetComponent");
    (DetailCustomizer, "HoudiniRuntimeSettings");
    (ThumbnailRenderer, "HoudiniAsset");
    (ComponentVisualizer, "HoudiniSplineComponent");
    (ComponentVisualizer, "HoudiniHandleComponent");
    (UndoHook, "FHoudiniEngineEditor");
    (PlacementCategory, "HoudiniEngine") ]
  ++ (if HOUDINI_MODE env then [(EditorMode, EM_HoudiniShelfEdModeId env)] else []).

(** The subsystems for which the source has no unregistration. *)
Definition never_unregistered : list Subsystem :=
  [ActorFactory; ConsoleCommand; MainMenuExtension].

(** The pairing of the UI commands with the console commands named
    after them. *)
Definition console_name (c : UICommand) : option string :=
  match c with
  | OpenInHoudini => Some "Houdini.Open"
  | SaveHIPFile => Some "Houdini.Save"
  | ReportBug => None
  | CleanUpTempFolder => Some "Houdini.Clean"
  | BakeAllAssets => Some "Houdini.BakeAll"
  | PauseAssetCooking => Some "Houdini.Pause"
  | CookSelec => Some "Houdini.Cook"
  | RebuildSelec => Some "Houdini.Rebuild"
  | BakeSelec => Some "Houdini.Bake"
  end.

(** The handler that each UI command is said to run. *)
Definition ui_handlers : list (UICommand * Handler) :=
  [ (SaveHIPFile, fn_SaveHIPFile); (OpenInHoudini, fn_OpenInHoudini);
    (ReportBug, fn_ReportBug); (CleanUpTempFolder, fn_CleanUpTempFolder);
    (BakeAllAssets, fn_BakeAllAssets); (PauseAssetCooking, fn_PauseAssetCooking);
    (CookSelec, fn_RecookSelection); (RebuildSelec, fn_RebuildSelection);
    (BakeSelec, fn_BakeSelection) ].

(** The handler that each console command is said to run. *)
Definition console_handlers : list (string * Handler) :=
  [ ("Houdini.Save", fn_SaveHIPFile); ("Houdini.Open", fn_OpenInHoudini);
    ("Houdini.Clean", fn_CleanUpTempFolder); ("Houdini.BakeAll", fn_BakeAllAssets);
    ("Houdini.Pause", fn_PauseAssetCooking);
    ("Houdini.Cook", fn_RecookSelection); ("Houdini.Rebuild", fn_RebuildSelection);
    ("Houdini.Bake", fn_BakeSelection);
    ("Houdini.CookAll", fn_RecookAllAssets); ("Houdini.RebuildAll", fn_RebuildAllAssets) ].

(** The delegate of a console command of the registry. *)
Definition console_delegate (s : State) (name : string) : option Handler :=
  match Extensions s !! (ConsoleCommand, name) with
  | Some (ExtConsole _ delegate) => Some delegate
  | _ => None
  end.

End Registration.

(** * Command handlers: save, open in Houdini, report bug, pause cooking *)

Module Commands.

Record UHoudiniAssetComponent := {
  ComponentId : ObjId;
  IsValidLowLevel : bool
}.

(** What the handlers read from the host, the engine and the build. *)
Record Host := {
  DesktopPlatform : bool;                   (* FDesktopPlatformModule::Get() != nullptr *)
  HoudiniEngineUtils_IsInitialized : bool;  (* FHoudiniEngineUtils::IsInitialized() *)
  HoudiniEngine_IsInitialized : bool;       (* FHoudiniEngine::IsInitialized() *)
  SaveFileDialog_result : bool * list WideString;  (* bSaved and SaveFilenames *)
  CreateTempFilename : string;              (* FPaths::CreateTempFilename( UserTempDir, "HoudiniEngine", ".hip" ) *)
  HapiSaveHIPFile_writes : string -> bool;  (* whether the engine writes the file it is asked to save *)
  LibHAPILocation : string;
  HAPI_UNREAL_BUG_REPORT_URL : string;
  HoudiniAssetComponents : list (option UHoudiniAssetComponent)  (* TObjectIterator<UHoudiniAssetComponent> *)
}.

(** What the handlers change. *)
Record World := {
  Trace : list Event;          (* the calls made so far, the latest last *)
  Files : gset string;         (* the files on disk *)
  EnableCookingGlobal : bool   (* the flag of FHoudiniEngine *)
}.

Definition Cmd (A : Type) : Type := World -> A * World.

Definition ret {A} (a : A) : Cmd A := fun w => (a, w).

Definition bind {A B} (m : Cmd A) (k : A -> Cmd B) : Cmd B :=
  fun w => let '(a, w') := m w in k a w'.

Notation "'let*' x ':=' m 'in' k" := (bind m (fun x => k))
  (at level 10, x pattern, m at level 100, k at level 200).
Notation "m '>>' k" := (bind m (fun _ => k))
  (at level 60, right associativity).

Definition call (e : Event) : Cmd unit :=
  fun w => (tt, {| Trace := Trace w ++ [e]; Files := Files w;
                   EnableCookingGlobal := EnableCookingGlobal w |}).

Definition run {A} (m : Cmd A) (w : World) : World := snd (m w).

(** The calls a command makes when run in [w]. *)
Definition calls_made {A} (m : Cmd A) (w : World) : list Event :=
  drop (length (Trace w)) (Trace (run m w)).

(** [FHoudiniApi::SaveHIPFile]: the call, and the file the engine writes. *)
Definition FHoudiniApi_SaveHIPFile (h : Host) (path : string) : Cmd unit :=
  call (HapiSaveHIPFile path) >>
  fun w => (tt, {| Trace := Trace w;
                   Files := if HapiSaveHIPFile_writes h path then {[path]} ∪ Files w else Files w;
                   EnableCookingGlobal := EnableCookingGlobal w |}).

Definition FileExists (path : string) : Cmd bool :=
  fun w => (bool_decide (path ∈ Files w), w).

(** [FHoudiniEngine::GetEnableCookingGlobal] and
    [SetEnableCookingGlobal] belong to the runtime module: they read and
    write the one flag.  [UHoudiniAssetComponent::StartHoudiniTicking],
    of the runtime module too, starts the timers of a component and
    leaves the flag alone; it appears as a call. *)
Definition GetEnableCookingGlobal : Cmd bool :=
  fun w => (EnableCookingGlobal w, w).

Definition FHoudiniEngine_SetEnableCookingGlobal (b : bool) : Cmd unit :=
  call (SetEnableCookingGlobal b) >>
  fun w => (tt, {| Trace := Trace w; Files := Files w; EnableCookingGlobal := b |}).

Definition CanSaveHIPFile (h : Host) : bool := HoudiniEngine_IsInitialized h.

Definition SaveHIPFile (h : Host) : Cmd unit :=
  if DesktopPlatform h && HoudiniEngineUtils_IsInitialized h then
    call (LoadModuleChecked "MainFrame") >>
    call SaveFileDialog >>
    let '(bSaved, SaveFilenames) := SaveFileDialog_result h in
    if bSaved && bool_decide (length SaveFilenames ≠ 0) then
      call (CreateSlateNotification "Saving internal Houdini scene...") >>
      call (HOUDINI_LOG_MESSAGE_s "Saved Houdini scene to %s" (default [] (SaveFilenames !! 0))) >>
      (* Get first path. *)
      let HIPPath := default [] (SaveFilenames !! 0) in
      let HIPPathConverted := std_string_of_wchar_range HIPPath in
      (* Save HIP file through Engine. *)
      FHoudiniApi_SaveHIPFile h HIPPathConverted
    else ret tt
  else ret tt.

Definition CanOpenInHoudini (h : Host) : bool := HoudiniEngine_IsInitialized h.

Definition OpenInHoudini (h : Host) : Cmd unit :=
  if negb (HoudiniEngine_IsInitialized h) then ret tt
  else
    let UserTempPath := CreateTempFilename h in
    FHoudiniApi_SaveHIPFile h UserTempPath >>
    let* bExists := FileExists UserTempPath in
    if negb bExists then ret tt
    else
      call (CreateSlateNotification "Opening scene in Houdini...") >>
      call (HOUDINI_LOG_MESSAGE "Opened scene in Houdini.") >>
      let houdiniLocation := LibHAPILocation h +:+ "//houdini" in
      call (CreateProc houdiniLocation UserTempPath).

Definition ReportBug (h : Host) : Cmd unit :=
  call (LaunchURL (HAPI_UNREAL_BUG_REPORT_URL h)).

Definition CanReportBug (h : Host) : bool := HoudiniEngine_IsInitialized h.

(** The loop of [PauseAssetCooking] over the components. *)
Fixpoint tick_components (Itr : list (option UHoudiniAssetComponent)) : Cmd unit :=
  match Itr with
  | [] => ret tt
  | HoudiniAssetComponent :: Itr' =>
      match HoudiniAssetComponent with
      | Some c =>
          if IsValidLowLevel c then call (StartHoudiniTicking (ComponentId c))
          else call (HOUDINI_LOG_ERROR "Failed to cook a Houdini Asset in the scene!")
      | None => call (HOUDINI_LOG_ERROR "Failed to cook a Houdini Asset in the scene!")
      end >> tick_components Itr'
  end.

Definition PauseAssetCooking (h : Host) : Cmd unit :=
  (* Revert the global flag *)
  let* b := GetEnableCookingGlobal in
  let CurrentEnableCookingGlobal := negb b in
  FHoudiniEngine_SetEnableCookingGlobal CurrentEnableCookingGlobal >>
  call (CreateSlateNotification
          (if CurrentEnableCookingGlobal then "Houdini Engine cooking resumed"
           else "Houdini Engine cooking paused")) >>
  call (HOUDINI_LOG_MESSAGE
          (if CurrentEnableCookingGlobal then "Houdini Engine cooking resumed."
           else "Houdini Engine cooking paused.")) >>
  if negb CurrentEnableCookingGlobal then ret tt
  else tick_components (HoudiniAssetComponents h).

Definition CanPauseAssetCooking (h : Host) : bool :=
  if negb (HoudiniEngine_IsInitialized h) then false else true.

Definition IsAssetCookingPaused : Cmd bool :=
  let* b := GetEnableCookingGlobal in ret (negb b).


(** A running editor with an initialized engine, in which the user picks
    a file in the save dialog. *)
Definition live_host : Host :=
  {| DesktopPlatform := true; HoudiniEngineUtils_IsInitialized := true;
     HoudiniEngine_IsInitialized := true;
     SaveFileDialog_result := (true, [TEXT "C:/scenes/out.hip"]);
     CreateTempFilename := "/tmp/HoudiniEngine0.hip";
     HapiSaveHIPFile_writes := fun _ => true;
     LibHAPILocation := "C:/Houdini/bin"; HAPI_UNREAL_BUG_REPORT_URL := "bug-report-url";
     HoudiniAssetComponents :=
       [Some {| ComponentId := 1; IsValidLowLevel := true |}; None;
        Some {| ComponentId := 2; IsValidLowLevel := false |}] |}.

(** The same editor when the user types the file name [Łódź.hip]: four
    letters of which three lie above the range of [char]. *)
Definition wide_name_host : Host :=
  {| DesktopPlatform := true; HoudiniEngineUtils_IsInitialized := true;
     HoudiniEngine_IsInitialized := true;
     SaveFileDialog_result := (true, [[321; 243; 100; 378]%N ++ TEXT ".hip"]);
     CreateTempFilename := "/tmp/HoudiniEngine0.hip";
     HapiSaveHIPFile_writes := fun _ => true;
     LibHAPILocation := "C:/Houdini/bin"; HAPI_UNREAL_BUG_REPORT_URL := "bug-report-url";
     HoudiniAssetComponents := [] |}.

Definition empty_world : World :=
  {| Trace := []; Files := ∅; EnableCookingGlobal := true |}.

End Commands.

(** * The temporary cook folder: CleanUpTempFolder *)

Module TempFolder.

(** [FAssetData], by the two pointers the code asks it for. *)
Record FAssetData := {
  GetPackage : Ptr;
  GetAsset : Ptr
}.

#[global] Instance FAssetData_eq_dec : EqDecision FAssetData.
Proof. solve_decision. Defined.

Record FReferencerInformation := {
  Referencer : ObjId
}.

(** The engine calls of the cleanup, over a type [W] of engine states.
    The first four read the state; the two deletions change it and report
    a count. *)
Class AssetHost (W : Type) := {
  (* UObjectLibrary: LoadAssetDataFromPath, then GetAssetDataList *)
  GetAssetDataList : W -> string -> list FAssetData;
  (* IAssetRegistry::GetAssetsByPackageName on the FName of a package *)
  GetAssetsByPackageName : W -> ObjId -> list FAssetData;
  (* IsReferenced: its result and the ExternalReferences it fills in *)
  IsReferenced : W -> ObjId -> bool * list FReferencerInformation;
  (* UObject::GetOuter *)
  GetOuter : W -> ObjId -> Ptr;
  (* ObjectTools::DeleteAssets *)
  DeleteAssets : W -> list FAssetData -> W * Z;
  (* ObjectTools::ForceDeleteObjects *)
  ForceDeleteObjects : W -> list ObjId -> W * Z
}.



Section CleanUp.

Context {W : Type} `{AssetHost W}.

(** The loop over [AssetDataToDelete] that looks for [Outer]. *)
Fixpoint OuterFound (AssetDataToDelete : list FAssetData) (Outer : Ptr) : bool :=
  match AssetDataToDelete with
  | [] => false
  | DataToDelete :: rest =>
      if ptr_eqb (GetPackage DataToDelete) Outer then true
      else if ptr_eqb (GetAsset DataToDelete) Outer then true
      else OuterFound rest Outer
  end.

(** The loop over [ExternalReferences]: [false] when it leaves with
    [bAssetDataSafeToDelete = false]. *)
Fixpoint ExternalReferences_loop (w : W) (AssetDataToDelete : list FAssetData)
    (ExternalReferences : list FReferencerInformation) : bool :=
  match ExternalReferences with
  | [] => true
  | ExtRef :: rest =>
      let Outer := GetOuter w (Referencer ExtRef) in
      let bOuterFound := OuterFound AssetDataToDelete Outer in
      (* We have at least one reference that's not going to be deleted *)
      if negb bOuterFound then false
      else ExternalReferences_loop w AssetDataToDelete rest
  end.

(** The loop over [AssetsInPackage], threading [bAssetDataSafeToDelete]. *)
Fixpoint AssetsInPackage_loop (w : W) (AssetDataToDelete AssetsInPackage : list FAssetData)
    (bAssetDataSafeToDelete : bool) : bool :=
  match AssetsInPackage with
  | [] => bAssetDataSafeToDelete
  | AssetInfo :: rest =>
      match GetAsset AssetInfo with
      | None => AssetsInPackage_loop w AssetDataToDelete rest bAssetDataSafeToDelete
      | Some AssetInPackage =>
          let '(bReferencedInMemoryOrUndoStack, ExternalReferences) :=
            IsReferenced w AssetInPackage in
          if negb bReferencedInMemoryOrUndoStack then
            AssetsInPackage_loop w AssetDataToDelete rest bAssetDataSafeToDelete
          else
            AssetsInPackage_loop w AssetDataToDelete rest
              (if ExternalReferences_loop w AssetDataToDelete ExternalReferences
               then bAssetDataSafeToDelete else false)
      end
  end.

(** One iteration of the loop over [AssetDataList]. *)
Definition AssetDataList_step (w : W) (AssetDataToDelete : list FAssetData)
    (Data : FAssetData) : list FAssetData :=
  match GetPackage Data with
  | None => AssetDataToDelete
  | Some CurrentPackage =>
      let AssetsInPackage := GetAssetsByPackageName w CurrentPackage in
      if AssetsInPackage_loop w AssetDataToDelete AssetsInPackage true
      then AssetDataToDelete ++ [Data]
      else AssetDataToDelete
  end.

(** [AssetDataToDelete] after the loop over a part of [AssetDataList]. *)
Definition AssetDataToDelete_after (w : W) (AssetDataList : list FAssetData) : list FAssetData :=
  foldl (AssetDataList_step w) [] AssetDataList.

(** The objects handed to [ForceDeleteObjects]. *)
Definition ObjectsToDelete_of (AssetDataToDelete : list FAssetData) : list ObjId :=
  omap GetAsset AssetDataToDelete.

(** One pass of the [while] loop. *)
Record Pass := {
  pass_world : W;
  pass_AssetDataToDelete : list FAssetData;
  pass_CurrentDeleted : Z;    (* 0 when the pass leaves the loop before deleting *)
  pass_DeletedCount : Z;
  bDidDeleteAsset : bool;
  pass_calls : list Event
}.

Definition CleanUp_pass (TempCookFolder : string) (w : W) (DeletedCount : Z) : Pass :=
  let AssetDataList := GetAssetDataList w TempCookFolder in
  let AssetDataToDelete := AssetDataToDelete_after w AssetDataList in
  (* Nothing to delete *)
  if (Z.of_nat (length AssetDataToDelete) <=? 0)%Z then
    {| pass_world := w; pass_AssetDataToDelete := AssetDataToDelete;
       pass_CurrentDeleted := 0; pass_DeletedCount := DeletedCount;
       bDidDeleteAsset := false;
       pass_calls := [LoadAssetDataFromPath TempCookFolder] |}
  else
    let '(w1, CurrentDeleted) := DeleteAssets w AssetDataToDelete in
    let '(w2, CurrentDeleted, force) :=
      if (CurrentDeleted <=? 0)%Z then
        (* Normal deletion failed...  Try to force delete the objects? *)
        let ObjectsToDelete := ObjectsToDelete_of AssetDataToDelete in
        let '(w2, CurrentDeleted) := ForceDeleteObjects w1 ObjectsToDelete in
        (w2, CurrentDeleted, [ForceDeleteObjectsCall (length ObjectsToDelete)])
      else (w1, CurrentDeleted, []) in
    let calls := [LoadAssetDataFromPath TempCookFolder;
                  DeleteAssetsCall (length AssetDataToDelete)] ++ force in
    if (0 <? CurrentDeleted)%Z then
      {| pass_world := w2; pass_AssetDataToDelete := AssetDataToDelete;
         pass_CurrentDeleted := CurrentDeleted;
         pass_DeletedCount := int32_add DeletedCount CurrentDeleted;
         bDidDeleteAsset := true; pass_calls := calls |}
    else
      {| pass_world := w2; pass_AssetDataToDelete := AssetDataToDelete;
         pass_CurrentDeleted := CurrentDeleted;
         pass_DeletedCount := DeletedCount;
         bDidDeleteAsset := false; pass_calls := calls |}.

(** The [while ( bDidDeleteAsset )] loop; [None] when [fuel] passes did
    not end it. *)
Fixpoint CleanUp_loop (fuel : nat) (TempCookFolder : string) (w : W) (DeletedCount : Z)
    : option (W * Z * list Event) :=
  match fuel with
  | 0 => None
  | S fuel' =>
      let p := CleanUp_pass TempCookFolder w DeletedCount in
      if bDidDeleteAsset p then
        match CleanUp_loop fuel' TempCookFolder (pass_world p) (pass_DeletedCount p) with
        | Some (w', DeletedCount', calls) => Some (w', DeletedCount', pass_calls p ++ calls)
        | None => None
        end
      else Some (pass_world p, pass_DeletedCount p, pass_calls p)
  end.

(** [HoudiniRuntimeSettings] is the temporary cook folder of the settings
    object, or [None] for a null settings object. *)
Definition CleanUpTempFolder (fuel : nat) (HoudiniRuntimeSettings : option string) (w : W)
    : option (W * list Event) :=
  let start := [CreateSlateNotification "Cleaning up Houdini Engine temporary folder"] in
  match HoudiniRuntimeSettings with
  | None => Some (w, start)
  | Some TempCookFolder =>
      match CleanUp_loop fuel TempCookFolder w 0 with
      | Some (w', DeletedCount, calls) =>
          Some (w', start ++ [LoadModuleChecked "AssetRegistry"] ++ calls ++
                    [CreateSlateNotification
                       ("Deleted " +:+ FromInt DeletedCount +:+ " temporary files.");
                     HOUDINI_LOG_MESSAGE
                       ("Deleted " +:+ FromInt DeletedCount +:+ " temporary files.")])
      | None => None
      end
  end.

(** *** The conditions of the cleanup, in words *)

(** [Outer] is the package or the asset of an entry of the list. *)
Definition owned (AssetDataToDelete : list FAssetData) (Outer : Ptr) : Prop :=
  exists D, D ∈ AssetDataToDelete /\ (GetPackage D = Outer \/ GetAsset D = Outer).

(** The condition of the cleanup, in words: [Data] has a package, and
    each loaded asset of the package either is not referenced in memory
    or from the undo stack, or has the outer of every external referencer
    owned by the deletion list. *)
Definition deletable (w : W) (AssetDataToDelete : list FAssetData) (Data : FAssetData) : Prop :=
  exists CurrentPackage, GetPackage Data = Some CurrentPackage /\
  forall AssetInfo, AssetInfo ∈ GetAssetsByPackageName w CurrentPackage ->
  forall AssetInPackage, GetAsset AssetInfo = Some AssetInPackage ->
    (IsReferenced w AssetInPackage).1 = false \/
    forall ExtRef, ExtRef ∈ (IsReferenced w AssetInPackage).2 ->
      owned AssetDataToDelete (GetOuter w (Referencer ExtRef)).

(** What the loop over the assets of a package requires of one asset. *)
Definition asset_ok (w : W) (l : list FAssetData) (AssetInfo : FAssetData) : Prop :=
  forall AssetInPackage, GetAsset AssetInfo = Some AssetInPackage ->
    (IsReferenced w AssetInPackage).1 = false \/
    forall ExtRef, ExtRef ∈ (IsReferenced w AssetInPackage).2 ->
      owned l (GetOuter w (Referencer ExtRef)).



End CleanUp.

(** *** A small engine state to run the cleanup on

    The assets of the temporary cook folder and the references held by
    live objects.  Deleting assets removes them from the folder, together
    with the references held from inside them, and reports how many
    assets went. *)
Record Library := {
  assets : list FAssetData;
  references : list (ObjId * Ptr * ObjId)  (* a referencer, its outer, the object it references *)
}.

Definition asset_data_in (l : list FAssetData) (D : FAssetData) : bool :=
  existsb (fun D' => bool_decide (D = D')) l.

Definition owned_by (l : list FAssetData) (o : Ptr) : bool :=
  existsb (fun D => ptr_eqb (GetPackage D) o || ptr_eqb (GetAsset D) o) l.

Definition Library_IsReferenced (w : Library) (o : ObjId) : bool * list FReferencerInformation :=
  let rs := List.filter (fun r => Nat.eqb r.2 o) (references w) in
  (negb (Nat.eqb (length rs) 0), map (fun r => {| Referencer := r.1.1 |}) rs).

Definition Library_GetOuter (w : Library) (o : ObjId) : Ptr :=
  match List.find (fun r => Nat.eqb r.1.1 o) (references w) with
  | Some r => r.1.2
  | None => None
  end.

Definition Library_remove (w : Library) (gone : list FAssetData) : Library * Z :=
  let kept := List.filter (fun D => negb (asset_data_in gone D)) (assets w) in
  ({| assets := kept;
      references := List.filter (fun r => negb (owned_by gone r.1.2)) (references w) |},
   Z.of_nat (length (assets w) - length kept)).

Definition Library_ForceDeleteObjects (w : Library) (objs : list ObjId) : Library * Z :=
  Library_remove w
    (List.filter (fun D => match GetAsset D with
                           | Some o => existsb (Nat.eqb o) objs
                           | None => false
                           end) (assets w)).

#[global] Instance Library_host : AssetHost Library := {
  GetAssetDataList w _ := assets w;
  GetAssetsByPackageName w p :=
    List.filter (fun D => ptr_eqb (GetPackage D) (Some p)) (assets w);
  IsReferenced := Library_IsReferenced;
  GetOuter := Library_GetOuter;
  DeleteAssets := Library_remove;
  ForceDeleteObjects := Library_ForceDeleteObjects
}.

(** A texture (package 10, object 11) used by a material (package 20,
    object 21); the folder lists the texture first. *)
Definition Texture : FAssetData := {| GetPackage := Some 10; GetAsset := Some 11 |}.
Definition Material : FAssetData := {| GetPackage := Some 20; GetAsset := Some 21 |}.

Definition material_library : Library :=
  {| assets := [Texture; Material];
     references := [(21, Some 20, 11)] |}.

(** The same folder while a level actor (object 30 of the level package
    3) also uses the texture. *)
Definition used_library : Library :=
  {| assets := [Texture; Material];
     references := [(21, Some 20, 11); (30, Some 3, 11)] |}.

(** *** An engine whose deletions have no effect

    [DeleteAssets] and [ForceDeleteObjects] report every asset they are
    given as deleted, and leave the folder as it is: its one asset, which
    nothing references, is listed again by the next pass. *)
Inductive Lingering := lingering.

#[global] Instance Lingering_host : AssetHost Lingering := {
  GetAssetDataList _ _ := [Texture];
  GetAssetsByPackageName _ _ := [Texture];
  IsReferenced _ _ := (false, []);
  GetOuter _ _ := None;
  DeleteAssets w l := (w, Z.of_nat (length l));
  ForceDeleteObjects w l := (w, Z.of_nat (length l))
}.

End TempFolder.

(** * The world selection: GetWorldSelection *)

Module Selection.

(** A selected object, by what the code asks of it. *)
Record UObject := {
  ObjectId : ObjId;
  IsA_AActor : bool;              (* Cast< AActor > succeeds *)
  GetClass : option string;       (* the name of its class; None for a null class *)
  IsA_AHoudiniAssetActor : bool   (* Cast< AHoudiniAssetActor > succeeds *)
}.

Definition Cast_AActor (o : option UObject) : option UObject :=
  match o with
  | Some x => if IsA_AActor x then Some x else None
  | None => None
  end.

Definition Cast_AHoudiniAssetActor (o : option UObject) : option UObject :=
  match o with
  | Some x => if IsA_AHoudiniAssetActor x then Some x else None
  | None => None
  end.

Record Editor := {
  GEditor : bool;                             (* GEditor != nullptr *)
  GetSelectedActors : list (option UObject)   (* what FSelectionIterator yields *)
}.

(** The loop over the selection. *)
Fixpoint selection_loop (It : list (option UObject)) (WorldSelection : list UObject)
    : list UObject :=
  match It with
  | [] => WorldSelection
  | o :: It' =>
      match Cast_AActor o with
      | None => selection_loop It' WorldSelection
      | Some Actor =>
          (* Ignore the SkySphere? *)
          let ClassName := match GetClass Actor with Some n => n | None => "" end in
          if FString_eq ClassName "BP_Sky_Sphere_C" then selection_loop It' WorldSelection
          else selection_loop It' (WorldSelection ++ [Actor])
      end
  end.

(** The loop [for ( Idx = Num() - 1; Idx >= 0; Idx-- )]; [n] is [Idx + 1]. *)
Fixpoint remove_loop (n : nat) (WorldSelection : list UObject) : list UObject :=
  match n with
  | 0 => WorldSelection
  | S Idx =>
      match Cast_AHoudiniAssetActor (WorldSelection !! Idx) with
      | None => remove_loop Idx (delete Idx WorldSelection)   (* RemoveAt( Idx ) *)
      | Some _ => remove_loop Idx WorldSelection
      end
  end.

(** [WorldSelection] is the array the caller passes in; the result is
    the array on return and the returned count. *)
Definition GetWorldSelection (ed : Editor) (WorldSelection : list UObject)
    (bHoudiniAssetActorsOnly : bool) : list UObject * Z :=
  let WorldSelection : list UObject := [] in   (* Empty() *)
  let WorldSelection :=
    if GEditor ed then selection_loop (GetSelectedActors ed) WorldSelection
    else WorldSelection in
  let WorldSelection :=
    if bHoudiniAssetActorsOnly then remove_loop (length WorldSelection) WorldSelection
    else WorldSelection in
  (WorldSelection, Z.of_nat (length WorldSelection)).

(** What the selection loop keeps of one selected object. *)
Definition kept (o : option UObject) : option UObject :=
  match Cast_AActor o with
  | None => None
  | Some Actor =>
      if FString_eq (match GetClass Actor with Some n => n | None => "" end) "BP_Sky_Sphere_C"
      then None else Some Actor
  end.

Definition SkySphere : UObject :=
  {| ObjectId := 1; IsA_AActor := true; GetClass := Some "BP_Sky_Sphere_C";
     IsA_AHoudiniAssetActor := false |}.
Definition Cube : UObject :=
  {| ObjectId := 2; IsA_AActor := true; GetClass := Some "StaticMeshActor";
     IsA_AHoudiniAssetActor := false |}.
Definition Rock : UObject :=
  {| ObjectId := 3; IsA_AActor := true; GetClass := Some "HoudiniAssetActor";
     IsA_AHoudiniAssetActor := true |}.
Definition Fence : UObject :=
  {| ObjectId := 4; IsA_AActor := true; GetClass := Some "HoudiniAssetActor";
     IsA_AHoudiniAssetActor := true |}.

Definition level_selection : Editor :=
  {| GEditor := true;
     GetSelectedActors := [Some Rock; Some SkySphere; None; Some Cube; Some Fence] |}.

End Selection.

(** * Baking: BakeAllAssets and BakeSelection *)

Module Bake.

(** The engine and runtime calls of the bake workflows, over a type [W]
    of engine states.  [ReplaceHoudiniActorWithBlueprint] belongs to
    [FHoudiniEngineBakeUtils]; it changes the state and reports success.
    [GetOuter] and [GetName] are [UObject]'s. *)
Class BakeHost (W : Type) := {
  ObjectIterator : W -> list Ptr;    (* TObjectIterator<UHoudiniAssetComponent> *)
  Editor_of : W -> Selection.Editor;
  GetHoudiniAssetComponent : W -> ObjId -> Ptr;
  IsComponentValid : W -> ObjId -> bool;
  IsInstantiatingOrCooking : W -> ObjId -> bool;
  GetOuter : W -> ObjId -> Ptr;
  GetName : W -> ObjId -> string;
  ReplaceHoudiniActorWithBlueprint : W -> ObjId -> W * bool
}.

Section Workflows.

Context {W : Type} `{BakeHost W}.

(** One call of [ReplaceHoudiniActorWithBlueprint]: the state it was made
    in, its argument and its result. *)
Record BakeCall := {
  call_world : W;
  call_component : ObjId;
  call_result : bool
}.

(** What one turn of a loop, or the loop, leaves: the state, the count,
    the bake calls made and the errors logged. *)
Record Turn := {
  turn_world : W;
  turn_BakedCount : Z;
  turn_calls : list BakeCall;
  turn_logs : list Event
}.

(** [GetOuter() ? GetOuter()->GetName() : GetName()] of a component. *)
Definition AssetName (w : W) (HoudiniAssetComponent : ObjId) : string :=
  match GetOuter w HoudiniAssetComponent with
  | Some Outer => GetName w Outer
  | None => GetName w HoudiniAssetComponent
  end.

(** The end of both loop bodies, on a component that is not null and is
    valid. *)
Definition bake_if_idle (w : W) (HoudiniAssetComponent : ObjId) (BakedCount : Z) : Turn :=
  (* If component is not cooking or instancing, we can bake blueprint. *)
  if negb (IsInstantiatingOrCooking w HoudiniAssetComponent) then
    let '(w', bBaked) := ReplaceHoudiniActorWithBlueprint w HoudiniAssetComponent in
    {| turn_world := w';
       turn_BakedCount := if bBaked then int32_add BakedCount 1 else BakedCount;
       turn_calls := [{| call_world := w; call_component := HoudiniAssetComponent;
                         call_result := bBaked |}];
       turn_logs := [] |}
  else {| turn_world := w; turn_BakedCount := BakedCount; turn_calls := []; turn_logs := [] |}.

(** The body of the loop of [BakeAllAssets] on one entry of the
    iterator. *)
Definition BakeAllAssets_body (w : W) (HoudiniAssetComponent : Ptr) (BakedCount : Z) : Turn :=
  match HoudiniAssetComponent with
  | None =>
      {| turn_world := w; turn_BakedCount := BakedCount; turn_calls := [];
         turn_logs := [HOUDINI_LOG_ERROR "Failed to export a Houdini Asset in the scene!"] |}
  | Some c =>
      if negb (IsComponentValid w c) then
        let AssetName := AssetName w c in
        {| turn_world := w; turn_BakedCount := BakedCount; turn_calls := [];
           turn_logs :=
             if negb (FString_eq AssetName "Default__HoudiniAssetActor") then
               [HOUDINI_LOG_ERROR
                  ("Failed to export Houdini Asset: " +:+ AssetName +:+ " in the scene!")]
             else [] |}
      else bake_if_idle w c BakedCount
  end.

Fixpoint BakeAllAssets_loop (Itr : list Ptr) (w : W) (BakedCount : Z) : Turn :=
  match Itr with
  | [] => {| turn_world := w; turn_BakedCount := BakedCount; turn_calls := []; turn_logs := [] |}
  | HoudiniAssetComponent :: Itr' =>
      let t1 := BakeAllAssets_body w HoudiniAssetComponent BakedCount in
      let t2 := BakeAllAssets_loop Itr' (turn_world t1) (turn_BakedCount t1) in
      {| turn_world := turn_world t2; turn_BakedCount := turn_BakedCount t2;
         turn_calls := turn_calls t1 ++ turn_calls t2;
         turn_logs := turn_logs t1 ++ turn_logs t2 |}
  end.

(** What a workflow leaves: the state, the count it reports ([None] when
    it returns without reporting one), the bake calls it made, and its
    notifications and log messages in order. *)
Record Outcome := {
  out_world : W;
  out_BakedCount : option Z;
  out_calls : list BakeCall;
  out_events : list Event
}.

Definition BakeAllAssets (w : W) : Outcome :=
  let t := BakeAllAssets_loop (ObjectIterator w) w 0 in
  let BakedCount := turn_BakedCount t in
  {| out_world := turn_world t; out_BakedCount := Some BakedCount; out_calls := turn_calls t;
     out_events :=
       [CreateSlateNotification "Baking all assets in the current level..."] ++
       turn_logs t ++
       [CreateSlateNotification ("Baked " +:+ FromInt BakedCount +:+ " Houdini assets.");
        HOUDINI_LOG_MESSAGE ("Baked all " +:+ FromInt BakedCount +:+
                             " Houdini assets in the current level.")] |}.

(** The body of the loop of [BakeSelection] on the component of a
    selected Houdini asset actor. *)
Definition BakeSelection_body (w : W) (HoudiniAssetComponent : Ptr) (BakedCount : Z) : Turn :=
  match HoudiniAssetComponent with
  | None =>
      {| turn_world := w; turn_BakedCount := BakedCount; turn_calls := [];
         turn_logs := [HOUDINI_LOG_ERROR "Failed to export a Houdini Asset in the scene!"] |}
  | Some c =>
      if negb (IsComponentValid w c) then
        let AssetName := AssetName w c in
        {| turn_world := w; turn_BakedCount := BakedCount; turn_calls := [];
           turn_logs :=
             [HOUDINI_LOG_ERROR
                ("Failed to export Houdini Asset: " +:+ AssetName +:+ " in the scene!")] |}
      else bake_if_idle w c BakedCount
  end.

Fixpoint BakeSelection_loop (WorldSelection : list Selection.UObject) (w : W) (BakedCount : Z)
    : Turn :=
  match WorldSelection with
  | [] => {| turn_world := w; turn_BakedCount := BakedCount; turn_calls := []; turn_logs := [] |}
  | o :: rest =>
      match Selection.Cast_AHoudiniAssetActor (Some o) with
      | None => BakeSelection_loop rest w BakedCount
      | Some HoudiniAssetActor =>
          let HoudiniAssetComponent :=
            GetHoudiniAssetComponent w (Selection.ObjectId HoudiniAssetActor) in
          let t1 := BakeSelection_body w HoudiniAssetComponent BakedCount in
          let t2 := BakeSelection_loop rest (turn_world t1) (turn_BakedCount t1) in
          {| turn_world := turn_world t2; turn_BakedCount := turn_BakedCount t2;
             turn_calls := turn_calls t1 ++ turn_calls t2;
             turn_logs := turn_logs t1 ++ turn_logs t2 |}
      end
  end.

Definition BakeSelection (w : W) : Outcome :=
  let '(WorldSelection, SelectedHoudiniAssets) :=
    Selection.GetWorldSelection (Editor_of w) [] true in
  if (SelectedHoudiniAssets <=? 0)%Z then
    {| out_world := w; out_BakedCount := None; out_calls := [];
       out_events := [HOUDINI_LOG_MESSAGE "No Houdini Assets selected in the world outliner"] |}
  else
    let t := BakeSelection_loop WorldSelection w 0 in
    let BakedCount := turn_BakedCount t in
    {| out_world := turn_world t; out_BakedCount := Some BakedCount; out_calls := turn_calls t;
       out_events :=
         [CreateSlateNotification "Baking selected Houdini Asset Actors in the current level..."]
         ++ turn_logs t ++
         [CreateSlateNotification ("Baked " +:+ FromInt BakedCount +:+ " Houdini assets.");
          HOUDINI_LOG_MESSAGE ("Baked all " +:+ FromInt BakedCount +:+
                               " Houdini assets in the current level.")] |}.

(** The number of calls that returned success. *)
Definition successes (calls : list BakeCall) : nat :=
  length (List.filter call_result calls).

(** A bake call is guarded when, in the state it was made in, its
    component was valid and neither instantiating nor cooking. *)
Definition guarded (call : BakeCall) : Prop :=
  IsComponentValid (call_world call) (call_component call) = true /\
  IsInstantiatingOrCooking (call_world call) (call_component call) = false.

(** A component that a loop body bakes when it meets it in [w]. *)
Definition ready (w : W) (c : ObjId) : bool :=
  IsComponentValid w c && negb (IsInstantiatingOrCooking w c).

(** What both loop bodies do with a component pointer [cp] met in [w]
    with the count [n]: at most one bake call, made in [w] on [cp] when
    it is guarded, counted when it succeeds; and no call, with the state
    left alone, exactly when [cp] is null or not ready. *)
Definition turn_ok (w : W) (cp : Ptr) (n : Z) (t : Turn) : Prop :=
  turn_BakedCount t = (n + Z.of_nat (successes (turn_calls t)))%Z /\
  length (turn_calls t) <= 1 /\
  (forall call, call ∈ turn_calls t ->
     guarded call /\ cp = Some (call_component call) /\ call_world call = w) /\
  (turn_calls t = [] -> turn_world t = w) /\
  (turn_calls t = [] <-> forall c, cp = Some c -> ready w c = false).

End Workflows.

Arguments BakeCall W : clear implicits.
Arguments Turn W : clear implicits.
Arguments Outcome W : clear implicits.

(** *** A small level to run the workflows on

    The state is the list of components baked so far.  A baked component
    is no longer valid, odd components are cooking, and baking component
    6 fails.  Actor [n] owns component [n + 1] and is its outer; actor 9
    has no component.  Objects are named after their number. *)
Definition Level := list ObjId.

#[global] Instance Level_host : BakeHost Level := {
  ObjectIterator _ := [Some 2; None; Some 3; Some 4; Some 2; Some 6];
  Editor_of _ := Selection.level_selection;
  GetHoudiniAssetComponent _ actor := if Nat.eqb actor 9 then None else Some (actor + 1);
  IsComponentValid w c := negb (existsb (Nat.eqb c) w);
  IsInstantiatingOrCooking _ c := Nat.odd c;
  GetOuter _ c := Some (c - 1);
  GetName _ o := "HoudiniAssetActor" +:+ pretty o;
  ReplaceHoudiniActorWithBlueprint w c := (w ++ [c], negb (Nat.eqb c 6))
}.

End Bake.

(** * Undo and redo: MatchesContext, PostUndo and PostRedo *)

Module Undo.

(** The primary object of a transaction, by what the code asks of it. *)
Record UObject := {
  ObjectId : ObjId;
  IsA_UHoudiniAssetComponent : bool   (* Cast< UHoudiniAssetComponent > succeeds *)
}.

Definition Cast_UHoudiniAssetComponent (o : option UObject) : Ptr :=
  match o with
  | Some x => if IsA_UHoudiniAssetComponent x then Some (ObjectId x) else None
  | None => None
  end.

(** The member the three functions share, and the calls of
    [UpdateEditorProperties( false )] made so far, the latest last. *)
Record State := {
  LastHoudiniAssetComponentUndoObject : Ptr;
  Updated : list ObjId
}.

Section Contexts.

(** The two context names are macros of the runtime module's headers. *)
Variables HOUDINI_MODULE_EDITOR HOUDINI_MODULE_RUNTIME : string.

Definition MatchesContext (InContext : string) (PrimaryObject : option UObject) (st : State)
    : bool * State :=
  if FString_eq InContext HOUDINI_MODULE_EDITOR || FString_eq InContext HOUDINI_MODULE_RUNTIME
  then
    (true, {| LastHoudiniAssetComponentUndoObject := Cast_UHoudiniAssetComponent PrimaryObject;
              Updated := Updated st |})
  else
    (false, {| LastHoudiniAssetComponentUndoObject := None; Updated := Updated st |}).

End Contexts.

Definition PostUndo (bSuccess : bool) (st : State) : State :=
  match LastHoudiniAssetComponentUndoObject st with
  | Some c =>
      if bSuccess then
        {| LastHoudiniAssetComponentUndoObject := None; Updated := Updated st ++ [c] |}
      else st
  | None => st
  end.

Definition PostRedo (bSuccess : bool) (st : State) : State :=
  match LastHoudiniAssetComponentUndoObject st with
  | Some c =>
      if bSuccess then
        {| LastHoudiniAssetComponentUndoObject := None; Updated := Updated st ++ [c] |}
      else st
  | None => st
  end.

(** The notifications the transaction system sends after a
    [MatchesContext]. *)
Inductive Notification :=
  | NotifyPostUndo (bSuccess : bool)
  | NotifyPostRedo (bSuccess : bool).

Definition notify (st : State) (n : Notification) : State :=
  match n with
  | NotifyPostUndo b => PostUndo b st
  | NotifyPostRedo b => PostRedo b st
  end.

Definition succeeded (n : Notification) : bool :=
  match n with NotifyPostUndo b => b | NotifyPostRedo b => b end.

End Undo.

(** * Cooking and rebuilding: RecookSelection, RecookAllAssets,
      RebuildAllAssets and RebuildSelection *)

Module Cook.

(** The engine and runtime calls of the four workflows, over a type [W]
    of engine states.  The two [StartTask...Manual] functions belong to
    [UHoudiniAssetComponent]; they change the state. *)
Class CookHost (W : Type) := {
  ObjectIterator : W -> list Ptr;    (* TObjectIterator<UHoudiniAssetComponent> *)
  Editor_of : W -> Selection.Editor;
  GetHoudiniAssetComponent : W -> ObjId -> Ptr;
  IsComponentValid : W -> ObjId -> bool;
  StartTaskAssetCookingManual : W -> ObjId -> W;
  StartTaskAssetRebuildManual : W -> ObjId -> W
}.

(** Which of the two tasks a workflow starts. *)
Inductive Task := Cooking | Rebuild.

Section Workflows.

Context {W : Type} `{CookHost W}.

Definition StartTask (t : Task) : W -> ObjId -> W :=
  match t with
  | Cooking => StartTaskAssetCookingManual
  | Rebuild => StartTaskAssetRebuildManual
  end.

(** One start of a task: the state it was made in and the component. *)
Record TaskCall := {
  call_world : W;
  call_component : ObjId
}.

(** The body the four loops run on a component pointer. *)
Definition start_component (t : Task) (w : W) (HoudiniAssetComponent : Ptr) (Count : Z)
    : W * Z * list TaskCall :=
  match HoudiniAssetComponent with
  | None => (w, Count, [])
  | Some c =>
      if negb (IsComponentValid w c) then (w, Count, [])
      else (StartTask t w c, int32_add Count 1,
            [{| call_world := w; call_component := c |}])
  end.

Fixpoint AllAssets_loop (t : Task) (Itr : list Ptr) (w : W) (Count : Z)
    : W * Z * list TaskCall :=
  match Itr with
  | [] => (w, Count, [])
  | HoudiniAssetComponent :: Itr' =>
      let '(w1, Count1, calls1) := start_component t w HoudiniAssetComponent Count in
      let '(w2, Count2, calls2) := AllAssets_loop t Itr' w1 Count1 in
      (w2, Count2, calls1 ++ calls2)
  end.

Fixpoint Selection_loop (t : Task) (WorldSelection : list Selection.UObject) (w : W)
    (Count : Z) : W * Z * list TaskCall :=
  match WorldSelection with
  | [] => (w, Count, [])
  | o :: rest =>
      match Selection.Cast_AHoudiniAssetActor (Some o) with
      | None => Selection_loop t rest w Count
      | Some HoudiniAssetActor =>
          let HoudiniAssetComponent :=
            GetHoudiniAssetComponent w (Selection.ObjectId HoudiniAssetActor) in
          let '(w1, Count1, calls1) := start_component t w HoudiniAssetComponent Count in
          let '(w2, Count2, calls2) := Selection_loop t rest w1 Count1 in
          (w2, Count2, calls1 ++ calls2)
      end
  end.

(** What a workflow leaves: the state, the count it reports ([None] when
    it returns without reporting one), the tasks it started and its
    notifications. *)
Record Outcome := {
  out_world : W;
  out_Count : option Z;
  out_calls : list TaskCall;
  out_events : list Event
}.

Definition RecookAllAssets (w : W) : Outcome :=
  let '(w', CookedCount, calls) := AllAssets_loop Cooking (ObjectIterator w) w 0 in
  {| out_world := w'; out_Count := Some CookedCount; out_calls := calls;
     out_events :=
       [CreateSlateNotification "Cooking all assets in the current level...";
        CreateSlateNotification ("Re-cooked " +:+ FromInt CookedCount +:+ " Houdini assets.");
        HOUDINI_LOG_MESSAGE ("Re-cooked " +:+ FromInt CookedCount +:+
                             " Houdini assets in the current level.")] |}.

Definition RebuildAllAssets (w : W) : Outcome :=
  let '(w', RebuiltCount, calls) := AllAssets_loop Rebuild (ObjectIterator w) w 0 in
  {| out_world := w'; out_Count := Some RebuiltCount; out_calls := calls;
     out_events :=
       [CreateSlateNotification "Re-building all assets in the current level...";
        CreateSlateNotification ("Rebuilt " +:+ FromInt RebuiltCount +:+ " Houdini assets.");
        HOUDINI_LOG_MESSAGE ("Rebuilt " +:+ FromInt RebuiltCount +:+
                             " Houdini assets in the current level.")] |}.

Definition RecookSelection (w : W) : Outcome :=
  let '(WorldSelection, SelectedHoudiniAssets) :=
    Selection.GetWorldSelection (Editor_of w) [] true in
  if (SelectedHoudiniAssets <=? 0)%Z then
    {| out_world := w; out_Count := None; out_calls := [];
       out_events := [HOUDINI_LOG_MESSAGE "No Houdini Assets selected in the world outliner"] |}
  else
    let '(w', CookedCount, calls) := Selection_loop Cooking WorldSelection w 0 in
    {| out_world := w'; out_Count := Some CookedCount; out_calls := calls;
       out_events :=
         [CreateSlateNotification "Cooking selected Houdini Assets...";
          CreateSlateNotification ("Re-cooked " +:+ FromInt CookedCount +:+ " Houdini assets.");
          HOUDINI_LOG_MESSAGE ("Re-cooked " +:+ FromInt CookedCount +:+
                               " selected Houdini assets.")] |}.

Definition RebuildSelection (w : W) : Outcome :=
  let '(WorldSelection, SelectedHoudiniAssets) :=
    Selection.GetWorldSelection (Editor_of w) [] true in
  if (SelectedHoudiniAssets <=? 0)%Z then
    {| out_world := w; out_Count := None; out_calls := [];
       out_events := [HOUDINI_LOG_MESSAGE "No Houdini Assets selected in the world outliner"] |}
  else
    let '(w', RebuiltCount, calls) := Selection_loop Rebuild WorldSelection w 0 in
    {| out_world := w'; out_Count := Some RebuiltCount; out_calls := calls;
       out_events :=
         [CreateSlateNotification "Rebuilding selected Houdini Assets...";
          CreateSlateNotification ("Rebuilt " +:+ FromInt RebuiltCount +:+ " Houdini assets.");
          HOUDINI_LOG_MESSAGE ("Rebuilt " +:+ FromInt RebuiltCount +:+
                               " selected Houdini assets.")] |}.

(** Starting a task does not change which components are valid. *)
Definition validity_stable : Prop :=
  forall t w c c', IsComponentValid (StartTask t w c) c' = IsComponentValid w c'.

End Workflows.

Arguments TaskCall W : clear implicits.
Arguments Outcome W : clear implicits.

(** *** A small level to run the workflows on

    The state is the list of tasks started so far.  Component 5 is not
    valid.  Actor [n] owns component [n + 1]; actor 9 has none. *)
Definition Level := list (Task * ObjId).

#[global] Instance Level_host : CookHost Level := {
  ObjectIterator _ := [Some 2; None; Some 5; Some 4];
  Editor_of _ := Selection.level_selection;
  GetHoudiniAssetComponent _ actor := if Nat.eqb actor 9 then None else Some (actor + 1);
  IsComponentValid _ c := negb (Nat.eqb c 5);
  StartTaskAssetCookingManual w c := w ++ [(Cooking, c)];
  StartTaskAssetRebuildManual w c := w ++ [(Rebuild, c)]
}.

End Cook.

(** * The content browser selection: GetContentBrowserSelection *)

Module ContentBrowser.

(** A loaded asset, by its identity and its class. *)
Record UObject := {
  ObjectId : ObjId;
  GetClass : string
}.

(** [UStaticMesh::StaticClass()]; classes are compared by identity. *)
Definition UStaticMesh : string := "StaticMesh".

(** A selected [FAssetData]: what [GetAsset] returns for it. *)
Record FAssetData := {
  GetAsset : option UObject
}.

Fixpoint selected_loop (SelectedAssets : list FAssetData) (ContentBrowserSelection : list UObject)
    : list UObject :=
  match SelectedAssets with
  | [] => ContentBrowserSelection
  | Data :: rest =>
      match GetAsset Data with
      | None => selected_loop rest ContentBrowserSelection
      | Some Object =>
          (* Only static meshes are supported *)
          if negb (String.eqb (GetClass Object) UStaticMesh)
          then selected_loop rest ContentBrowserSelection
          else selected_loop rest (ContentBrowserSelection ++ [Object])
      end
  end.

(** [ContentBrowserSelection] is the array the caller passes in;
    [SelectedAssets] is what the content browser reports as selected. *)
Definition GetContentBrowserSelection (SelectedAssets : list FAssetData)
    (ContentBrowserSelection : list UObject) : list UObject * Z :=
  let ContentBrowserSelection : list UObject := [] in   (* Empty() *)
  let ContentBrowserSelection := selected_loop SelectedAssets ContentBrowserSelection in
  (ContentBrowserSelection, Z.of_nat (length ContentBrowserSelection)).

(** A selected asset that is a loaded static mesh. *)
Definition static_mesh (Data : FAssetData) : option UObject :=
  match GetAsset Data with
  | Some Object => if String.eqb (GetClass Object) UStaticMesh then Some Object else None
  | None => None
  end.

End ContentBrowser.

(** * The Houdini menu and its commands: AddHoudiniMenuExtension and
      FHoudiniEngineCommands::RegisterCommands *)

Module Menu.

Import Registration.

(** The entries of the section that [AddHoudiniMenuExtension] adds to
    the file menu, in order. *)
Definition AddHoudiniMenuExtension : string * list UICommand :=
  ("Houdini",
   [OpenInHoudini; SaveHIPFile; ReportBug; CleanUpTempFolder; BakeAllAssets;
    PauseAssetCooking]).

Inductive EUserInterfaceActionType := Button | Check.

(** [FInputChord]: a key with the Control and Alt modifiers, or the
    empty chord. *)
Inductive FInputChord :=
  | NoChord
  | ControlAlt (key : string).

Record FUICommandInfo := {
  Label : string;
  Description : string;
  ActionType : EUserInterfaceActionType;
  DefaultChord : FInputChord
}.

(** The [UI_COMMAND] lines of [RegisterCommands]. *)
Definition RegisterCommands (c : UICommand) : FUICommandInfo :=
  match c with
  | OpenInHoudini =>
      {| Label := "Open scene in Houdini";
         Description := "Opens the current Houdini scene in Houdini.";
         ActionType := Button; DefaultChord := ControlAlt "O" |}
  | SaveHIPFile =>
      {| Label := "Save Houdini scene (HIP)";
         Description := "Saves a .hip file of the current Houdini scene.";
         ActionType := Button; DefaultChord := NoChord |}
  | ReportBug =>
      {| Label := "Report a plugin bug";
         Description := "Report a bug for Houdini Engine plugin.";
         ActionType := Button; DefaultChord := NoChord |}
  | CleanUpTempFolder =>
      {| Label := "Clean Houdini Engine Temp Folder";
         Description := "Deletes the unused temporary files in the Temporary Cook Folder.";
         ActionType := Button; DefaultChord := NoChord |}
  | BakeAllAssets =>
      {| Label := "Bake And Replace All Houdini Assets";
         Description := "Bakes and replaces with blueprints all Houdini Assets in the scene.";
         ActionType := Button; DefaultChord := NoChord |}
  | PauseAssetCooking =>
      {| Label := "Pause Houdini Engine Cooking";
         Description :=
           "When activated, prevents Houdini Engine from cooking assets until unpaused.";
         ActionType := Check; DefaultChord := ControlAlt "P" |}
  | CookSelec =>
      {| Label := "Recook Selection";
         Description := "Recooks selected Houdini Asset Actors in the current level.";
         ActionType := Button; DefaultChord := ControlAlt "C" |}
  | RebuildSelec =>
      {| Label := "Rebuild Selection";
         Description := "Rebuilds selected Houdini Asset Actors in the current level.";
         ActionType := Button; DefaultChord := ControlAlt "R" |}
  | BakeSelec =>
      {| Label := "Bake Selection";
         Description :=
           "Bakes and replaces with blueprints selected Houdini Asset Actors in the current level.";
         ActionType := Button; DefaultChord := ControlAlt "B" |}
  end.

End Menu.

(** * The life cycle of the module: what startup and shutdown write *)

Module Lifecycle.

Import Registration.

(** The keys that the unregistration calls of [ShutdownModule] name in
    a state: the asset type actions that the module recorded, and the
    fixed keys of the other subsystems whose host is still there. *)
Definition shutdown_keys (env : Env) (s : State) : list Key :=
  (if AssetToolsLoaded env
   then (fun Action => (AssetTypeAction, Action)) <$> AssetTypeActions s else []) ++
  (if PropertyEditorLoaded env
   then [(DetailCustomizer, "HoudiniAssetComponent");
         (DetailCustomizer, "HoudiniRuntimeSettings")] else []) ++
  (if UObjectInitialized env then [(ThumbnailRenderer, "HoudiniAsset")] else []) ++
  (if GUnrealEd env && SplineComponentVisualizer s
   then [(ComponentVisualizer, "HoudiniSplineComponent")] else []) ++
  (if GUnrealEd env && HandleComponentVisualizer s
   then [(ComponentVisualizer, "HoudiniHandleComponent")] else []) ++
  (if GUnrealEd env then [(UndoHook, "FHoudiniEngineEditor")] else []) ++
  (if HOUDINI_MODE env then [(EditorMode, EM_HoudiniShelfEdModeId env)] else []) ++
  (if PlacementModeAvailable env then [(PlacementCategory, "HoudiniEngine")] else []).

(** The subsystems that no call of [ShutdownModule] names. *)
Definition kept_subsystems : list Subsystem :=
  [AssetBroker; ActorFactory; SlateStyle; ConsoleCommand; MainMenuExtension].

(** The names of the built-in tools, in the order of the source. *)
Definition default_tools : list string :=
  ["Rock Generator"; "Boolean"; "Polyreducer"; "Curve Instancer"].

(** Whether [StartupModule] registers into a subsystem, under the
    conditions of its guards. *)
Definition startup_writes (env : Env) (sub : Subsystem) : bool :=
  match sub with
  | ComponentVisualizer | UndoHook => GUnrealEd env
  | ActorFactory => GEditor env
  | MainMenuExtension => negb (IsRunningCommandlet env)
  | EditorMode => HOUDINI_MODE env
  | PlacementCategory => negb (bHidePlacementModeHoudiniTools env)
  | _ => true
  end.

(** A registry [m'] extends [m] within the subsystems [P]: outside
    them the entries are those of [m], and no key of [m] is lost. *)
Definition extends (P : Subsystem -> bool) (m m' : gmap Key Extension) : Prop :=
  (forall k, P k.1 = false -> m' !! k = m !! k) /\
  (forall k, is_Some (m !! k) -> is_Some (m' !! k)).

End Lifecycle.

(** * The ticking loop of PauseAssetCooking *)

Module Ticking.

Import Commands.

(** What the ticking loop calls for one entry of the iterator. *)
Definition tick_call (o : option UHoudiniAssetComponent) : Event :=
  match o with
  | Some c =>
      if IsValidLowLevel c then StartHoudiniTicking (ComponentId c)
      else HOUDINI_LOG_ERROR "Failed to cook a Houdini Asset in the scene!"
  | None => HOUDINI_LOG_ERROR "Failed to cook a Houdini Asset in the scene!"
  end.

(** The components that a sequence of calls starts ticking. *)
Definition ticked (calls : list Event) : list ObjId :=
  omap (fun e => match e with StartHoudiniTicking c => Some c | _ => None end) calls.

(** The components of the iterator that are not null and are valid. *)
Definition valid_components (h : Host) : list ObjId :=
  omap (fun o => match o with
                 | Some c => if IsValidLowLevel c then Some (ComponentId c) else None
                 | None => None
                 end) (HoudiniAssetComponents h).

End Ticking.

(** * A temporary cook folder with a reference cycle *)

Module TempFolderCycle.

Import TempFolder.

(** The folder of [material_library] with a reference cycle: the
    texture (object 11 of package 10) is used by the material (object 21
    of package 20), and the material by the texture. *)
Definition cyclic_library : Library :=
  {| assets := [Texture; Material];
     references := [(21, Some 20, 11); (11, Some 10, 21)] |}.

End TempFolderCycle.

(** * Properties *)

Lemma int32_wrap_small (z : Z) :
  (-2147483648 <= z <= 2147483647)%Z -> int32_wrap z = z.
Proof.
  intros Hz. unfold int32_wrap.
  rewrite Z.mod_small by lia. lia.
Qed.

Lemma FString_eq_refl (a : string) : FString_eq a a = true.
Proof. unfold FString_eq. apply String.eqb_refl. Qed.

(** ** The command handlers *)

Module CommandsSpec.

Import Commands.

#[local] Arguments bind : simpl never.
#[local] Arguments call : simpl never.
#[local] Arguments ret : simpl never.
#[local] Arguments run : simpl never.
#[local] Arguments FHoudiniApi_SaveHIPFile : simpl never.

Lemma calls_made_app {A} (m : Cmd A) (w : World) (calls : list Event) :
  Trace (run m w) = Trace w ++ calls -> calls_made m w = calls.
Proof.
  intros Ht. unfold calls_made. rewrite Ht. apply drop_app_length.
Qed.

Lemma run_bind {A B} (m : Cmd A) (k : A -> Cmd B) (w : World) :
  run (bind m k) w = run (k (fst (m w))) (run m w).
Proof. unfold run, bind. destruct (m w); reflexivity. Qed.

Lemma run_call (e : Event) (w : World) :
  run (call e) w =
  {| Trace := Trace w ++ [e]; Files := Files w; EnableCookingGlobal := EnableCookingGlobal w |}.
Proof. reflexivity. Qed.

Lemma run_ret {A} (a : A) (w : World) : run (ret a) w = w.
Proof. reflexivity. Qed.

(** The engine's save call appends one call and may add the file. *)
Lemma run_FHoudiniApi_SaveHIPFile (h : Host) (path : string) (w : World) :
  run (FHoudiniApi_SaveHIPFile h path) w =
  {| Trace := Trace w ++ [HapiSaveHIPFile path];
     Files := if HapiSaveHIPFile_writes h path then {[path]} ∪ Files w else Files w;
     EnableCookingGlobal := EnableCookingGlobal w |}.
Proof. reflexivity. Qed.

(** What [OpenInHoudini] calls, by the outcome of its two checks. *)
Lemma OpenInHoudini_calls (h : Host) (w : World) :
  calls_made (OpenInHoudini h) w =
  if HoudiniEngine_IsInitialized h then
    let UserTempPath := CreateTempFilename h in
    HapiSaveHIPFile UserTempPath ::
    if bool_decide (UserTempPath ∈ Files (run (FHoudiniApi_SaveHIPFile h UserTempPath) w)) then
      [CreateSlateNotification "Opening scene in Houdini...";
       HOUDINI_LOG_MESSAGE "Opened scene in Houdini.";
       CreateProc (LibHAPILocation h +:+ "//houdini") UserTempPath]
    else []
  else [].
Proof.
  apply calls_made_app. unfold OpenInHoudini.
  destruct (HoudiniEngine_IsInitialized h); simpl.
  - rewrite run_bind, run_FHoudiniApi_SaveHIPFile.
    rewrite run_bind. unfold FileExists at 1 2. unfold run at 2.
    cbn [fst snd Files Trace]. case_bool_decide; cbn [negb].
    + rewrite !run_bind, !run_call. simpl. by rewrite <- !app_assoc.
    + by rewrite run_ret.
  - by rewrite run_ret, app_nil_r.
Qed.

(** What [SaveHIPFile] calls, by the outcome of its checks. *)
Lemma SaveHIPFile_calls (h : Host) (w : World) :
  calls_made (SaveHIPFile h) w =
  if DesktopPlatform h && HoudiniEngineUtils_IsInitialized h then
    LoadModuleChecked "MainFrame" :: SaveFileDialog ::
    if (SaveFileDialog_result h).1 && bool_decide (length (SaveFileDialog_result h).2 ≠ 0) then
      let HIPPath := default [] ((SaveFileDialog_result h).2 !! 0) in
      [CreateSlateNotification "Saving internal Houdini scene...";
       HOUDINI_LOG_MESSAGE_s "Saved Houdini scene to %s" HIPPath;
       HapiSaveHIPFile (std_string_of_wchar_range HIPPath)]
    else []
  else [].
Proof.
  apply calls_made_app. unfold SaveHIPFile.
  destruct (DesktopPlatform h && HoudiniEngineUtils_IsInitialized h); simpl.
  - destruct (SaveFileDialog_result h) as [bSaved SaveFilenames]; simpl.
    rewrite !run_bind, !run_call. simpl.
    destruct (bSaved && bool_decide (length SaveFilenames ≠ 0)); simpl.
    + rewrite ?run_bind, ?run_call, ?run_FHoudiniApi_SaveHIPFile. simpl.
      by rewrite <- !app_assoc.
    + rewrite ?run_ret. simpl. by rewrite <- !app_assoc.
  - by rewrite run_ret, app_nil_r.
Qed.


(** C5: [OpenInHoudini] creates the external Houdini process only after
    it has saved the scene to the temporary .hip file.  Whenever the
    process is created, the engine is initialized, the file handed to the
    process is the temporary file and exists on disk after the save call,
    and the save call is the first call made and the process creation the
    last.  So with an engine that is not initialized, or without the
    file on disk after the save, no process is created. *)
Theorem OpenInHoudini_launch_guarded (h : Host) (w : World) (URL Parms : string) :
  CreateProc URL Parms ∈ calls_made (OpenInHoudini h) w ->
  HoudiniEngine_IsInitialized h = true /\
  Parms = CreateTempFilename h /\
  Parms ∈ Files (run (FHoudiniApi_SaveHIPFile h Parms) w) /\
  calls_made (OpenInHoudini h) w =
    [HapiSaveHIPFile Parms;
     CreateSlateNotification "Opening scene in Houdini...";
     HOUDINI_LOG_MESSAGE "Opened scene in Houdini.";
     CreateProc URL Parms].
Proof.
  rewrite OpenInHoudini_calls.
  destruct (HoudiniEngine_IsInitialized h); [|by intros ?%elem_of_nil].
  cbv zeta. case_bool_decide as Hfile.
  - intros Hin. repeat (apply elem_of_cons in Hin as [Heq|Hin]; [try discriminate|]).
    + injection Heq as -> ->. done.
    + by apply elem_of_nil in Hin.
  - intros Hin. apply elem_of_cons in Hin as [Heq|Hin]; [discriminate|].
    by apply elem_of_nil in Hin.
Qed.

Lemma OpenInHoudini_launch_guarded_witness :
  CreateProc "C:/Houdini/bin//houdini" "/tmp/HoudiniEngine0.hip"
    ∈ calls_made (OpenInHoudini live_host) empty_world /\
  HoudiniEngine_IsInitialized live_host = true /\
  calls_made (OpenInHoudini live_host) empty_world =
    [HapiSaveHIPFile "/tmp/HoudiniEngine0.hip";
     CreateSlateNotification "Opening scene in Houdini...";
     HOUDINI_LOG_MESSAGE "Opened scene in Houdini.";
     CreateProc "C:/Houdini/bin//houdini" "/tmp/HoudiniEngine0.hip"].
Proof.
  assert (Hin : CreateProc "C:/Houdini/bin//houdini" "/tmp/HoudiniEngine0.hip"
                  ∈ calls_made (OpenInHoudini live_host) empty_world).
  { rewrite OpenInHoudini_calls. vm_compute. do 3 constructor 2. constructor 1. }
  split; [exact Hin|].
  destruct (OpenInHoudini_launch_guarded live_host empty_world _ _ Hin) as (Hi & _ & _ & Hc).
  split; [exact Hi | exact Hc].
Defined.

(** Without an initialized engine [OpenInHoudini] does nothing at all, and
    without the temporary file on disk it stops after the save call. *)
Lemma OpenInHoudini_returns_early (h : Host) (w : World) :
  (HoudiniEngine_IsInitialized h = false -> run (OpenInHoudini h) w = w) /\
  (HoudiniEngine_IsInitialized h = true ->
   CreateTempFilename h ∉ Files (run (FHoudiniApi_SaveHIPFile h (CreateTempFilename h)) w) ->
   calls_made (OpenInHoudini h) w = [HapiSaveHIPFile (CreateTempFilename h)]).
Proof.
  split.
  - intros Hi. unfold OpenInHoudini. by rewrite Hi.
  - intros Hi Hfile. rewrite OpenInHoudini_calls, Hi. cbv zeta.
    by rewrite bool_decide_eq_false_2.
Qed.

(** A file name of characters below 256 is handed to the engine as it
    is. *)
Lemma std_string_of_wchar_range_TEXT (s : string) :
  std_string_of_wchar_range (TEXT s) = s.
Proof.
  unfold std_string_of_wchar_range, TEXT. rewrite map_map.
  rewrite <- (String.string_of_list_ascii_of_string s) at 2. f_equal.
  induction (String.list_ascii_of_string s) as [|c l IH]; [done|].
  cbn [map]. rewrite IH. f_equal. unfold char_of_wchar_t.
  rewrite N.mod_small by apply N_ascii_bounded. apply ascii_N_embedding.
Qed.

(** [SaveHIPFile] on a live editor does reach the engine. *)
Example SaveHIPFile_live :
  calls_made (SaveHIPFile live_host) empty_world =
    [LoadModuleChecked "MainFrame"; SaveFileDialog;
     CreateSlateNotification "Saving internal Houdini scene...";
     HOUDINI_LOG_MESSAGE_s "Saved Houdini scene to %s" (TEXT "C:/scenes/out.hip");
     HapiSaveHIPFile "C:/scenes/out.hip"].
Proof. rewrite SaveHIPFile_calls. reflexivity. Qed.

(** A file name with characters above the range of [char] reaches the
    engine with each of them cut to its low byte: [Łódź.hip] is saved
    as [A], the byte 243, [d], [z] and [.hip]. *)
Example SaveHIPFile_wide_name :
  calls_made (SaveHIPFile wide_name_host) empty_world =
    [LoadModuleChecked "MainFrame"; SaveFileDialog;
     CreateSlateNotification "Saving internal Houdini scene...";
     HOUDINI_LOG_MESSAGE_s "Saved Houdini scene to %s" ([321; 243; 100; 378]%N ++ TEXT ".hip");
     HapiSaveHIPFile (String "A" (String (ascii_of_N 243) "dz.hip"))].
Proof. rewrite SaveHIPFile_calls. reflexivity. Qed.



Lemma tick_components_flag (Itr : list (option UHoudiniAssetComponent)) (w : World) :
  EnableCookingGlobal (run (tick_components Itr) w) = EnableCookingGlobal w.
Proof.
  revert w. induction Itr as [|c Itr IH]; intros w; [done|].
  cbn [tick_components]. rewrite run_bind, IH.
  destruct c as [c|]; [destruct (IsValidLowLevel c)|]; reflexivity.
Qed.

Lemma PauseAssetCooking_flag (h : Host) (w : World) :
  EnableCookingGlobal (run (PauseAssetCooking h) w) = negb (EnableCookingGlobal w).
Proof.
  unfold PauseAssetCooking. rewrite run_bind.
  change (GetEnableCookingGlobal w).1 with (EnableCookingGlobal w).
  change (run GetEnableCookingGlobal w) with w.
  rewrite !run_bind.
  destruct (EnableCookingGlobal w); cbn [negb].
  - rewrite run_ret. reflexivity.
  - rewrite tick_components_flag. reflexivity.
Qed.

(** C9: one call of [PauseAssetCooking] sets the engine's
    [EnableCookingGlobal] flag to its negation, two successive calls
    restore it, and [IsAssetCookingPaused] returns the negation of the
    flag. *)
Theorem PauseAssetCooking_involution (h h' : Host) (w : World) :
  EnableCookingGlobal (run (PauseAssetCooking h) w) = negb (EnableCookingGlobal w) /\
  EnableCookingGlobal (run (PauseAssetCooking h') (run (PauseAssetCooking h) w))
    = EnableCookingGlobal w /\
  (IsAssetCookingPaused w).1 = negb (EnableCookingGlobal w).
Proof.
  split; [apply PauseAssetCooking_flag|split].
  - rewrite !PauseAssetCooking_flag. apply negb_involutive.
  - reflexivity.
Qed.

End CommandsSpec.

(** ** The world selection *)

Module SelectionSpec.

Import Selection.

Lemma selection_loop_omap (It : list (option UObject)) (acc : list UObject) :
  selection_loop It acc = acc ++ omap kept It.
Proof.
  revert acc. induction It as [|o It IH]; intros acc; cbn [selection_loop].
  - by rewrite app_nil_r.
  - change (omap kept (o :: It))
      with (match kept o with Some y => y :: omap kept It | None => omap kept It end).
    unfold kept at 1. destruct (Cast_AActor o) as [Actor|]; [|apply IH].
    destruct (FString_eq _ _); [apply IH|].
    rewrite IH. by rewrite <- app_assoc.
Qed.

Lemma kept_Some (o : option UObject) (a : UObject) :
  kept o = Some a ->
  o = Some a /\ IsA_AActor a = true /\ GetClass a <> Some "BP_Sky_Sphere_C".
Proof.
  unfold kept, Cast_AActor. destruct o as [x|]; [|done].
  destruct (IsA_AActor x) eqn:Hact; [|done].
  destruct (FString_eq _ _) eqn:Hname; [done|].
  intros [= <-]. repeat split; [done|].
  intros Hc. rewrite Hc, FString_eq_refl in Hname. discriminate.
Qed.

(** The backwards removal loop, started at [n] on an array of at least
    [n] elements, filters the first [n] and leaves the rest. *)
Lemma remove_loop_filter (n : nat) (l : list UObject) :
  n <= length l ->
  remove_loop n l = List.filter IsA_AHoudiniAssetActor (take n l) ++ drop n l.
Proof.
  revert l. induction n as [|n IH]; intros l Hn; [done|].
  destruct (lookup_lt_is_Some_2 l n) as [x Hx]; [lia|].
  cbn [remove_loop]. rewrite Hx. cbn [Cast_AHoudiniAssetActor].
  rewrite (take_S_r l n x Hx), List.filter_app. cbn [List.filter].
  destruct (IsA_AHoudiniAssetActor x) eqn:Hh.
  - rewrite IH by lia. rewrite (drop_S l x n Hx). by rewrite <- app_assoc.
  - rewrite IH by (rewrite length_delete; [lia|by eexists]).
    rewrite delete_take_drop.
    rewrite take_app_length' by (rewrite length_take; lia).
    rewrite drop_app_length' by (rewrite length_take; lia).
    by rewrite app_nil_r.
Qed.

Lemma remove_loop_all (l : list UObject) :
  remove_loop (length l) l = List.filter IsA_AHoudiniAssetActor l.
Proof.
  rewrite remove_loop_filter by lia.
  by rewrite firstn_all, drop_all, app_nil_r.
Qed.

(** The array that [GetWorldSelection] returns, in closed form. *)
Lemma GetWorldSelection_array (ed : Editor) (WorldSelection : list UObject) (b : bool) :
  (GetWorldSelection ed WorldSelection b).1 =
  let sel := if GEditor ed then omap kept (GetSelectedActors ed) else [] in
  if b then List.filter IsA_AHoudiniAssetActor sel else sel.
Proof.
  unfold GetWorldSelection. cbn [fst].
  destruct (GEditor ed), b; cbn zeta; rewrite ?selection_loop_omap, ?remove_loop_all; done.
Qed.

(** The count returned is the length of the array returned. *)
Lemma GetWorldSelection_count (ed : Editor) (WorldSelection : list UObject) (b : bool) :
  (GetWorldSelection ed WorldSelection b).2
    = Z.of_nat (length (GetWorldSelection ed WorldSelection b).1).
Proof. reflexivity. Qed.

(** C10: [GetWorldSelection] empties the array it is given (what it
    returns does not depend on the former contents, and every element
    returned is an actor of the current selection), returns the length
    of the array it filled, returns only [AHoudiniAssetActor]s when
    called with [bHoudiniAssetActorsOnly = true], and never returns an
    actor whose class is named "BP_Sky_Sphere_C". *)
Theorem GetWorldSelection_spec (ed : Editor) (WorldSelection : list UObject) (b : bool) :
  GetWorldSelection ed WorldSelection b = GetWorldSelection ed [] b /\
  (GetWorldSelection ed WorldSelection b).2
    = Z.of_nat (length (GetWorldSelection ed WorldSelection b).1) /\
  (forall o, o ∈ (GetWorldSelection ed WorldSelection b).1 ->
     GEditor ed = true /\ Some o ∈ GetSelectedActors ed /\ IsA_AActor o = true) /\
  (forall o, o ∈ (GetWorldSelection ed WorldSelection true).1 ->
     IsA_AHoudiniAssetActor o = true) /\
  (forall o, o ∈ (GetWorldSelection ed WorldSelection b).1 ->
     GetClass o <> Some "BP_Sky_Sphere_C").
Proof.
  assert (Hsel : forall o, o ∈ (GetWorldSelection ed WorldSelection b).1 ->
            GEditor ed = true /\ exists o', o' ∈ GetSelectedActors ed /\ kept o' = Some o).
  { intros o. rewrite GetWorldSelection_array. cbv zeta.
    destruct (GEditor ed).
    - intros Ho. split; [done|].
      assert (Ho' : o ∈ omap kept (GetSelectedActors ed)).
      { destruct b; [|done].
        apply list_elem_of_In, List.filter_In in Ho as [Ho _].
        by apply list_elem_of_In. }
      by apply list_elem_of_omap in Ho'.
    - destruct b; cbn [List.filter]; by intros ?%elem_of_nil. }
  split; [done|]. split; [apply GetWorldSelection_count|]. split; [|split].
  - intros o Ho. destruct (Hsel o Ho) as (Hg & o' & Hin & Hk).
    apply kept_Some in Hk as (-> & Hact & _). done.
  - intros o. rewrite GetWorldSelection_array. cbv zeta.
    intros Ho. by apply list_elem_of_In, List.filter_In in Ho as [_ Ho].
  - intros o Ho. destruct (Hsel o Ho) as (_ & o' & _ & Hk).
    by apply kept_Some in Hk as (_ & _ & Hc).
Qed.

(** On the selection of the level: the sky sphere, the null entry and,
    when only Houdini actors are asked for, the cube are left out. *)
Example GetWorldSelection_level :
  GetWorldSelection level_selection [Cube] true = ([Rock; Fence], 2%Z) /\
  GetWorldSelection level_selection [Cube] false = ([Rock; Cube; Fence], 3%Z).
Proof. split; reflexivity. Qed.

End SelectionSpec.

(** ** The bake workflows *)

Module BakeSpec.

Import Bake.

Section Workflows.

Context {W : Type} `{BakeHost W}.

Lemma successes_app (a b : list (BakeCall W)) :
  successes (a ++ b) = successes a + successes b.
Proof. unfold successes. by rewrite List.filter_app, length_app. Qed.

Lemma bake_if_idle_spec (w : W) (c : ObjId) (n : Z) :
  (0 <= n < INT32_MAX)%Z ->
  IsComponentValid w c = true ->
  turn_ok w (Some c) n (bake_if_idle w c n).
Proof.
  intros Hn Hv. unfold turn_ok, bake_if_idle, ready, INT32_MAX in *.
  destruct (IsInstantiatingOrCooking w c) eqn:Hc; cbn [negb].
  - cbn. split; [lia|]. split; [lia|]. split; [by intros ? ?%elem_of_nil|].
    split; [done|]. split; [|done]. intros _ c' [= <-]. by rewrite Hv, Hc.
  - destruct (ReplaceHoudiniActorWithBlueprint w c) as [w' bBaked].
    cbn [turn_BakedCount turn_calls turn_world].
    split; [|split; [cbn; lia|split; [|split; [done|]]]].
    + destruct bBaked; cbn; [|lia].
      unfold int32_add. rewrite int32_wrap_small; lia.
    + intros call ->%list_elem_of_singleton. by repeat split.
    + split; [done|]. intros Hall. specialize (Hall c eq_refl).
      by rewrite Hv, Hc in Hall.
Qed.

(** The branches of a body that make no call. *)
Lemma skipped_turn_ok (w : W) (cp : Ptr) (n : Z) (logs : list Event) :
  (forall c, cp = Some c -> IsComponentValid w c = false) ->
  turn_ok w cp n {| turn_world := w; turn_BakedCount := n; turn_calls := [];
                    turn_logs := logs |}.
Proof.
  intros Hcp. unfold turn_ok, ready. cbn.
  split; [lia|]. split; [lia|]. split; [by intros ? ?%elem_of_nil|].
  split; [done|]. split; [|done]. intros _ c Hc. by rewrite (Hcp c Hc).
Qed.

Lemma BakeAllAssets_body_spec (w : W) (cp : Ptr) (n : Z) :
  (0 <= n < INT32_MAX)%Z -> turn_ok w cp n (BakeAllAssets_body w cp n).
Proof.
  intros Hn. unfold BakeAllAssets_body. destruct cp as [c|].
  - destruct (IsComponentValid w c) eqn:Hv; cbn [negb].
    + by apply bake_if_idle_spec.
    + apply skipped_turn_ok. by intros ? [= <-].
  - by apply skipped_turn_ok.
Qed.

Lemma BakeSelection_body_spec (w : W) (cp : Ptr) (n : Z) :
  (0 <= n < INT32_MAX)%Z -> turn_ok w cp n (BakeSelection_body w cp n).
Proof.
  intros Hn. unfold BakeSelection_body. destruct cp as [c|].
  - destruct (IsComponentValid w c) eqn:Hv; cbn [negb].
    + by apply bake_if_idle_spec.
    + apply skipped_turn_ok. by intros ? [= <-].
  - by apply skipped_turn_ok.
Qed.

Lemma BakeAllAssets_loop_spec (Itr : list Ptr) (w : W) (n : Z) :
  (0 <= n)%Z -> (n + Z.of_nat (length Itr) <= INT32_MAX)%Z ->
  let t := BakeAllAssets_loop Itr w n in
  turn_BakedCount t = (n + Z.of_nat (successes (turn_calls t)))%Z /\
  length (turn_calls t) <= length Itr /\
  (forall call, call ∈ turn_calls t -> guarded call /\ Some (call_component call) ∈ Itr) /\
  (turn_calls t = [] -> turn_world t = w) /\
  (turn_calls t = [] <-> forall c, Some c ∈ Itr -> ready w c = false).
Proof.
  revert w n. induction Itr as [|cp Itr IH]; intros w n Hn Hmax.
  { cbn. split; [lia|]. split; [lia|]. split; [by intros ? ?%elem_of_nil|].
    split; [done|]. split; [|done]. by intros _ ? ?%elem_of_nil. }
  cbn [BakeAllAssets_loop length] in *. cbv zeta.
  destruct (BakeAllAssets_body_spec w cp n) as (Hb1 & Hb2 & Hb3 & Hb4 & Hb5);
    [unfold INT32_MAX in *; lia|].
  set (t1 := BakeAllAssets_body w cp n) in *.
  assert (Hs1 : successes (turn_calls t1) <= 1).
  { unfold successes. etrans; [apply List.filter_length_le|done]. }
  destruct (IH (turn_world t1) (turn_BakedCount t1)) as (Hl1 & Hl2 & Hl3 & Hl4 & Hl5);
    [lia|lia|].
  set (t2 := BakeAllAssets_loop Itr (turn_world t1) (turn_BakedCount t1)) in *.
  cbn [turn_BakedCount turn_calls turn_world].
  rewrite successes_app, length_app.
  split; [lia|]. split; [lia|]. split; [|split; [|split]].
  - intros call [Hin|Hin]%elem_of_app.
    + destruct (Hb3 call Hin) as (Hg & -> & _). split; [done|]. constructor 1.
    + destruct (Hl3 call Hin) as (Hg & Hm). split; [done|]. by constructor 2.
  - intros [H1 H2]%app_eq_nil. rewrite (Hl4 H2). by apply Hb4.
  - intros [H1 H2]%app_eq_nil c Hin. apply elem_of_cons in Hin as [Heq|Hin].
    + by apply (proj1 Hb5 H1).
    + rewrite (Hb4 H1) in Hl5. by apply (proj1 Hl5 H2).
  - intros Hall.
    assert (H1 : turn_calls t1 = []).
    { apply Hb5. intros c ->. apply Hall. constructor 1. }
    rewrite H1. cbn [app]. apply Hl5. rewrite (Hb4 H1).
    intros c Hin. apply Hall. by constructor 2.
Qed.

Lemma BakeSelection_loop_spec (WorldSelection : list Selection.UObject) (w : W) (n : Z) :
  (0 <= n)%Z -> (n + Z.of_nat (length WorldSelection) <= INT32_MAX)%Z ->
  let t := BakeSelection_loop WorldSelection w n in
  turn_BakedCount t = (n + Z.of_nat (successes (turn_calls t)))%Z /\
  length (turn_calls t) <= length WorldSelection /\
  (forall call, call ∈ turn_calls t ->
     guarded call /\
     exists Actor, Actor ∈ WorldSelection /\
       Selection.IsA_AHoudiniAssetActor Actor = true /\
       GetHoudiniAssetComponent (call_world call) (Selection.ObjectId Actor)
         = Some (call_component call)) /\
  (turn_calls t = [] -> turn_world t = w) /\
  (turn_calls t = [] <->
   forall Actor c, Actor ∈ WorldSelection ->
     Selection.IsA_AHoudiniAssetActor Actor = true ->
     GetHoudiniAssetComponent w (Selection.ObjectId Actor) = Some c -> ready w c = false).
Proof.
  revert w n. induction WorldSelection as [|o rest IH]; intros w n Hn Hmax.
  { cbn. split; [lia|]. split; [lia|]. split; [by intros ? ?%elem_of_nil|].
    split; [done|]. split; [|done]. by intros _ ? ? ?%elem_of_nil. }
  cbn [BakeSelection_loop length Selection.Cast_AHoudiniAssetActor] in *.
  destruct (Selection.IsA_AHoudiniAssetActor o) eqn:Ho.
  - cbv zeta.
    destruct (BakeSelection_body_spec w (GetHoudiniAssetComponent w (Selection.ObjectId o)) n)
      as (Hb1 & Hb2 & Hb3 & Hb4 & Hb5); [unfold INT32_MAX in *; lia|].
    set (t1 := BakeSelection_body w _ n) in *.
    assert (Hs1 : successes (turn_calls t1) <= 1).
    { unfold successes. etrans; [apply List.filter_length_le|done]. }
    destruct (IH (turn_world t1) (turn_BakedCount t1)) as (Hl1 & Hl2 & Hl3 & Hl4 & Hl5);
      [lia|lia|].
    set (t2 := BakeSelection_loop rest (turn_world t1) (turn_BakedCount t1)) in *.
    cbn [turn_BakedCount turn_calls turn_world].
    rewrite successes_app, length_app.
    split; [lia|]. split; [lia|]. split; [|split; [|split]].
    + intros call [Hin|Hin]%elem_of_app.
      * destruct (Hb3 call Hin) as (Hg & Hcomp & Hw). split; [done|].
        exists o. split; [constructor 1|]. split; [done|]. by rewrite Hw.
      * destruct (Hl3 call Hin) as (Hg & Actor & Hin' & Hh & Hcomp). split; [done|].
        exists Actor. split; [by constructor 2|done].
    + intros [H1 H2]%app_eq_nil. rewrite (Hl4 H2). by apply Hb4.
    + intros [H1 H2]%app_eq_nil Actor c Hin Hh Hcomp.
      apply elem_of_cons in Hin as [->|Hin].
      * by apply (proj1 Hb5 H1).
      * rewrite (Hb4 H1) in Hl5. by apply (proj1 Hl5 H2 Actor).
    + intros Hall.
      assert (H1 : turn_calls t1 = []).
      { apply Hb5. intros c Hc. apply (Hall o); [constructor 1|done|done]. }
      rewrite H1. cbn [app]. apply Hl5. rewrite (Hb4 H1).
      intros Actor c Hin. apply Hall. by constructor 2.
  - destruct (IH w n) as (Hl1 & Hl2 & Hl3 & Hl4 & Hl5); [lia|lia|].
    split; [done|]. split; [lia|]. split; [|split; [done|split]].
    + intros call Hin. destruct (Hl3 call Hin) as (Hg & Actor & Hin' & Hh & Hcomp).
      split; [done|]. exists Actor. split; [by constructor 2|done].
    + intros Hnil Actor c Hin Hh. apply elem_of_cons in Hin as [->|Hin]; [congruence|].
      by apply (proj1 Hl5 Hnil).
    + intros Hall. apply Hl5. intros Actor c Hin. apply Hall. by constructor 2.
Qed.

(** C6: both bake workflows call [ReplaceHoudiniActorWithBlueprint]
    only on components that are not null, are valid and are neither
    instantiating nor cooking when the call is made ([BakeAllAssets] on
    components of the object iterator, [BakeSelection] on the components
    of selected Houdini asset actors), and the baked count they report is
    the number of those calls that returned success.  [BakeAllAssets]
    always reports a count, and [BakeSelection] does whenever a Houdini
    asset actor is selected.  The calls are made: a workflow makes no
    call only when none of its components is ready in the state it
    starts from.  The counters are [int32]: the object iterator and the
    selection hold at most [INT32_MAX] entries. *)
Theorem bake_guarded_and_counted (w : W) :
  (Z.of_nat (length (ObjectIterator w)) <= INT32_MAX)%Z ->
  ((Selection.GetWorldSelection (Editor_of w) [] true).2 <= INT32_MAX)%Z ->
  (forall call, call ∈ out_calls (BakeAllAssets w) ->
     guarded call /\ Some (call_component call) ∈ ObjectIterator w) /\
  out_BakedCount (BakeAllAssets w)
    = Some (Z.of_nat (successes (out_calls (BakeAllAssets w)))) /\
  (out_calls (BakeAllAssets w) = [] <->
   forall c, Some c ∈ ObjectIterator w -> ready w c = false) /\
  (forall call, call ∈ out_calls (BakeSelection w) ->
     guarded call /\
     exists Actor, Actor ∈ (Selection.GetWorldSelection (Editor_of w) [] true).1 /\
       GetHoudiniAssetComponent (call_world call) (Selection.ObjectId Actor)
         = Some (call_component call)) /\
  out_BakedCount (BakeSelection w)
    = (if ((Selection.GetWorldSelection (Editor_of w) [] true).2 <=? 0)%Z then None
       else Some (Z.of_nat (successes (out_calls (BakeSelection w))))) /\
  (out_calls (BakeSelection w) = [] <->
   forall Actor c, Actor ∈ (Selection.GetWorldSelection (Editor_of w) [] true).1 ->
     Selection.IsA_AHoudiniAssetActor Actor = true ->
     GetHoudiniAssetComponent w (Selection.ObjectId Actor) = Some c -> ready w c = false).
Proof.
  intros Hall Hsel.
  destruct (BakeAllAssets_loop_spec (ObjectIterator w) w 0)
    as (Ha1 & _ & Ha3 & _ & Ha5); [lia|lia|].
  unfold BakeAllAssets. cbv zeta. cbn [out_calls out_BakedCount].
  split; [exact Ha3|]. split; [by rewrite Ha1|]. split; [exact Ha5|].
  unfold BakeSelection.
  destruct (Selection.GetWorldSelection (Editor_of w) [] true)
    as [WorldSelection SelectedHoudiniAssets] eqn:Hws.
  assert (Hlen : SelectedHoudiniAssets = Z.of_nat (length WorldSelection)).
  { pose proof (SelectionSpec.GetWorldSelection_count (Editor_of w) [] true) as Hl.
    by rewrite Hws in Hl. }
  cbn [fst snd] in *.
  destruct (SelectedHoudiniAssets <=? 0)%Z eqn:Hle; cbn [out_calls out_BakedCount].
  { split; [by intros ? ?%elem_of_nil|]. split; [done|]. split; [|done].
    intros _ Actor c Hin.
    assert (WorldSelection = []) as -> by (destruct WorldSelection; [done|cbn in *; lia]).
    by apply elem_of_nil in Hin. }
  destruct (BakeSelection_loop_spec WorldSelection w 0)
    as (Hs1 & _ & Hs3 & _ & Hs5); [lia|lia|].
  cbv zeta. cbn [out_calls out_BakedCount].
  split; [|split; [by rewrite Hs1|exact Hs5]].
  intros call Hin. destruct (Hs3 call Hin) as (Hg & Actor & Hin' & _ & Hcomp).
  split; [done|]. by exists Actor.
Qed.

End Workflows.

Lemma bake_guarded_and_counted_witness :
  (Z.of_nat (length (ObjectIterator ([] : Level))) <= INT32_MAX)%Z /\
  out_BakedCount (BakeAllAssets ([] : Level))
    = Some (Z.of_nat (successes (out_calls (BakeAllAssets ([] : Level))))) /\
  out_BakedCount (BakeAllAssets ([] : Level)) = Some 2%Z /\
  length (out_calls (BakeAllAssets ([] : Level))) = 3 /\
  out_BakedCount (BakeSelection ([] : Level)) = Some 1%Z /\
  map call_component (out_calls (BakeSelection ([] : Level))) = [4].
Proof.
  assert (Hall : (Z.of_nat (length (ObjectIterator ([] : Level))) <= INT32_MAX)%Z)
    by (vm_compute; discriminate).
  assert (Hsel : ((Selection.GetWorldSelection (Editor_of ([] : Level)) [] true).2
                  <= INT32_MAX)%Z) by (vm_compute; discriminate).
  split; [exact Hall|].
  destruct (bake_guarded_and_counted ([] : Level) Hall Hsel)
    as (_ & Hcount & _ & _ & Hselcount & _).
  split; [exact Hcount|].
  split; [reflexivity|]. split; [reflexivity|]. split; [exact Hselcount|reflexivity].
Defined.

(** What [BakeAllAssets] and [BakeSelection] log on the small level:
    an error for the null entry of the iterator and for the component
    that an earlier turn has baked. *)
Example BakeAllAssets_level_events :
  out_events (BakeAllAssets ([] : Level)) =
    [CreateSlateNotification "Baking all assets in the current level...";
     HOUDINI_LOG_ERROR "Failed to export a Houdini Asset in the scene!";
     HOUDINI_LOG_ERROR "Failed to export Houdini Asset: HoudiniAssetActor1 in the scene!";
     CreateSlateNotification "Baked 2 Houdini assets.";
     HOUDINI_LOG_MESSAGE "Baked all 2 Houdini assets in the current level."].
Proof. vm_compute. reflexivity. Qed.

End BakeSpec.

(** ** The cleanup of the temporary cook folder *)

Module TempFolderSpec.

Import TempFolder.

Section Scan.

Context {W : Type} `{AssetHost W}.

Lemma OuterFound_owned (l : list FAssetData) (Outer : Ptr) :
  OuterFound l Outer = true <-> owned l Outer.
Proof.
  unfold owned. induction l as [|D l IH]; cbn [OuterFound].
  - split; [done|]. by intros (D & []%elem_of_nil & _).
  - unfold ptr_eqb. repeat case_bool_decide.
    + split; [|done]. intros _. exists D. split; [constructor 1|by left].
    + split; [|done]. intros _. exists D. split; [constructor 1|by right].
    + rewrite IH. split.
      * intros (D' & Hin & Hor). exists D'. split; [by constructor 2|done].
      * intros (D' & [->|Hin]%elem_of_cons & Hor); [by destruct Hor|].
        by exists D'.
Qed.

Lemma ExternalReferences_loop_owned (w : W) (l : list FAssetData)
    (refs : list FReferencerInformation) :
  ExternalReferences_loop w l refs = true <->
  forall ExtRef, ExtRef ∈ refs -> owned l (GetOuter w (Referencer ExtRef)).
Proof.
  induction refs as [|r refs IH]; cbn [ExternalReferences_loop].
  - split; [by intros _ ? ?%elem_of_nil|done].
  - destruct (OuterFound l (GetOuter w (Referencer r))) eqn:Hf; cbn [negb].
    + apply OuterFound_owned in Hf. rewrite IH. split.
      * intros Hall ExtRef [->|Hin]%elem_of_cons; [done|by apply Hall].
      * intros Hall ExtRef Hin. apply Hall. by constructor 2.
    + split; [done|]. intros Hall.
      assert (Ho : owned l (GetOuter w (Referencer r))) by (apply Hall; constructor 1).
      apply OuterFound_owned in Ho. congruence.
Qed.

Lemma AssetsInPackage_loop_true (w : W) (l AssetsInPackage : list FAssetData) (b : bool) :
  AssetsInPackage_loop w l AssetsInPackage b = true <->
  b = true /\ forall AssetInfo, AssetInfo ∈ AssetsInPackage -> asset_ok w l AssetInfo.
Proof.
  revert b. induction AssetsInPackage as [|A rest IH]; intros b; cbn [AssetsInPackage_loop].
  - split; [intros ->; split; [done|by intros ? ?%elem_of_nil]|by intros [-> _]].
  - assert (Hcons : forall P : FAssetData -> Prop,
              (forall x, x ∈ A :: rest -> P x) <-> P A /\ (forall x, x ∈ rest -> P x)).
    { intros P. split.
      - intros Hall. split; [apply Hall; constructor 1|].
        intros x Hx. apply Hall. by constructor 2.
      - intros [HA Hrest] x [->|Hx]%elem_of_cons; [done|by apply Hrest]. }
    rewrite Hcons. unfold asset_ok at 1.
    destruct (GetAsset A) as [obj|].
    2: { rewrite IH. split; [intros [-> Hr]|intros [-> [_ Hr]]]; by repeat split. }
    destruct (IsReferenced w obj) as [bRef refs] eqn:Href. cbn [fst snd].
    destruct bRef; cbn [negb].
    + rewrite IH. destruct (ExternalReferences_loop w l refs) eqn:Hloop.
      * pose proof (proj1 (ExternalReferences_loop_owned w l refs) Hloop) as Hown.
        split; [intros [-> Hr]|intros [-> [_ Hr]]]; repeat split; try done.
        intros ? [= <-]. rewrite Href. by right.
      * split; [by intros [? _]|]. intros [-> [HA _]].
        specialize (HA obj eq_refl). rewrite Href in HA.
        destruct HA as [?|Hall]; [done|].
        pose proof (proj2 (ExternalReferences_loop_owned w l refs) Hall). congruence.
    + rewrite IH.
      split; [intros [-> Hr]|intros [-> [_ Hr]]]; repeat split; try done.
      intros ? [= <-]. rewrite Href. by left.
Qed.

(** One iteration adds [Data] exactly when it is deletable with respect
    to the deletion list built so far, and changes nothing otherwise. *)
Lemma AssetDataList_step_spec (w : W) (l : list FAssetData) (Data : FAssetData) :
  (deletable w l Data /\ AssetDataList_step w l Data = l ++ [Data]) \/
  (~ deletable w l Data /\ AssetDataList_step w l Data = l).
Proof.
  unfold AssetDataList_step, deletable.
  destruct (GetPackage Data) as [pkg|].
  2: { right. split; [by intros (? & ? & _)|done]. }
  destruct (AssetsInPackage_loop w l (GetAssetsByPackageName w pkg) true) eqn:Hloop.
  - left. split; [|done]. exists pkg. split; [done|].
    exact (proj2 (proj1 (AssetsInPackage_loop_true w l _ true) Hloop)).
  - right. split; [|done]. intros (pkg' & [= <-] & Hall).
    assert (Ht : AssetsInPackage_loop w l (GetAssetsByPackageName w pkg) true = true)
      by (apply AssetsInPackage_loop_true; split; [done|exact Hall]).
    congruence.
Qed.

Lemma AssetDataToDelete_after_snoc (w : W) (pre : list FAssetData) (Data : FAssetData) :
  AssetDataToDelete_after w (pre ++ [Data])
  = AssetDataList_step w (AssetDataToDelete_after w pre) Data.
Proof. unfold AssetDataToDelete_after. by rewrite foldl_app. Qed.

(** The deletion list only grows during the scan, and by scanned
    entries only. *)
Lemma scan_grows (w : W) (l acc : list FAssetData) :
  acc `prefix_of` foldl (AssetDataList_step w) acc l /\
  forall D, D ∈ foldl (AssetDataList_step w) acc l -> D ∈ acc \/ D ∈ l.
Proof.
  revert acc. induction l as [|Data l IH]; intros acc; cbn [foldl].
  - split; [done|]. intros D HD. by left.
  - destruct (IH (AssetDataList_step w acc Data)) as [Hpre Hin].
    destruct (AssetDataList_step_spec w acc Data) as [[_ Hs]|[_ Hs]]; rewrite Hs in *.
    + split; [by etrans; [apply prefix_app_r|exact Hpre]|].
      intros D HD. destruct (Hin D HD) as [Hacc|Hl].
      * apply elem_of_app in Hacc as [Hacc|Hd]; [by left|].
        apply list_elem_of_singleton in Hd as ->. right. constructor 1.
      * right. by constructor 2.
    + split; [done|]. intros D HD. destruct (Hin D HD); [by left|right; by constructor 2].
Qed.

Lemma pass_AssetDataToDelete_scan (TempCookFolder : string) (w : W) (DeletedCount : Z) :
  pass_AssetDataToDelete (CleanUp_pass TempCookFolder w DeletedCount)
  = AssetDataToDelete_after w (GetAssetDataList w TempCookFolder).
Proof.
  unfold CleanUp_pass. cbn zeta.
  destruct (Z.of_nat _ <=? 0)%Z; [done|].
  destruct (DeleteAssets w _) as [w1 n1].
  destruct (n1 <=? 0)%Z.
  - destruct (ForceDeleteObjects w1 _) as [w2 n2]. by destruct (0 <? n2)%Z.
  - by destruct (0 <? n1)%Z.
Qed.

(** C2: in a pass of [CleanUpTempFolder], when the scan reaches an asset
    [Data] of the temporary cook folder with the deletion list [before],
    it adds [Data] only if [Data] is deletable: each loaded asset of its
    package either has no reference in memory or from the undo stack, or
    the outer of each of its external referencers is the package or the
    asset of an entry already in the deletion list (pointers are
    compared, so a null outer is matched by an entry whose asset is
    null).  Otherwise the list is left as it is, and an asset listed
    once is then not in the deletion list of the pass; in particular an
    asset with a referenced contained asset one of whose external
    referencers has an outer outside the list is kept.  The list only
    grows, so [before] is part of the final list of the pass. *)
Theorem deletion_list_only_unreferenced (w : W) (TempCookFolder : string) (DeletedCount : Z)
    (pre post : list FAssetData) (Data : FAssetData) :
  GetAssetDataList w TempCookFolder = pre ++ Data :: post ->
  let before := AssetDataToDelete_after w pre in
  let final := pass_AssetDataToDelete (CleanUp_pass TempCookFolder w DeletedCount) in
  before `prefix_of` final /\
  ((AssetDataToDelete_after w (pre ++ [Data]) = before ++ [Data] /\ deletable w before Data) \/
   (AssetDataToDelete_after w (pre ++ [Data]) = before /\ ~ deletable w before Data /\
    (Data ∉ pre -> Data ∉ post -> Data ∉ final))) /\
  (forall CurrentPackage AssetInfo AssetInPackage ExtRef,
     GetPackage Data = Some CurrentPackage ->
     AssetInfo ∈ GetAssetsByPackageName w CurrentPackage ->
     GetAsset AssetInfo = Some AssetInPackage ->
     (IsReferenced w AssetInPackage).1 = true ->
     ExtRef ∈ (IsReferenced w AssetInPackage).2 ->
     ~ owned before (GetOuter w (Referencer ExtRef)) ->
     AssetDataToDelete_after w (pre ++ [Data]) = before).
Proof.
  intros Hlist before final.
  assert (Hfinal : final = foldl (AssetDataList_step w)
                             (AssetDataList_step w before Data) post).
  { unfold final. rewrite pass_AssetDataToDelete_scan, Hlist.
    unfold AssetDataToDelete_after. by rewrite foldl_app. }
  destruct (scan_grows w post (AssetDataList_step w before Data)) as [Hpre Hin].
  rewrite <- Hfinal in Hpre, Hin.
  rewrite AssetDataToDelete_after_snoc. fold before.
  destruct (AssetDataList_step_spec w before Data) as [[Hdel Hs]|[Hdel Hs]];
    rewrite Hs in *.
  - split; [by etrans; [apply prefix_app_r|exact Hpre]|].
    split; [by left|].
    intros pkg AssetInfo obj ExtRef Hpkg HA Hobj Href Hext Hout.
    destruct Hdel as (pkg' & Hpkg' & Hall).
    assert (pkg' = pkg) as -> by congruence.
    destruct (Hall AssetInfo HA obj Hobj) as [Hno|Hown]; [congruence|].
    by destruct Hout; apply Hown.
  - split; [done|]. split; [|done].
    right. split; [done|]. split; [done|].
    intros Hnpre Hnpost Hfin.
    destruct (Hin Data Hfin) as [Hb|Hp]; [|done].
    destruct (scan_grows w pre []) as [_ Hin'].
    destruct (Hin' Data Hb) as [[]%elem_of_nil|?]; done.
Qed.

End Scan.

(** In the material library the scan meets the texture first: the
    material that uses it is not yet in the deletion list, so the texture
    is kept by the first pass. *)
Lemma deletion_list_only_unreferenced_witness :
  GetAssetDataList material_library "/Game/HoudiniEngine/Temp" = [] ++ Texture :: [Material] /\
  Texture ∉ pass_AssetDataToDelete (CleanUp_pass "/Game/HoudiniEngine/Temp" material_library 0).
Proof.
  assert (Hlist : GetAssetDataList material_library "/Game/HoudiniEngine/Temp"
                  = [] ++ Texture :: [Material]) by reflexivity.
  split; [exact Hlist|].
  destruct (deletion_list_only_unreferenced material_library "/Game/HoudiniEngine/Temp" 0
              [] [Material] Texture Hlist) as (_ & [[Hadd _]|(_ & _ & Hkept)] & _).
  - vm_compute in Hadd. discriminate.
  - apply Hkept.
    + apply not_elem_of_nil.
    + intros [Heq|[]%elem_of_nil]%elem_of_cons. discriminate.
Defined.

Section Termination.

Context {W : Type} `{AssetHost W}.

Variable TempCookFolder : string.






End Termination.





Example CleanUpTempFolder_material :
  CleanUp_loop 3 "/Game/HoudiniEngine/Temp" material_library 0
  = Some ({| assets := []; references := [] |}, 2%Z,
          [LoadAssetDataFromPath "/Game/HoudiniEngine/Temp"; DeleteAssetsCall 1;
           LoadAssetDataFromPath "/Game/HoudiniEngine/Temp"; DeleteAssetsCall 1;
           LoadAssetDataFromPath "/Game/HoudiniEngine/Temp"]).
Proof. reflexivity. Qed.

(** While a level actor uses the texture, the texture stays. *)
Example CleanUpTempFolder_used :
  CleanUp_loop 3 "/Game/HoudiniEngine/Temp" used_library 0
  = Some ({| assets := [Texture]; references := [(30, Some 3, 11)] |}, 1%Z,
          [LoadAssetDataFromPath "/Game/HoudiniEngine/Temp"; DeleteAssetsCall 1;
           LoadAssetDataFromPath "/Game/HoudiniEngine/Temp"]).
Proof. reflexivity. Qed.

End TempFolderSpec.

(** ** Registration and unregistration *)

Module RegistrationSpec.

Import Registration.

(** Unfolds the registration functions down to the inserts and deletes
    on the registry, leaving the finite maps alone. *)
Ltac unfold_registration :=
  cbv [StartupModule ShutdownModule
       RegisterAssetTypeActions RegisterAssetTypeAction RegisterAssetBrokers
       RegisterComponentVisualizers RegisterDetails RegisterActorFactories
       RegisterStyleSet RegisterThumbnails ExtendMenu BindMenuCommands
       RegisterConsoleCommands FAutoConsoleCommand RegisterForUndo RegisterModes
       RegisterPlacementModeExtensions
       UnregisterAssetTypeActions UnregisterDetails UnregisterThumbnails
       UnregisterComponentVisualizers UnregisterForUndo UnregisterModes
       UnregisterPlacementModeExtensions
       host_register host_unregister fresh_module console_delegate
       set_Extensions set_GlobalLevelEditorActions set_CCmdStatics
       set_SplineComponentVisualizer set_HandleComponentVisualizer
       set_AssetTypeActions set_StyleSet set_HEngineCommands set_HoudiniTools
       Extensions GlobalLevelEditorActions CCmdStatics SplineComponentVisualizer
       HandleComponentVisualizer AssetTypeActions StyleSet HEngineCommands HoudiniTools
       GUnrealEd GEditor IsRunningCommandlet HOUDINI_MODE EM_HoudiniShelfEdModeId
       RuntimeSettings bHidePlacementModeHoudiniTools CustomHoudiniTools
       PropertyEditorLoaded AssetToolsLoaded UObjectInitialized PlacementModeAvailable
       unregistered_keys never_unregistered
       negb app foldl GetStyleSetName].

(** Splits a membership in an explicit list into its cases. *)
Ltac elem_cases H :=
  repeat (apply elem_of_cons in H as [H|H]); try (by apply elem_of_nil in H).

(** Looks a key up through a chain of inserts and deletes, one layer at
    a time, down to the layer that decides it. *)
Ltac lookup_chain :=
  repeat lazymatch goal with
    | |- insert ?i ?x ?m !! ?j = _ =>
        first [ apply lookup_insert_eq
              | etrans; [apply lookup_insert_ne; discriminate|] ]
    | |- delete ?i ?m !! ?j = _ =>
        first [ apply lookup_delete_eq
              | etrans; [apply lookup_delete_ne; discriminate|] ]
    end.

(** The claim C3 as stated fails: after [StartupModule] and
    [ShutdownModule] in an interactive editor that held no extension, the
    Houdini actor factory, console commands and main-menu extension are
    still registered. *)
Lemma startup_shutdown_leaves_extensions :
  StartupModule editor_env initial_state = Some started /\
  Extensions (ShutdownModule editor_env started) !! (ActorFactory, "UHoudiniAssetActorFactory")
    = Some (ExtObject "UHoudiniAssetActorFactory") /\
  console_delegate (ShutdownModule editor_env started) "Houdini.Open"
    = Some fn_OpenInHoudini /\
  Extensions (ShutdownModule editor_env started) !! (MainMenuExtension, "FileLoadAndSave")
    = Some (ExtObject "FExtender").
Proof.
  repeat split; vm_compute; reflexivity.
Qed.

(** The two unregistration functions that nothing calls would remove
    their entries if they were called. *)
Lemma uncalled_unregistrations (env : Env) (s : State) :
  UObjectInitialized env = true -> StyleSet s = true ->
  Extensions (UnregisterAssetBrokers env s) !! (AssetBroker, "FHoudiniAssetBroker") = None /\
  Extensions (UnregisterStyleSet s) !! (SlateStyle, "HoudiniEngineStyle") = None.
Proof.
  intros Hu Hs. unfold UnregisterAssetBrokers, UnregisterStyleSet. rewrite Hu, Hs.
  destruct s; cbn. split; apply lookup_delete_eq.
Qed.

(** C3, amended: for component visualizers, detail customizers, asset
    type actions, thumbnail renderers, the placement-mode category and
    the undo/redo hook (and the editor mode of a HOUDINI_MODE build),
    [ShutdownModule] undoes what [StartupModule] registered, provided the
    host subsystems are still there: after the pair none of these keys is
    registered.  For actor factories, console commands and the main-menu
    extension there is no unregistration: [ShutdownModule] leaves these
    registries as [StartupModule] left them, with the Houdini actor
    factory, console commands and menu extension still registered. *)
Theorem shutdown_unregisters (env : Env) (ext : gmap Key Extension)
    (gl : gmap UICommand FUIAction) (s1 : State) :
  StartupModule env (fresh_module ext gl) = Some s1 ->
  GUnrealEd env = true -> PropertyEditorLoaded env = true -> AssetToolsLoaded env = true ->
  UObjectInitialized env = true -> PlacementModeAvailable env = true ->
  (bHidePlacementModeHoudiniTools env = false ->
   forall k, k ∈ unregistered_keys env -> is_Some (Extensions s1 !! k)) /\
  (forall k, k ∈ unregistered_keys env -> Extensions (ShutdownModule env s1) !! k = None) /\
  (forall k, k.1 ∈ never_unregistered ->
     Extensions (ShutdownModule env s1) !! k = Extensions s1 !! k) /\
  (GEditor env = true ->
   is_Some (Extensions (ShutdownModule env s1) !! (ActorFactory, "UHoudiniAssetActorFactory"))) /\
  is_Some (Extensions (ShutdownModule env s1) !! (ConsoleCommand, "Houdini.Open")) /\
  (IsRunningCommandlet env = false ->
   is_Some (Extensions (ShutdownModule env s1) !! (MainMenuExtension, "FileLoadAndSave"))).
Proof.
  destruct env as [gu ge cmdlet hm emid rs hide tools pel atl uoi pma].
  intros Hstart. cbn. intros -> -> -> -> ->.
  revert Hstart. unfold_registration.
  destruct rs; [|discriminate].
  destruct ge, cmdlet, hm, hide;
    intros Hs; apply (inj Some) in Hs; subst s1; unfold_registration;
    (split; [intros Hh k Hk; try discriminate Hh; elem_cases Hk; subst k;
             eexists; by lookup_chain|]);
    (split; [intros k Hk; elem_cases Hk; subst k; by lookup_chain|]);
    (split; [intros [sub name] Hk; cbn [fst] in Hk; elem_cases Hk; subst sub;
             by repeat (etrans; [apply lookup_delete_ne; discriminate|])|]);
    (split; [intros Hg; try discriminate Hg; eexists; by lookup_chain|]);
    (split; [eexists; by lookup_chain|]);
    intros Hc; try discriminate Hc; eexists; by lookup_chain.
Qed.

Lemma shutdown_unregisters_witness :
  StartupModule editor_env (fresh_module ∅ ∅) = Some started /\
  GUnrealEd editor_env = true /\
  (forall k, k ∈ unregistered_keys editor_env ->
     Extensions (ShutdownModule editor_env started) !! k = None) /\
  is_Some (Extensions (ShutdownModule editor_env started)
             !! (ActorFactory, "UHoudiniAssetActorFactory")).
Proof.
  assert (Hstart : StartupModule editor_env (fresh_module ∅ ∅) = Some started)
    by (vm_compute; reflexivity).
  split; [exact Hstart|]. split; [reflexivity|].
  destruct (shutdown_unregisters editor_env ∅ ∅ started Hstart
              eq_refl eq_refl eq_refl eq_refl eq_refl)
    as (_ & Hgone & _ & Hfactory & _).
  split; [exact Hgone|exact (Hfactory eq_refl)].
Defined.

Lemma HEngineCommands_BindMenuCommands (s : State) :
  HEngineCommands (BindMenuCommands s) = BoundCommands.
Proof. by destruct s. Qed.

(** Every name of [console_handlers] is registered with its handler by
    the first call of [RegisterConsoleCommands]. *)
Lemma console_delegate_registered (s : State) (name : string) (h : Handler) :
  CCmdStatics s = false ->
  (name, h) ∈ console_handlers ->
  console_delegate (RegisterConsoleCommands s) name = Some h.
Proof.
  intros Hcc Hin. unfold RegisterConsoleCommands. rewrite Hcc.
  destruct s. unfold_registration.
  unfold console_handlers in Hin. elem_cases Hin; injection Hin as -> ->;
    match goal with
    | |- match ?M !! ?k with _ => _ end = _ =>
        let Hl := fresh in
        eassert (Hl : M !! k = Some _) by lookup_chain; rewrite Hl
    end; reflexivity.
Qed.

(** A console command that runs [ReportBug] after the registration was
    there before it: the registration adds none. *)
Lemma no_console_ReportBug (s : State) (name : string) :
  console_delegate (RegisterConsoleCommands s) name = Some fn_ReportBug ->
  console_delegate s name = Some fn_ReportBug.
Proof.
  unfold RegisterConsoleCommands. destruct (CCmdStatics s); [done|].
  destruct s. unfold_registration.
  repeat (rewrite lookup_insert; case_decide; [discriminate|]).
  done.
Qed.

(** No UI command runs the handlers of the two console-only commands. *)
Lemma console_only_handlers (c : UICommand) :
  ExecuteAction <$> BoundCommands !! c <> Some fn_RecookAllAssets /\
  ExecuteAction <$> BoundCommands !! c <> Some fn_RebuildAllAssets.
Proof. destruct c; split; vm_compute; discriminate. Qed.

(** The claim C7 as stated fails: the console commands Houdini.CookAll
    and Houdini.RebuildAll run [RecookAllAssets] and [RebuildAllAssets],
    which no UI command runs; they are console-only commands, with no
    corresponding UI command whose handler they could share. *)
Lemma console_only_commands :
  console_delegate (RegisterConsoleCommands initial_state) "Houdini.CookAll"
    = Some fn_RecookAllAssets /\
  console_delegate (RegisterConsoleCommands initial_state) "Houdini.RebuildAll"
    = Some fn_RebuildAllAssets /\
  (forall c, ExecuteAction <$> HEngineCommands (BindMenuCommands initial_state) !! c
             <> Some fn_RecookAllAssets) /\
  (forall c, ExecuteAction <$> HEngineCommands (BindMenuCommands initial_state) !! c
             <> Some fn_RebuildAllAssets).
Proof.
  split; [vm_compute; reflexivity|]. split; [vm_compute; reflexivity|].
  rewrite HEngineCommands_BindMenuCommands.
  split; intros c; apply console_only_handlers.
Qed.

(** C7, amended: [BindMenuCommands] binds each of the UI commands save
    HIP, open in Houdini, report bug, clean temp folder, bake all and
    pause cooking, and the cook, rebuild and bake selection commands, to
    its handler; [RegisterConsoleCommands] (on its first call) registers
    Houdini.Save, Houdini.Open, Houdini.Clean, Houdini.BakeAll,
    Houdini.Pause, Houdini.Cook, Houdini.Rebuild and Houdini.Bake, each
    with the handler that the UI command of that name runs, and none for
    report bug.  Houdini.CookAll and Houdini.RebuildAll are console-only:
    they are registered with [RecookAllAssets] and [RebuildAllAssets],
    which no UI command runs. *)
Theorem console_commands_match_ui (s : State) :
  CCmdStatics s = false ->
  (forall c h, (c, h) ∈ ui_handlers ->
     ExecuteAction <$> HEngineCommands (BindMenuCommands s) !! c = Some h) /\
  (forall name h, (name, h) ∈ console_handlers ->
     console_delegate (RegisterConsoleCommands s) name = Some h) /\
  (forall c name, console_name c = Some name ->
     console_delegate (RegisterConsoleCommands s) name
     = ExecuteAction <$> HEngineCommands (BindMenuCommands s) !! c) /\
  (console_name ReportBug = None /\
   forall name, console_delegate (RegisterConsoleCommands s) name = Some fn_ReportBug ->
                console_delegate s name = Some fn_ReportBug) /\
  (forall c, console_name c <> Some "Houdini.CookAll" /\
             console_name c <> Some "Houdini.RebuildAll" /\
             ExecuteAction <$> HEngineCommands (BindMenuCommands s) !! c
               <> Some fn_RecookAllAssets /\
             ExecuteAction <$> HEngineCommands (BindMenuCommands s) !! c
               <> Some fn_RebuildAllAssets).
Proof.
  intros Hcc. rewrite HEngineCommands_BindMenuCommands.
  assert (Hui : forall c h, (c, h) ∈ ui_handlers ->
                  ExecuteAction <$> BoundCommands !! c = Some h).
  { intros c h Hin. unfold ui_handlers in Hin.
    elem_cases Hin; injection Hin as -> ->; vm_compute; reflexivity. }
  split; [exact Hui|].
  split; [intros name h; by apply console_delegate_registered|].
  split; [|split; [split; [reflexivity|apply no_console_ReportBug]|]].
  - intros c name Hname.
    destruct c; cbn in Hname; try discriminate Hname; injection Hname as <-;
      (erewrite console_delegate_registered; [|exact Hcc|]);
      [symmetry; apply Hui| |symmetry; apply Hui| |symmetry; apply Hui| |
       symmetry; apply Hui| |symmetry; apply Hui| |symmetry; apply Hui| |
       symmetry; apply Hui| |symmetry; apply Hui| ];
      unfold ui_handlers, console_handlers;
      repeat first [by constructor 1 | constructor 2].
  - intros c. destruct (console_only_handlers c) as [Hcook Hrebuild].
    repeat split; try done; by destruct c.
Qed.

Lemma console_commands_match_ui_witness :
  CCmdStatics initial_state = false /\
  console_delegate (RegisterConsoleCommands initial_state) "Houdini.Bake"
  = ExecuteAction <$> HEngineCommands (BindMenuCommands initial_state) !! BakeSelec.
Proof.
  split; [reflexivity|].
  exact (proj1 (proj2 (proj2 (console_commands_match_ui initial_state eq_refl)))
           BakeSelec "Houdini.Bake" eq_refl).
Defined.

End RegistrationSpec.

(** ** Undo and redo *)

Module UndoSpec.

Import Undo.

Lemma notify_no_object (st : State) (posts : list Notification) :
  LastHoudiniAssetComponentUndoObject st = None ->
  foldl notify st posts = st.
Proof.
  intros Hnone. induction posts as [|n posts IH]; [done|].
  cbn [foldl]. replace (notify st n) with st; [exact IH|].
  destruct n; cbn; unfold PostUndo, PostRedo; by rewrite Hnone.
Qed.

Lemma notify_pending (st : State) (c : ObjId) (posts : list Notification) :
  LastHoudiniAssetComponentUndoObject st = Some c ->
  foldl notify st posts =
  if existsb succeeded posts
  then {| LastHoudiniAssetComponentUndoObject := None; Updated := Updated st ++ [c] |}
  else st.
Proof.
  intros Hc. induction posts as [|n posts IH]; [done|].
  cbn [foldl existsb].
  destruct (succeeded n) eqn:Hn; cbn [orb].
  - replace (notify st n)
      with {| LastHoudiniAssetComponentUndoObject := None; Updated := Updated st ++ [c] |}.
    + by apply notify_no_object.
    + destruct n; cbn in Hn; subst; cbn; unfold PostUndo, PostRedo; by rewrite Hc.
  - replace (notify st n) with st; [exact IH|].
    destruct n; cbn in Hn; subst; cbn; unfold PostUndo, PostRedo; by rewrite Hc.
Qed.

(** X1: after [MatchesContext], whatever notifications [PostUndo] and
    [PostRedo] receive, [UpdateEditorProperties] is called at most once:
    exactly when the context was the editor's or the runtime's, the
    primary object is a Houdini asset component and some notification
    reports success; the call is on that component.  Unsuccessful
    notifications leave the component pending. *)
Theorem undo_updates_once (EDITOR RUNTIME InContext : string)
    (PrimaryObject : option UObject) (st : State) (posts : list Notification) :
  let r := MatchesContext EDITOR RUNTIME InContext PrimaryObject st in
  r.1 = FString_eq InContext EDITOR || FString_eq InContext RUNTIME /\
  Updated (foldl notify r.2 posts) =
    Updated st ++
    match Cast_UHoudiniAssetComponent PrimaryObject with
    | Some c => if r.1 && existsb succeeded posts then [c] else []
    | None => []
    end /\
  LastHoudiniAssetComponentUndoObject (foldl notify r.2 posts) =
    if r.1 && negb (existsb succeeded posts)
    then Cast_UHoudiniAssetComponent PrimaryObject else None.
Proof.
  unfold MatchesContext.
  destruct (FString_eq InContext EDITOR || FString_eq InContext RUNTIME); cbn [fst snd].
  - split; [done|].
    destruct (Cast_UHoudiniAssetComponent PrimaryObject) as [c|] eqn:Hcast.
    + rewrite (notify_pending _ c) by done. cbn [andb negb].
      destruct (existsb succeeded posts); cbn; by rewrite ?app_nil_r.
    + rewrite notify_no_object by done. cbn. rewrite app_nil_r.
      split; [done|]. by destruct (existsb succeeded posts).
  - split; [done|]. rewrite notify_no_object by done. cbn.
    split; [by destruct (Cast_UHoudiniAssetComponent PrimaryObject); rewrite app_nil_r|done].
Qed.


End UndoSpec.

(** ** Cooking and rebuilding *)

Module CookSpec.

Import Cook.

Section Workflows.

Context {W : Type} `{CookHost W}.

Lemma start_component_spec (t : Task) (w : W) (c : Ptr) (n : Z) :
  (0 <= n < INT32_MAX)%Z ->
  let r := start_component t w c n in
  r.1.2 = (n + Z.of_nat (length r.2))%Z /\
  length r.2 <= 1 /\
  (forall call, call ∈ r.2 ->
     c = Some (call_component call) /\ call_world call = w /\
     IsComponentValid w (call_component call) = true) /\
  map call_component r.2 =
    match c with
    | Some c' => if IsComponentValid w c' then [c'] else []
    | None => []
    end /\
  r.1.1 = foldl (StartTask t) w (map call_component r.2).
Proof.
  intros Hn. unfold start_component, INT32_MAX in *.
  destruct c as [c|]; cbn zeta.
  2: { cbn. split; [lia|]. split; [lia|]. split; [by intros ? ?%elem_of_nil|done]. }
  destruct (IsComponentValid w c) eqn:Hv; cbn [negb].
  2: { cbn. split; [lia|]. split; [lia|]. split; [by intros ? ?%elem_of_nil|done]. }
  cbn [fst snd length map foldl]. split; [|split; [lia|split; [|done]]].
  - unfold int32_add. rewrite int32_wrap_small; lia.
  - intros call ->%list_elem_of_singleton. done.
Qed.


Lemma AllAssets_loop_spec (t : Task) (Itr : list Ptr) (w : W) (n : Z) :
  (0 <= n)%Z -> (n + Z.of_nat (length Itr) <= INT32_MAX)%Z ->
  let r := AllAssets_loop t Itr w n in
  r.1.2 = (n + Z.of_nat (length r.2))%Z /\
  length r.2 <= length Itr /\
  (forall call, call ∈ r.2 ->
     Some (call_component call) ∈ Itr /\
     IsComponentValid (call_world call) (call_component call) = true) /\
  r.1.1 = foldl (StartTask t) w (map call_component r.2) /\
  (validity_stable ->
   map call_component r.2 = List.filter (IsComponentValid w) (omap id Itr)).
Proof.
  revert w n. induction Itr as [|c Itr IH]; intros w n Hn Hmax.
  { cbn. split; [lia|]. split; [lia|]. split; [by intros ? ?%elem_of_nil|done]. }
  cbn [AllAssets_loop length] in *.
  destruct (start_component_spec t w c n) as (Hc1 & Hc2 & Hc3 & Hc4 & Hc5);
    [unfold INT32_MAX in *; lia|].
  destruct (start_component t w c n) as [[w1 n1] calls1]. cbn [fst snd] in *.
  destruct (IH w1 n1) as (Hl1 & Hl2 & Hl3 & Hl4 & Hl5); [lia|lia|].
  destruct (AllAssets_loop t Itr w1 n1) as [[w2 n2] calls2]. cbn [fst snd] in *.
  rewrite length_app, map_app, foldl_app. split; [lia|]. split; [lia|].
  split; [|split].
  - intros call [Hin|Hin]%elem_of_app.
    + destruct (Hc3 call Hin) as (-> & -> & Hv). split; [constructor 1|done].
    + destruct (Hl3 call Hin) as (Hm & Hv). split; [by constructor 2|done].
  - by rewrite <- Hc5.
  - intros Hstable. rewrite (Hl5 Hstable), Hc4.
    assert (Hext : List.filter (IsComponentValid w1) (omap id Itr)
                   = List.filter (IsComponentValid w) (omap id Itr)).
    { apply List.filter_ext. intros c'. rewrite Hc5, Hc4.
      destruct c as [c|]; [|done]. destruct (IsComponentValid w c); [|done].
      cbn. apply Hstable. }
    rewrite Hext. destruct c as [c|]; [|done]. cbn [omap list_omap id List.filter].
    by destruct (IsComponentValid w c).
Qed.

Lemma Selection_loop_spec (t : Task) (WorldSelection : list Selection.UObject) (w : W) (n : Z) :
  (0 <= n)%Z -> (n + Z.of_nat (length WorldSelection) <= INT32_MAX)%Z ->
  let r := Selection_loop t WorldSelection w n in
  r.1.2 = (n + Z.of_nat (length r.2))%Z /\
  length r.2 <= length WorldSelection /\
  (forall call, call ∈ r.2 ->
     IsComponentValid (call_world call) (call_component call) = true /\
     exists Actor, Actor ∈ WorldSelection /\
       Selection.IsA_AHoudiniAssetActor Actor = true /\
       GetHoudiniAssetComponent (call_world call) (Selection.ObjectId Actor)
         = Some (call_component call)) /\
  r.1.1 = foldl (StartTask t) w (map call_component r.2).
Proof.
  revert w n. induction WorldSelection as [|o rest IH]; intros w n Hn Hmax.
  { cbn. split; [lia|]. split; [lia|]. split; [by intros ? ?%elem_of_nil|done]. }
  cbn [Selection_loop length Selection.Cast_AHoudiniAssetActor] in *.
  destruct (Selection.IsA_AHoudiniAssetActor o) eqn:Ho.
  - destruct (start_component_spec t w (GetHoudiniAssetComponent w (Selection.ObjectId o)) n)
      as (Hc1 & Hc2 & Hc3 & Hc4 & Hc5); [unfold INT32_MAX in *; lia|].
    destruct (start_component t w _ n) as [[w1 n1] calls1]. cbn [fst snd] in *.
    destruct (IH w1 n1) as (Hl1 & Hl2 & Hl3 & Hl4); [lia|lia|].
    destruct (Selection_loop t rest w1 n1) as [[w2 n2] calls2]. cbn [fst snd] in *.
    rewrite length_app, map_app, foldl_app. split; [lia|]. split; [lia|].
    split; [|by rewrite <- Hc5].
    intros call [Hin|Hin]%elem_of_app.
    + destruct (Hc3 call Hin) as (Hcomp & Hw & Hv). rewrite Hw. split; [done|].
      exists o. split; [constructor 1|]. by split.
    + destruct (Hl3 call Hin) as (Hv & Actor & Hin' & Hh & Hcomp). split; [done|].
      exists Actor. split; [by constructor 2|done].
  - destruct (IH w n) as (Hl1 & Hl2 & Hl3 & Hl4); [lia|lia|].
    split; [done|]. split; [lia|]. split; [|done].
    intros call Hin. destruct (Hl3 call Hin) as (Hv & Actor & Hin' & Hh & Hcomp).
    split; [done|]. exists Actor. split; [by constructor 2|done].
Qed.

(** X2: [RecookAllAssets] and [RebuildAllAssets] start their task on the
    components of the object iterator that are not null and are valid
    when their turn comes, in the order of the iterator, whether or not
    a component is cooking already; the state they leave is the one
    these starts lead to, and the count they report is the number of
    tasks started.  When starting a task does not change which
    components are valid, the components started are the valid ones of
    the iterator. *)
Theorem all_assets_tasks_started (w : W) :
  (Z.of_nat (length (ObjectIterator w)) <= INT32_MAX)%Z ->
  (forall call, call ∈ out_calls (RecookAllAssets w) ++ out_calls (RebuildAllAssets w) ->
     Some (call_component call) ∈ ObjectIterator w /\
     IsComponentValid (call_world call) (call_component call) = true) /\
  out_Count (RecookAllAssets w) = Some (Z.of_nat (length (out_calls (RecookAllAssets w)))) /\
  out_Count (RebuildAllAssets w) = Some (Z.of_nat (length (out_calls (RebuildAllAssets w)))) /\
  out_world (RecookAllAssets w)
    = foldl StartTaskAssetCookingManual w (map call_component (out_calls (RecookAllAssets w))) /\
  out_world (RebuildAllAssets w)
    = foldl StartTaskAssetRebuildManual w (map call_component (out_calls (RebuildAllAssets w))) /\
  (validity_stable ->
   map call_component (out_calls (RecookAllAssets w))
     = List.filter (IsComponentValid w) (omap id (ObjectIterator w)) /\
   map call_component (out_calls (RebuildAllAssets w))
     = List.filter (IsComponentValid w) (omap id (ObjectIterator w))).
Proof.
  intros Hall.
  destruct (AllAssets_loop_spec Cooking (ObjectIterator w) w 0) as (Hc1 & _ & Hc3 & Hc4 & Hc5);
    [lia|lia|].
  destruct (AllAssets_loop_spec Rebuild (ObjectIterator w) w 0) as (Hr1 & _ & Hr3 & Hr4 & Hr5);
    [lia|lia|].
  unfold RecookAllAssets, RebuildAllAssets.
  destruct (AllAssets_loop Cooking (ObjectIterator w) w 0) as [[wc nc] callsc].
  destruct (AllAssets_loop Rebuild (ObjectIterator w) w 0) as [[wr nr] callsr].
  cbn [fst snd out_calls out_Count out_world] in *.
  split; [intros call [?|?]%elem_of_app; auto|].
  split; [by rewrite Hc1|]. split; [by rewrite Hr1|].
  split; [exact Hc4|]. split; [exact Hr4|].
  intros Hstable. split; auto.
Qed.

(** X3: [RecookSelection] and [RebuildSelection] return after one log
    message, without a notification, a task or a count, when the
    selection holds no Houdini asset actor.  Otherwise they start their
    task only on the component of a selected Houdini asset actor, valid
    when its turn comes, at most once per selected actor, and the count
    they report is the number of tasks started. *)
Theorem selection_tasks_started (w : W) (t : Task) :
  let sel := Selection.GetWorldSelection (Editor_of w) [] true in
  let r := match t with Cooking => RecookSelection w | Rebuild => RebuildSelection w end in
  (sel.2 <= INT32_MAX)%Z ->
  (sel.1 = [] ->
   out_world r = w /\ out_calls r = [] /\ out_Count r = None /\
   out_events r = [HOUDINI_LOG_MESSAGE "No Houdini Assets selected in the world outliner"]) /\
  (sel.1 <> [] ->
   out_Count r = Some (Z.of_nat (length (out_calls r))) /\
   length (out_calls r) <= length sel.1 /\
   out_world r = foldl (StartTask t) w (map call_component (out_calls r))) /\
  (forall call, call ∈ out_calls r ->
     IsComponentValid (call_world call) (call_component call) = true /\
     exists Actor, Actor ∈ sel.1 /\
       GetHoudiniAssetComponent (call_world call) (Selection.ObjectId Actor)
         = Some (call_component call)).
Proof.
  intros sel r Hsel.
  assert (Hlen : sel.2 = Z.of_nat (length sel.1))
    by apply SelectionSpec.GetWorldSelection_count.
  destruct (Selection_loop_spec t sel.1 w 0) as (Hs1 & Hs2 & Hs3 & Hs4); [lia|lia|].
  assert (Hr : r = match t with Cooking => RecookSelection w | Rebuild => RebuildSelection w end)
    by reflexivity.
  clearbody r. unfold RecookSelection, RebuildSelection in Hr. fold sel in Hr.
  destruct sel as [WorldSelection SelectedHoudiniAssets]. cbn [fst snd] in *.
  destruct (SelectedHoudiniAssets <=? 0)%Z eqn:Hle.
  - assert (WorldSelection = []) as -> by (destruct WorldSelection; [done|cbn in *; lia]).
    destruct t; subst r; cbn; (split; [done|]); (split; [done|]);
      by intros ? ?%elem_of_nil.
  - assert (Hne : WorldSelection <> []) by (intros ->; cbn in *; lia).
    destruct t;
      destruct (Selection_loop _ WorldSelection w 0) as [[ws ns] calls];
      subst r; cbn [fst snd out_calls out_Count out_world] in *;
      (split; [done|]);
      (split; [intros _; split; [by rewrite Hs1|by split]|]);
      intros call Hin; destruct (Hs3 call Hin) as (Hv & Actor & Hin' & _ & Hcomp);
      (split; [done|]); by exists Actor.
Qed.

End Workflows.

Lemma all_assets_tasks_started_witness :
  (Z.of_nat (length (ObjectIterator ([] : Level))) <= INT32_MAX)%Z /\
  out_Count (RecookAllAssets ([] : Level)) = Some 2%Z /\
  out_world (RecookAllAssets ([] : Level)) = [(Cooking, 2); (Cooking, 4)].
Proof.
  assert (Hall : (Z.of_nat (length (ObjectIterator ([] : Level))) <= INT32_MAX)%Z)
    by (vm_compute; discriminate).
  split; [exact Hall|].
  destruct (all_assets_tasks_started ([] : Level) Hall) as (_ & Hc & _ & Hw & _).
  split; [exact Hc|exact Hw].
Defined.

Lemma selection_tasks_started_witness :
  ((Selection.GetWorldSelection (Editor_of ([] : Level)) [] true).2 <= INT32_MAX)%Z /\
  out_Count (RecookSelection ([] : Level)) = Some 1%Z.
Proof.
  assert (Hsel : ((Selection.GetWorldSelection (Editor_of ([] : Level)) [] true).2
                  <= INT32_MAX)%Z) by (vm_compute; discriminate).
  split; [exact Hsel|].
  destruct (selection_tasks_started ([] : Level) Cooking Hsel) as (_ & Hne & _).
  destruct Hne as (Hc & _); [discriminate|exact Hc].
Defined.

End CookSpec.

(** ** The content browser selection, and more on the world selection *)

Module ContentBrowserSpec.

Import ContentBrowser.

Lemma omap_length_le {A B} (f : A -> option B) (l : list A) :
  length (omap f l) <= length l.
Proof.
  induction l as [|x l IH]; [done|].
  change (omap f (x :: l)) with (match f x with Some y => y :: omap f l | None => omap f l end).
  destruct (f x); cbn [length]; lia.
Qed.

Lemma selected_loop_omap (SelectedAssets : list FAssetData) (acc : list UObject) :
  selected_loop SelectedAssets acc = acc ++ omap static_mesh SelectedAssets.
Proof.
  revert acc. induction SelectedAssets as [|Data rest IH]; intros acc; cbn [selected_loop].
  - by rewrite app_nil_r.
  - change (omap static_mesh (Data :: rest))
      with (match static_mesh Data with
            | Some y => y :: omap static_mesh rest
            | None => omap static_mesh rest
            end).
    unfold static_mesh at 1. destruct (GetAsset Data) as [Object|]; [|apply IH].
    destruct (String.eqb (GetClass Object) UStaticMesh); cbn [negb]; [|apply IH].
    rewrite IH. by rewrite <- app_assoc.
Qed.

(** X4: [GetContentBrowserSelection] forgets what the array held, and
    fills it with the selected assets that load and whose class is
    exactly [UStaticMesh], each once per selected entry and in the order
    of the selection; assets that fail to load or are of another class
    are skipped.  The count returned is the length of the array. *)
Theorem GetContentBrowserSelection_spec (SelectedAssets : list FAssetData)
    (ContentBrowserSelection : list UObject) :
  let r := GetContentBrowserSelection SelectedAssets ContentBrowserSelection in
  r = GetContentBrowserSelection SelectedAssets [] /\
  r.2 = Z.of_nat (length r.1) /\
  r.1 = omap static_mesh SelectedAssets /\
  (forall o, o ∈ r.1 <->
     GetClass o = UStaticMesh /\ exists Data, Data ∈ SelectedAssets /\ GetAsset Data = Some o) /\
  length r.1 <= length SelectedAssets.
Proof.
  cbv zeta. unfold GetContentBrowserSelection. cbn [fst snd].
  rewrite selected_loop_omap. cbn [app].
  split; [done|]. split; [done|]. split; [done|]. split.
  - intros o. rewrite list_elem_of_omap. split.
    + intros (Data & Hin & Hm). unfold static_mesh in Hm.
      destruct (GetAsset Data) as [Object|] eqn:Ha; [|done].
      destruct (String.eqb (GetClass Object) UStaticMesh) eqn:Hc; [|done].
      injection Hm as <-. apply String.eqb_eq in Hc. split; [done|]. by exists Data.
    + intros (Hc & Data & Hin & Ha). exists Data. split; [done|].
      unfold static_mesh. rewrite Ha, Hc. by rewrite String.eqb_refl.
  - apply omap_length_le.
Qed.

End ContentBrowserSpec.

Module SelectionExtra.

Import Selection.

(** X5: the world selection for Houdini asset actors only is the full
    world selection with the other actors removed, in the same order;
    and the full selection holds every selected actor whose class is not
    named like the sky sphere (whatever the letter case). *)
Theorem GetWorldSelection_filters (ed : Editor) (WorldSelection : list UObject) :
  (GetWorldSelection ed WorldSelection true).1
    = List.filter IsA_AHoudiniAssetActor (GetWorldSelection ed WorldSelection false).1 /\
  (GetWorldSelection ed WorldSelection true).1
    `sublist_of` (GetWorldSelection ed WorldSelection false).1 /\
  (forall o, GEditor ed = true -> Some o ∈ GetSelectedActors ed -> IsA_AActor o = true ->
     FString_eq (match GetClass o with Some n => n | None => "" end) "BP_Sky_Sphere_C" = false ->
     o ∈ (GetWorldSelection ed WorldSelection false).1) /\
  (GEditor ed = false -> GetWorldSelection ed WorldSelection true = ([], 0%Z)).
Proof.
  rewrite !SelectionSpec.GetWorldSelection_array. cbv zeta.
  split; [done|]. split; [|split].
  - generalize (if GEditor ed then omap kept (GetSelectedActors ed) else []).
    intros l. induction l as [|x l IH]; cbn [List.filter]; [done|].
    destruct (IsA_AHoudiniAssetActor x); [by apply sublist_skip|by apply sublist_cons].
  - intros o -> Hin Hact Hname. apply list_elem_of_omap. exists (Some o).
    split; [done|]. unfold kept, Cast_AActor. by rewrite Hact, Hname.
  - intros Hg. unfold GetWorldSelection. by rewrite Hg.
Qed.

End SelectionExtra.

(** ** More on the command handlers *)

Module CommandsExtra.

Import Commands Ticking.

#[local] Arguments bind : simpl never.
#[local] Arguments call : simpl never.
#[local] Arguments ret : simpl never.
#[local] Arguments run : simpl never.
#[local] Arguments FHoudiniApi_SaveHIPFile : simpl never.


Lemma run_tick_components (Itr : list (option UHoudiniAssetComponent)) (w : World) :
  run (tick_components Itr) w =
  {| Trace := Trace w ++ map tick_call Itr; Files := Files w;
     EnableCookingGlobal := EnableCookingGlobal w |}.
Proof.
  revert w. induction Itr as [|o Itr IH]; intros w.
  - cbn [tick_components map]. rewrite CommandsSpec.run_ret, app_nil_r. by destruct w.
  - cbn [tick_components map]. rewrite CommandsSpec.run_bind, IH.
    assert (Hone : run (match o with
                        | Some c =>
                            if IsValidLowLevel c then call (StartHoudiniTicking (ComponentId c))
                            else call (HOUDINI_LOG_ERROR
                                         "Failed to cook a Houdini Asset in the scene!")
                        | None => call (HOUDINI_LOG_ERROR
                                          "Failed to cook a Houdini Asset in the scene!")
                        end) w
                   = run (call (tick_call o)) w).
    { destruct o as [c|]; [destruct (IsValidLowLevel c) eqn:Hv|]; cbn [tick_call];
        rewrite ?Hv; reflexivity. }
    rewrite Hone, CommandsSpec.run_call. cbn [Trace Files EnableCookingGlobal].
    by rewrite <- app_assoc.
Qed.

Lemma ticked_tick_calls (h : Host) :
  ticked (map tick_call (HoudiniAssetComponents h)) = valid_components h.
Proof.
  unfold ticked, valid_components.
  induction (HoudiniAssetComponents h) as [|o l IH]; [done|].
  cbn [map]. destruct o as [c|]; cbn; [destruct (IsValidLowLevel c); cbn|]; by rewrite ?IH.
Qed.

(** What [PauseAssetCooking] leaves, in closed form. *)
Lemma run_PauseAssetCooking (h : Host) (w : World) :
  run (PauseAssetCooking h) w =
  {| Trace := Trace w ++
       (if EnableCookingGlobal w then
          [SetEnableCookingGlobal false;
           CreateSlateNotification "Houdini Engine cooking paused";
           HOUDINI_LOG_MESSAGE "Houdini Engine cooking paused."]
        else
          [SetEnableCookingGlobal true;
           CreateSlateNotification "Houdini Engine cooking resumed";
           HOUDINI_LOG_MESSAGE "Houdini Engine cooking resumed."]
          ++ map tick_call (HoudiniAssetComponents h));
     Files := Files w;
     EnableCookingGlobal := negb (EnableCookingGlobal w) |}.
Proof.
  unfold PauseAssetCooking. rewrite CommandsSpec.run_bind.
  change (GetEnableCookingGlobal w).1 with (EnableCookingGlobal w).
  change (run GetEnableCookingGlobal w) with w.
  rewrite !CommandsSpec.run_bind.
  destruct (EnableCookingGlobal w); cbn [negb].
  - rewrite CommandsSpec.run_ret.
    cbv [run call bind FHoudiniEngine_SetEnableCookingGlobal snd Trace Files EnableCookingGlobal].
    by rewrite <- !app_assoc.
  - rewrite run_tick_components.
    cbv [run call bind FHoudiniEngine_SetEnableCookingGlobal snd Trace Files EnableCookingGlobal].
    by rewrite <- !app_assoc.
Qed.

(** X6: [PauseAssetCooking] starts the ticking of a component only when
    it resumes cooking: then it ticks the components of the iterator
    that are not null and valid, each once and in order, and logs one
    error for each other entry; when it pauses it ticks none.  It
    touches no file. *)
Theorem PauseAssetCooking_ticks (h : Host) (w : World) :
  ticked (calls_made (PauseAssetCooking h) w)
    = (if EnableCookingGlobal w then [] else valid_components h) /\
  length (calls_made (PauseAssetCooking h) w)
    = (if EnableCookingGlobal w then 3 else 3 + length (HoudiniAssetComponents h)) /\
  Files (run (PauseAssetCooking h) w) = Files w.
Proof.
  assert (Hcalls : calls_made (PauseAssetCooking h) w =
            if EnableCookingGlobal w then
              [SetEnableCookingGlobal false;
               CreateSlateNotification "Houdini Engine cooking paused";
               HOUDINI_LOG_MESSAGE "Houdini Engine cooking paused."]
            else
              [SetEnableCookingGlobal true;
               CreateSlateNotification "Houdini Engine cooking resumed";
               HOUDINI_LOG_MESSAGE "Houdini Engine cooking resumed."]
              ++ map tick_call (HoudiniAssetComponents h)).
  { apply CommandsSpec.calls_made_app. by rewrite run_PauseAssetCooking. }
  rewrite Hcalls, run_PauseAssetCooking. cbn [Files].
  destruct (EnableCookingGlobal w).
  - done.
  - split; [|split; [|done]].
    + change (ticked ([SetEnableCookingGlobal true;
                       CreateSlateNotification "Houdini Engine cooking resumed";
                       HOUDINI_LOG_MESSAGE "Houdini Engine cooking resumed."]
                      ++ map tick_call (HoudiniAssetComponents h)))
        with (ticked (map tick_call (HoudiniAssetComponents h))).
      apply ticked_tick_calls.
    + cbn [app length]. by rewrite length_map.
Qed.

End CommandsExtra.

(** ** More on the cleanup of the temporary cook folder *)

Module TempFolderExtra.

Import TempFolder TempFolderCycle.


Section Scan.

Context {W : Type} `{AssetHost W}.

Lemma scan_sublist (w : W) (l acc : list FAssetData) :
  exists k, foldl (AssetDataList_step w) acc l = acc ++ k /\
            k `sublist_of` l /\
            forall D, D ∈ k -> is_Some (GetPackage D).
Proof.
  revert acc. induction l as [|Data l IH]; intros acc; cbn [foldl].
  - exists []. rewrite app_nil_r. split; [done|]. split; [done|]. by intros ? ?%elem_of_nil.
  - destruct (IH (AssetDataList_step w acc Data)) as (k & Hk & Hsub & Hpkg).
    destruct (TempFolderSpec.AssetDataList_step_spec w acc Data) as [[Hdel Hs]|[_ Hs]];
      rewrite Hs in Hk |- *.
    + exists (Data :: k). split; [by rewrite Hk, <- app_assoc|].
      split; [by apply sublist_skip|].
      intros D [->|Hin]%elem_of_cons; [|by apply Hpkg].
      destruct Hdel as (pkg & Hp & _). by rewrite Hp.
    + exists k. split; [done|]. split; [by apply sublist_cons|done].
Qed.

(** X8: the deletion list of a pass is taken from the assets that the
    object library lists for the temporary cook folder, in their order
    and without repeating an entry; every entry has a package; and the
    objects handed to a forced deletion are loaded assets of entries of
    the list. *)
Theorem deletion_list_from_folder (TempCookFolder : string) (w : W) (DeletedCount : Z) :
  let l := pass_AssetDataToDelete (CleanUp_pass TempCookFolder w DeletedCount) in
  l `sublist_of` GetAssetDataList w TempCookFolder /\
  (forall D, D ∈ l -> is_Some (GetPackage D)) /\
  (forall o, o ∈ ObjectsToDelete_of l -> exists D, D ∈ l /\ GetAsset D = Some o) /\
  length (ObjectsToDelete_of l) <= length l.
Proof.
  cbv zeta. rewrite TempFolderSpec.pass_AssetDataToDelete_scan.
  unfold AssetDataToDelete_after.
  destruct (scan_sublist w (GetAssetDataList w TempCookFolder) []) as (k & -> & Hsub & Hpkg).
  cbn [app]. split; [done|]. split; [done|]. split.
  - intros o Ho. unfold ObjectsToDelete_of in Ho. by apply list_elem_of_omap in Ho.
  - unfold ObjectsToDelete_of. apply ContentBrowserSpec.omap_length_le.
Qed.

(** X9: a pass calls the engine's deletion only with a deletion list
    that is not empty, and the forced deletion only after the normal one
    reported no deleted asset, once, on at most as many objects as the
    list has entries.  A pass with an empty list leaves the engine state
    and the count as they are. *)
Theorem pass_deletion_calls (TempCookFolder : string) (w : W) (DeletedCount : Z) :
  let p := CleanUp_pass TempCookFolder w DeletedCount in
  let l := pass_AssetDataToDelete p in
  (l = [] ->
   pass_world p = w /\ pass_DeletedCount p = DeletedCount /\
   pass_calls p = [LoadAssetDataFromPath TempCookFolder]) /\
  (l <> [] -> (0 < (DeleteAssets w l).2)%Z ->
   pass_world p = (DeleteAssets w l).1 /\
   pass_DeletedCount p = int32_add DeletedCount (DeleteAssets w l).2 /\
   pass_calls p = [LoadAssetDataFromPath TempCookFolder; DeleteAssetsCall (length l)]) /\
  (l <> [] -> ((DeleteAssets w l).2 <= 0)%Z ->
   pass_world p = (ForceDeleteObjects (DeleteAssets w l).1 (ObjectsToDelete_of l)).1 /\
   pass_calls p = [LoadAssetDataFromPath TempCookFolder; DeleteAssetsCall (length l);
                   ForceDeleteObjectsCall (length (ObjectsToDelete_of l))]) /\
  (bDidDeleteAsset p = false -> pass_DeletedCount p = DeletedCount).
Proof.
  cbv zeta. rewrite TempFolderSpec.pass_AssetDataToDelete_scan.
  unfold CleanUp_pass. cbv zeta.
  generalize (AssetDataToDelete_after w (GetAssetDataList w TempCookFolder)).
  intros l.
  destruct (Z.of_nat (length l) <=? 0)%Z eqn:Hlen.
  { assert (l = []) as ->
      by (apply Z.leb_le in Hlen; destruct l; [done|cbn [length] in Hlen; lia]).
    cbn. repeat split; try done. }
  assert (Hne : l <> []) by (intros ->; discriminate Hlen).
  apply Z.leb_gt in Hlen.
  destruct (DeleteAssets w l) as [w1 n1]. cbn [fst snd].
  destruct (n1 <=? 0)%Z eqn:Hn1.
  - destruct (ForceDeleteObjects w1 (ObjectsToDelete_of l)) as [w2 n2]. cbn [fst snd].
    destruct (0 <? n2)%Z; cbn;
      (split; [done|]); (split; [intros; lia|]); (split; [done|]); done.
  - destruct (0 <? n1)%Z eqn:Hpos; cbn;
      (split; [done|]); (split; [try done; intros; lia|]);
      (split; [intros; lia|]); done.
Qed.

(** X10: an asset of the folder whose package holds no referenced asset
    is in the deletion list of the pass, wherever it stands in the
    folder's list and whatever the rest of the folder. *)
Theorem unreferenced_asset_is_candidate (TempCookFolder : string) (w : W) (DeletedCount : Z)
    (Data : FAssetData) (CurrentPackage : ObjId) :
  Data ∈ GetAssetDataList w TempCookFolder ->
  GetPackage Data = Some CurrentPackage ->
  (forall AssetInfo AssetInPackage,
     AssetInfo ∈ GetAssetsByPackageName w CurrentPackage ->
     GetAsset AssetInfo = Some AssetInPackage ->
     (IsReferenced w AssetInPackage).1 = false) ->
  Data ∈ pass_AssetDataToDelete (CleanUp_pass TempCookFolder w DeletedCount).
Proof.
  intros Hin Hpkg Hunref.
  rewrite TempFolderSpec.pass_AssetDataToDelete_scan.
  apply list_elem_of_split in Hin as (pre & post & ->).
  unfold AssetDataToDelete_after. rewrite foldl_app. cbn [foldl].
  set (before := foldl (AssetDataList_step w) [] pre).
  destruct (TempFolderSpec.scan_grows w post (AssetDataList_step w before Data)) as [Hpre _].
  destruct (TempFolderSpec.AssetDataList_step_spec w before Data) as [[_ Hs]|[Hnot _]].
  - rewrite Hs in Hpre |- *. destruct Hpre as [rest ->].
    apply elem_of_app. left. apply elem_of_app. right. constructor 1.
  - destruct Hnot. exists CurrentPackage. split; [done|].
    intros AssetInfo HA obj Hobj. left. by apply (Hunref AssetInfo).
Qed.

(** X11: when every asset of the folder is held by an external reference
    that no deletion can release at the start of the scan (each is not
    deletable with respect to the empty list, as are assets that only
    reference each other), [CleanUpTempFolder] deletes nothing: it makes
    one pass, calls no deletion, leaves the engine state as it is and
    reports zero deleted files. *)
Theorem nothing_deletable (TempCookFolder : string) (w : W) (fuel : nat) :
  (forall D, D ∈ GetAssetDataList w TempCookFolder -> ~ deletable w [] D) ->
  CleanUpTempFolder (S fuel) (Some TempCookFolder) w =
  Some (w, [CreateSlateNotification "Cleaning up Houdini Engine temporary folder";
            LoadModuleChecked "AssetRegistry";
            LoadAssetDataFromPath TempCookFolder;
            CreateSlateNotification "Deleted 0 temporary files.";
            HOUDINI_LOG_MESSAGE "Deleted 0 temporary files."]).
Proof.
  intros Hnone.
  assert (Hempty : AssetDataToDelete_after w (GetAssetDataList w TempCookFolder) = []).
  { unfold AssetDataToDelete_after.
    induction (GetAssetDataList w TempCookFolder) as [|D l IH]; [done|].
    cbn [foldl].
    destruct (TempFolderSpec.AssetDataList_step_spec w [] D) as [[Hdel _]|[_ Hs]].
    - destruct (Hnone D); [constructor 1|done].
    - rewrite Hs. apply IH. intros D' HD'. apply Hnone. by constructor 2. }
  unfold CleanUpTempFolder. cbn [CleanUp_loop].
  unfold CleanUp_pass. cbv zeta. rewrite Hempty. cbn. reflexivity.
Qed.

End Scan.

Lemma unreferenced_asset_is_candidate_witness :
  Material ∈ GetAssetDataList material_library "/Game/HoudiniEngine/Temp" /\
  Material ∈ pass_AssetDataToDelete (CleanUp_pass "/Game/HoudiniEngine/Temp" material_library 0).
Proof.
  assert (Hin : Material ∈ GetAssetDataList material_library "/Game/HoudiniEngine/Temp")
    by (constructor 2; constructor 1).
  split; [exact Hin|].
  apply (unreferenced_asset_is_candidate "/Game/HoudiniEngine/Temp" material_library 0
           Material 20 Hin eq_refl).
  intros AssetInfo obj HA Hobj. cbn in HA.
  apply list_elem_of_singleton in HA as ->. injection Hobj as <-. reflexivity.
Defined.

Lemma nothing_deletable_witness :
  CleanUpTempFolder 1 (Some "/Game/HoudiniEngine/Temp") cyclic_library =
  Some (cyclic_library,
        [CreateSlateNotification "Cleaning up Houdini Engine temporary folder";
         LoadModuleChecked "AssetRegistry";
         LoadAssetDataFromPath "/Game/HoudiniEngine/Temp";
         CreateSlateNotification "Deleted 0 temporary files.";
         HOUDINI_LOG_MESSAGE "Deleted 0 temporary files."]).
Proof.
  apply (nothing_deletable "/Game/HoudiniEngine/Temp" cyclic_library 0).
  intros D HD Hdel.
  destruct (TempFolderSpec.AssetDataList_step_spec cyclic_library [] D) as [[_ Hs]|[Hnot _]];
    [|done].
  cbn in HD. apply elem_of_cons in HD as [->|HD];
    [|apply list_elem_of_singleton in HD as ->]; vm_compute in Hs; discriminate.
Defined.

End TempFolderExtra.

(** ** The life cycle of the module *)

Module LifecycleSpec.

Import Registration Lifecycle.

Lemma foldl_unregister (s : State) (l : list string) :
  foldl (fun st Action => host_unregister (AssetTypeAction, Action) st) s l =
  set_Extensions (fun m => foldl (fun m Action => delete (AssetTypeAction, Action) m) m l) s.
Proof.
  revert s. induction l as [|a l IH]; intros s; cbn [foldl].
  - by destruct s.
  - rewrite IH. by destruct s.
Qed.

Lemma lookup_foldl_delete (ks : list Key) (m : gmap Key Extension) (k : Key) :
  foldl (fun m k => delete k m) m ks !! k = if bool_decide (k ∈ ks) then None else m !! k.
Proof.
  revert m. induction ks as [|k0 ks IH]; intros m; cbn [foldl].
  - rewrite bool_decide_eq_false_2; [done|apply not_elem_of_nil].
  - rewrite IH, lookup_delete. destruct (decide (k0 = k)) as [->|Hne].
    + rewrite (bool_decide_eq_true_2 (k ∈ k :: ks)) by constructor 1.
      by destruct (bool_decide _).
    + destruct (bool_decide (k ∈ ks)) eqn:Hb.
      * apply bool_decide_eq_true in Hb.
        rewrite bool_decide_eq_true_2; [done|by constructor 2].
      * apply bool_decide_eq_false in Hb.
        rewrite bool_decide_eq_false_2; [done|].
        intros [?|?]%elem_of_cons; [congruence|done].
Qed.

(** [ShutdownModule] in closed form: it deletes the keys of
    [shutdown_keys] and empties the recorded asset type actions. *)
Lemma ShutdownModule_closed (env : Env) (s : State) :
  ShutdownModule env s =
  set_AssetTypeActions (if AssetToolsLoaded env then [] else AssetTypeActions s)
    (set_Extensions (fun m => foldl (fun m k => delete k m) m (shutdown_keys env s)) s).
Proof.
  unfold ShutdownModule, UnregisterAssetTypeActions. rewrite foldl_unregister.
  destruct env as [gu ge cmdlet hm emid rs hide tools pel atl uoi pma].
  destruct s as [ext gl cc sp ha ata sty cmds htools].
  unfold shutdown_keys.
  destruct atl, pel, uoi, gu, sp, ha, hm, pma; cbn;
    rewrite ?foldl_app, ?foldl_fmap; reflexivity.
Qed.

(** X12: the registrations that are guarded by a pointer test or by
    function-local statics are idempotent: a second call of
    [RegisterComponentVisualizers], [RegisterStyleSet] or
    [RegisterConsoleCommands] changes nothing. *)
Theorem guarded_registration_idempotent (env : Env) (s : State) :
  RegisterComponentVisualizers env (RegisterComponentVisualizers env s)
    = RegisterComponentVisualizers env s /\
  RegisterStyleSet (RegisterStyleSet s) = RegisterStyleSet s /\
  RegisterConsoleCommands (RegisterConsoleCommands s) = RegisterConsoleCommands s.
Proof.
  destruct s as [ext gl cc sp ha ata sty cmds htools].
  split; [|split].
  - unfold RegisterComponentVisualizers. destruct (GUnrealEd env); [|done].
    destruct sp, ha; reflexivity.
  - unfold RegisterStyleSet. destruct sty; reflexivity.
  - unfold RegisterConsoleCommands. destruct cc; reflexivity.
Qed.

(** X13: [UnregisterComponentVisualizers] leaves the visualizer pointers
    valid, so on the same module object the visualizers are registered
    once only: after a registration and an unregistration, a further
    [RegisterComponentVisualizers] registers nothing and both keys stay
    unregistered. *)
Theorem visualizers_not_registered_again (env : Env) (s : State) :
  GUnrealEd env = true ->
  let s1 := UnregisterComponentVisualizers env (RegisterComponentVisualizers env s) in
  SplineComponentVisualizer s1 = true /\ HandleComponentVisualizer s1 = true /\
  RegisterComponentVisualizers env s1 = s1 /\
  Extensions s1 !! (ComponentVisualizer, "HoudiniSplineComponent") = None /\
  Extensions s1 !! (ComponentVisualizer, "HoudiniHandleComponent") = None.
Proof.
  intros Hgu. destruct s as [ext gl cc sp ha ata sty cmds htools].
  unfold UnregisterComponentVisualizers, RegisterComponentVisualizers. rewrite Hgu.
  destruct sp, ha; cbn; (split; [done|]); (split; [done|]); (split; [done|]);
    split; RegistrationSpec.lookup_chain.
Qed.

Lemma register_actions_fold (s : State) (acts : list string) :
  let s1 := foldl (fun st Action => RegisterAssetTypeAction Action st) s acts in
  AssetTypeActions s1 = AssetTypeActions s ++ acts /\
  (forall a, a ∈ acts -> Extensions s1 !! (AssetTypeAction, a) = Some (ExtObject a)) /\
  (forall k, (k.1 <> AssetTypeAction \/ k.2 ∉ acts) ->
             Extensions s1 !! k = Extensions s !! k).
Proof.
  revert s. induction acts as [|a acts IH] using rev_ind; intros s.
  - cbn. rewrite app_nil_r. split; [done|]. split; [by intros ? ?%elem_of_nil|done].
  - cbv zeta. rewrite foldl_app. cbn [foldl].
    destruct (IH s) as (Hata & Hreg & Hframe). cbv zeta in Hata, Hreg, Hframe.
    set (s1 := foldl (fun st Action => RegisterAssetTypeAction Action st) s acts) in *.
    assert (Hext : Extensions (RegisterAssetTypeAction a s1)
                   = <[(AssetTypeAction, a) := ExtObject a]> (Extensions s1))
      by (by destruct s1).
    assert (Hl : AssetTypeActions (RegisterAssetTypeAction a s1) = AssetTypeActions s1 ++ [a])
      by (by destruct s1).
    rewrite Hext, Hl, Hata, <- app_assoc. split; [done|]. split.
    + intros b Hb. destruct (decide (b = a)) as [->|Hne].
      * apply lookup_insert_eq.
      * rewrite lookup_insert_ne by congruence. apply Hreg.
        apply elem_of_app in Hb as [Hb|Hb]; [done|].
        apply list_elem_of_singleton in Hb. done.
    + intros [sub name] Hk. cbn [fst snd] in Hk.
      rewrite lookup_insert_ne.
      * apply Hframe. cbn [fst snd]. destruct Hk as [Hk|Hk]; [by left|right].
        intros Hin. apply Hk. apply elem_of_app. by left.
      * intros [= <- <-]. destruct Hk as [Hk|Hk]; [done|].
        apply Hk. apply elem_of_app. right. constructor 1.
Qed.

(** X14: every asset type action registered through
    [RegisterAssetTypeAction] is recorded by the module, and
    [UnregisterAssetTypeActions] unregisters each recorded action and
    empties the record, however many were registered; no other key of
    the registry is touched. *)
Theorem asset_type_actions_all_unregistered (env : Env) (s : State) (acts : list string) :
  AssetToolsLoaded env = true ->
  let s1 := foldl (fun st Action => RegisterAssetTypeAction Action st) s acts in
  let s2 := UnregisterAssetTypeActions env s1 in
  AssetTypeActions s1 = AssetTypeActions s ++ acts /\
  (forall a, a ∈ acts -> Extensions s1 !! (AssetTypeAction, a) = Some (ExtObject a)) /\
  AssetTypeActions s2 = [] /\
  (forall a, a ∈ AssetTypeActions s ++ acts -> Extensions s2 !! (AssetTypeAction, a) = None) /\
  (forall k, (k.1 <> AssetTypeAction \/ k.2 ∉ AssetTypeActions s ++ acts) ->
             Extensions s2 !! k = Extensions s !! k).
Proof.
  intros Hatl. cbv zeta.
  destruct (register_actions_fold s acts) as (Hata & Hreg & Hframe).
  cbv zeta in Hata, Hreg, Hframe.
  set (s1 := foldl (fun st Action => RegisterAssetTypeAction Action st) s acts) in *.
  split; [done|]. split; [done|].
  unfold UnregisterAssetTypeActions. rewrite Hatl, foldl_unregister, Hata.
  assert (Hext : forall k,
            Extensions (set_AssetTypeActions []
              (set_Extensions (fun m => foldl (fun m Action => delete (AssetTypeAction, Action) m)
                                          m (AssetTypeActions s ++ acts)) s1)) !! k
            = if bool_decide (k ∈ (fun Action => (AssetTypeAction, Action))
                                    <$> (AssetTypeActions s ++ acts))
              then None else Extensions s1 !! k).
  { intros k. rewrite <- lookup_foldl_delete, foldl_fmap. by destruct s1. }
  split; [by destruct s1|]. split.
  - intros a Ha. rewrite Hext, bool_decide_eq_true_2; [done|].
    apply list_elem_of_fmap. by exists a.
  - intros [sub name] Hk. cbn [fst snd] in Hk. rewrite Hext, bool_decide_eq_false_2.
    + apply Hframe. cbn [fst snd]. destruct Hk as [Hk|Hk]; [by left|right].
      intros Hin. apply Hk. apply elem_of_app. by right.
    + intros (a & [= -> ->] & Ha)%list_elem_of_fmap. by destruct Hk.
Qed.

Lemma asset_type_actions_all_unregistered_witness :
  AssetToolsLoaded editor_env = true /\
  Extensions (UnregisterAssetTypeActions editor_env
                (foldl (fun st Action => RegisterAssetTypeAction Action st) initial_state
                   ["FHoudiniAssetTypeActions"; "FHoudiniAssetTypeActions2"]))
    !! (AssetTypeAction, "FHoudiniAssetTypeActions2") = None.
Proof.
  split; [reflexivity|].
  destruct (asset_type_actions_all_unregistered editor_env initial_state
              ["FHoudiniAssetTypeActions"; "FHoudiniAssetTypeActions2"] eq_refl)
    as (_ & _ & _ & Hgone & _).
  apply Hgone. apply elem_of_app. right. constructor 2. constructor 1.
Defined.

Lemma visualizers_not_registered_again_witness :
  GUnrealEd editor_env = true /\
  Extensions (RegisterComponentVisualizers editor_env
                (UnregisterComponentVisualizers editor_env
                   (RegisterComponentVisualizers editor_env initial_state)))
    !! (ComponentVisualizer, "HoudiniSplineComponent") = None.
Proof.
  split; [reflexivity|].
  destruct (visualizers_not_registered_again editor_env initial_state eq_refl)
    as (_ & _ & Hsame & Hspline & _).
  rewrite Hsame. exact Hspline.
Defined.

Lemma shutdown_keys_subsystems (env : Env) (s : State) (k : Key) :
  k ∈ shutdown_keys env s -> k.1 ∉ kept_subsystems.
Proof.
  unfold shutdown_keys, kept_subsystems. rewrite !elem_of_app.
  intros [Hin|[Hin|[Hin|[Hin|[Hin|[Hin|[Hin|Hin]]]]]]].
  1: { destruct (AssetToolsLoaded env); [|by apply elem_of_nil in Hin].
       apply list_elem_of_fmap in Hin as (a & -> & _).
       intros Hk. RegistrationSpec.elem_cases Hk; discriminate. }
  all: match type of Hin with _ ∈ (if ?b then _ else _) => destruct b end;
    RegistrationSpec.elem_cases Hin; subst k;
    intros Hk; RegistrationSpec.elem_cases Hk; discriminate.
Qed.

(** X15: [ShutdownModule], in any state and any condition of the host,
    only removes registry entries: a key is unregistered afterwards when
    it is one of the keys that the unregistration calls name, and keeps
    its entry otherwise; the registries of asset brokers, actor
    factories, styles, console commands and menu extensions are left as
    they are, as are the members of the module other than the recorded
    asset type actions; and a second [ShutdownModule] changes nothing. *)
Theorem shutdown_removes_only (env : Env) (s : State) :
  let s' := ShutdownModule env s in
  (forall k, Extensions s' !! k =
             if bool_decide (k ∈ shutdown_keys env s) then None else Extensions s !! k) /\
  Extensions s' ⊆ Extensions s /\
  (forall k, k.1 ∈ kept_subsystems -> Extensions s' !! k = Extensions s !! k) /\
  (SplineComponentVisualizer s' = SplineComponentVisualizer s /\
   HandleComponentVisualizer s' = HandleComponentVisualizer s /\
   StyleSet s' = StyleSet s /\ CCmdStatics s' = CCmdStatics s /\
   HoudiniTools s' = HoudiniTools s /\ HEngineCommands s' = HEngineCommands s /\
   GlobalLevelEditorActions s' = GlobalLevelEditorActions s) /\
  AssetTypeActions s' = (if AssetToolsLoaded env then [] else AssetTypeActions s) /\
  ShutdownModule env s' = s'.
Proof.
  cbv zeta.
  assert (Hlook : forall k, Extensions (ShutdownModule env s) !! k =
            if bool_decide (k ∈ shutdown_keys env s) then None else Extensions s !! k).
  { intros k. rewrite ShutdownModule_closed, <- lookup_foldl_delete. by destruct s. }
  split; [exact Hlook|]. split; [|split; [|split; [|split]]].
  - apply map_subseteq_spec. intros k x. rewrite Hlook. by destruct (bool_decide _).
  - intros k Hk. rewrite Hlook, bool_decide_eq_false_2; [done|].
    intros Hin. by apply shutdown_keys_subsystems in Hin.
  - rewrite ShutdownModule_closed. by destruct s.
  - rewrite ShutdownModule_closed. by destruct s.
  - rewrite (ShutdownModule_closed env (ShutdownModule env s)).
    assert (Hkeys : forall k, k ∈ shutdown_keys env (ShutdownModule env s) ->
                              k ∈ shutdown_keys env s).
    { intros k. rewrite (ShutdownModule_closed env s).
      destruct s as [ext gl cc sp ha ata sty cmds htools].
      unfold shutdown_keys. cbn. destruct (AssetToolsLoaded env); [|done].
      cbn. intros Hin. apply elem_of_app. by right. }
    assert (Hata : AssetTypeActions (ShutdownModule env s)
                   = if AssetToolsLoaded env then [] else AssetTypeActions s)
      by (rewrite ShutdownModule_closed; by destruct s).
    rewrite Hata.
    assert (Hext : foldl (fun m k => delete k m) (Extensions (ShutdownModule env s))
                     (shutdown_keys env (ShutdownModule env s))
                   = Extensions (ShutdownModule env s)).
    { apply map_eq. intros k. rewrite lookup_foldl_delete.
      destruct (bool_decide _) eqn:Hb; [|done].
      apply bool_decide_eq_true in Hb. apply Hkeys in Hb.
      by rewrite Hlook, bool_decide_eq_true_2. }
    destruct (ShutdownModule env s) as [ext gl cc sp ha ata sty cmds htools] eqn:Hs'.
    cbn in Hext, Hata |- *. rewrite Hext. subst ata.
    by destruct (AssetToolsLoaded env).
Qed.

Lemma AddDefaultHoudiniToolToArray_spec (ToolArray : list string) :
  AddDefaultHoudiniToolToArray ToolArray = default_tools ++ ToolArray.
Proof. reflexivity. Qed.

Lemma startup_members (env : Env) (s s1 : State) :
  StartupModule env s = Some s1 ->
  AssetTypeActions s1 = AssetTypeActions s ++ ["FHoudiniAssetTypeActions"] /\
  HoudiniTools s1 =
    (if bHidePlacementModeHoudiniTools env then HoudiniTools s
     else HoudiniTools s ++ default_tools ++ CustomHoudiniTools env) /\
  StyleSet s1 = true /\ CCmdStatics s1 = true /\
  SplineComponentVisualizer s1 = GUnrealEd env || SplineComponentVisualizer s /\
  HandleComponentVisualizer s1 = GUnrealEd env || HandleComponentVisualizer s /\
  HEngineCommands s1 = (if IsRunningCommandlet env then HEngineCommands s else BoundCommands) /\
  GlobalLevelEditorActions s1 =
    (if IsRunningCommandlet env then GlobalLevelEditorActions s
     else GlobalLevelEditorActions s ∪ BoundCommands).
Proof.
  destruct env as [gu ge cmdlet hm emid rs hide tools pel atl uoi pma].
  destruct s as [ext gl cc sp ha ata sty cmds htools].
  unfold StartupModule, RegisterPlacementModeExtensions.
  rewrite AddDefaultHoudiniToolToArray_spec.
  cbn [RuntimeSettings bHidePlacementModeHoudiniTools CustomHoudiniTools GUnrealEd
       IsRunningCommandlet HOUDINI_MODE].
  destruct rs; [|discriminate]. cbn [negb].
  destruct gu, ge, cmdlet, hm, hide, cc, sp, ha, sty;
    intros Hs; apply (inj Some) in Hs; subst s1;
    RegistrationSpec.unfold_registration; repeat split; reflexivity.
Qed.

Lemma extends_refl (P : Subsystem -> bool) (m : gmap Key Extension) : extends P m m.
Proof. by split. Qed.

Lemma extends_trans (P : Subsystem -> bool) (m1 m2 m3 : gmap Key Extension) :
  extends P m1 m2 -> extends P m2 m3 -> extends P m1 m3.
Proof.
  intros [Hf1 Hg1] [Hf2 Hg2]. split.
  - intros k Hk. by rewrite Hf2, Hf1.
  - intros k Hk. by apply Hg2, Hg1.
Qed.

Lemma extends_insert (P : Subsystem -> bool) (sub : Subsystem) (name : string)
    (e : Extension) (m : gmap Key Extension) :
  P sub = true -> extends P m (<[(sub, name) := e]> m).
Proof.
  intros HP. split.
  - intros [sub' name'] Hk. cbn [fst] in Hk.
    apply lookup_insert_ne. intros [= -> _]. congruence.
  - intros k Hk. destruct (decide ((sub, name) = k)) as [->|Hne].
    + rewrite lookup_insert_eq. by eexists.
    + by rewrite lookup_insert_ne.
Qed.

(** Peels the inserts of a registration off the registry, each within
    the subsystems written. *)
Ltac ext_chain :=
  repeat (eapply extends_trans;
          [|apply extends_insert; cbn;
            first [ reflexivity | assumption
                  | match goal with H : _ = false |- negb _ = true => by rewrite H end ]]);
  apply extends_refl.

(** [StartupModule] by stages: each registration extends the registry
    within the subsystems that the startup writes. *)
Lemma startup_extends (env : Env) (s s1 : State) :
  StartupModule env s = Some s1 ->
  extends (startup_writes env) (Extensions s) (Extensions s1).
Proof.
  unfold StartupModule, RegisterPlacementModeExtensions.
  destruct (RuntimeSettings env); [|discriminate]. cbn [negb].
  assert (H1 : forall st, extends (startup_writes env) (Extensions st)
                            (Extensions (RegisterAssetTypeActions st)))
    by (intros [ext gl cc sp ha ata sty cmds htools]; cbn; ext_chain).
  assert (H2 : forall st, extends (startup_writes env) (Extensions st)
                            (Extensions (RegisterAssetBrokers st)))
    by (intros [ext gl cc sp ha ata sty cmds htools]; cbn; ext_chain).
  assert (H3 : forall st, extends (startup_writes env) (Extensions st)
                            (Extensions (RegisterComponentVisualizers env st))).
  { intros [ext gl cc sp ha ata sty cmds htools]. unfold RegisterComponentVisualizers.
    destruct (GUnrealEd env) eqn:Hgu; [|apply extends_refl].
    destruct sp, ha; cbn; ext_chain. }
  assert (H4 : forall st, extends (startup_writes env) (Extensions st)
                            (Extensions (RegisterDetails st)))
    by (intros [ext gl cc sp ha ata sty cmds htools]; cbn; ext_chain).
  assert (H5 : forall st, extends (startup_writes env) (Extensions st)
                            (Extensions (RegisterActorFactories env st))).
  { intros [ext gl cc sp ha ata sty cmds htools]. unfold RegisterActorFactories.
    destruct (GEditor env) eqn:Hge; [cbn; ext_chain|apply extends_refl]. }
  assert (H6 : forall st, extends (startup_writes env) (Extensions st)
                            (Extensions (RegisterStyleSet st)))
    by (intros [ext gl cc sp ha ata sty cmds htools]; destruct sty; cbn; ext_chain).
  assert (H7 : forall st, extends (startup_writes env) (Extensions st)
                            (Extensions (RegisterThumbnails st)))
    by (intros [ext gl cc sp ha ata sty cmds htools]; cbn; ext_chain).
  assert (H8 : forall st, extends (startup_writes env) (Extensions st)
                            (Extensions (ExtendMenu env st))).
  { intros [ext gl cc sp ha ata sty cmds htools]. unfold ExtendMenu.
    destruct (IsRunningCommandlet env) eqn:Hc; [apply extends_refl|]. cbn. ext_chain. }
  assert (H9 : forall st, extends (startup_writes env) (Extensions st)
                            (Extensions (RegisterConsoleCommands st)))
    by (intros [ext gl cc sp ha ata sty cmds htools]; destruct cc; cbn; ext_chain).
  assert (H10 : forall st, extends (startup_writes env) (Extensions st)
                             (Extensions (RegisterForUndo env st))).
  { intros [ext gl cc sp ha ata sty cmds htools]. unfold RegisterForUndo.
    destruct (GUnrealEd env) eqn:Hgu; [cbn; ext_chain|apply extends_refl]. }
  assert (H11 : forall st, extends (startup_writes env) (Extensions st)
                  (Extensions (if HOUDINI_MODE env then RegisterModes env st else st))).
  { intros [ext gl cc sp ha ata sty cmds htools].
    destruct (HOUDINI_MODE env) eqn:Hm; [cbn; ext_chain|apply extends_refl]. }
  assert (H12 : forall st v, bHidePlacementModeHoudiniTools env = false ->
             extends (startup_writes env) (Extensions st)
               (Extensions (host_register (PlacementCategory, "HoudiniEngine")
                              (ExtObject "PMHoudiniEngine") (set_HoudiniTools v st)))).
  { intros [ext gl cc sp ha ata sty cmds htools] v Hhide. cbn. ext_chain. }
  cbv zeta. set (X := if HOUDINI_MODE env then _ else _). intros Hs.
  assert (Hlast : extends (startup_writes env) (Extensions X) (Extensions s1)).
  { destruct (bHidePlacementModeHoudiniTools env) eqn:Hhide;
      apply (inj Some) in Hs; subst s1; [apply extends_refl|by apply H12]. }
  subst X.
  eapply extends_trans; [|exact Hlast].
  eapply extends_trans; [|apply H11].
  eapply extends_trans; [|apply H10].
  eapply extends_trans; [|apply H9].
  eapply extends_trans; [|apply H8].
  eapply extends_trans; [|apply H7].
  eapply extends_trans; [|apply H6].
  eapply extends_trans; [|apply H5].
  eapply extends_trans; [|apply H4].
  eapply extends_trans; [|apply H3].
  eapply extends_trans; [|apply H2].
  apply H1.
Qed.

(** X16: [StartupModule] fails exactly when the runtime settings object
    is missing.  When it returns, it has recorded the Houdini asset type
    action, created the style set and the console commands, and appended
    the four built-in tools followed by the custom tools of the settings
    to the tool list (nothing when the settings hide the tools); the
    visualizers exist when [GUnrealEd] does; the UI commands are bound
    and appended to the level editor's actions, behind the bindings the
    level editor already has, unless the editor runs a commandlet.  It
    never unregisters: every key registered before is registered after,
    and it leaves alone the registries of the subsystems whose guard is
    off. *)
Theorem startup_conditions (env : Env) (s : State) :
  (is_Some (StartupModule env s) <-> RuntimeSettings env = true) /\
  forall s1, StartupModule env s = Some s1 ->
    AssetTypeActions s1 = AssetTypeActions s ++ ["FHoudiniAssetTypeActions"] /\
    HoudiniTools s1 =
      (if bHidePlacementModeHoudiniTools env then HoudiniTools s
       else HoudiniTools s ++ default_tools ++ CustomHoudiniTools env) /\
    StyleSet s1 = true /\ CCmdStatics s1 = true /\
    SplineComponentVisualizer s1 = GUnrealEd env || SplineComponentVisualizer s /\
    HandleComponentVisualizer s1 = GUnrealEd env || HandleComponentVisualizer s /\
    HEngineCommands s1 = (if IsRunningCommandlet env then HEngineCommands s else BoundCommands) /\
    GlobalLevelEditorActions s1 =
      (if IsRunningCommandlet env then GlobalLevelEditorActions s
       else GlobalLevelEditorActions s ∪ BoundCommands) /\
    (forall c a, GlobalLevelEditorActions s !! c = Some a ->
                 GlobalLevelEditorActions s1 !! c = Some a) /\
    (forall k, startup_writes env k.1 = false -> Extensions s1 !! k = Extensions s !! k) /\
    (forall k, is_Some (Extensions s !! k) -> is_Some (Extensions s1 !! k)).
Proof.
  split.
  - unfold StartupModule, RegisterPlacementModeExtensions.
    destruct (RuntimeSettings env); cbn [negb].
    + split; [done|]. intros _. by destruct (bHidePlacementModeHoudiniTools env).
    + split; [by intros [? ?]|discriminate].
  - intros s1 Hs.
    destruct (startup_members env s s1 Hs) as (H1 & H2 & H3 & H4 & H5 & H6 & H7 & H8).
    destruct (startup_extends env s s1 Hs) as [Hframe Hgrow].
    repeat (split; [assumption|]).
    split; [|by split].
    intros c a Hc. rewrite H8. destruct (IsRunningCommandlet env); [done|].
    by apply lookup_union_Some_l.
Qed.

(** Compares two states that differ in the registry only, key by key. *)
Ltac round_trip :=
  f_equal; apply map_eq; intros ?;
  rewrite ?lookup_delete, ?lookup_insert;
  repeat case_decide; subst; try done; try (symmetry; assumption); try congruence.

(** X17: each unregistration of [ShutdownModule] undoes its
    registration when the host subsystem is still there: in a state
    where the keys were free, the pair gives the state back.  Two pairs
    leave a trace in the module: the visualizer pointers stay valid, and
    the tools added by [RegisterPlacementModeExtensions] stay in the
    tool list. *)
Theorem unregister_undoes_register (env : Env) (s : State) :
  (forall k, k ∈ unregistered_keys env -> Extensions s !! k = None) ->
  AssetTypeActions s = [] ->
  AssetToolsLoaded env = true -> PropertyEditorLoaded env = true ->
  UObjectInitialized env = true -> PlacementModeAvailable env = true ->
  UnregisterAssetTypeActions env (RegisterAssetTypeActions s) = s /\
  UnregisterDetails env (RegisterDetails s) = s /\
  UnregisterThumbnails env (RegisterThumbnails s) = s /\
  UnregisterForUndo env (RegisterForUndo env s) = s /\
  (HOUDINI_MODE env = true -> UnregisterModes env (RegisterModes env s) = s) /\
  UnregisterComponentVisualizers env (RegisterComponentVisualizers env s)
    = (if GUnrealEd env
       then set_HandleComponentVisualizer true (set_SplineComponentVisualizer true s)
       else s) /\
  (forall s1, RegisterPlacementModeExtensions env s = Some s1 ->
     UnregisterPlacementModeExtensions env s1 = set_HoudiniTools (HoudiniTools s1) s).
Proof.
  intros Hfree Hata Hatl Hpel Huoi Hpma.
  assert (Hk : forall sub name,
            (sub, name) ∈ unregistered_keys env -> Extensions s !! (sub, name) = None)
    by (intros; by apply Hfree).
  unfold unregistered_keys in Hk.
  pose proof (Hk AssetTypeAction "FHoudiniAssetTypeActions" ltac:(repeat constructor)) as K1.
  pose proof (Hk DetailCustomizer "HoudiniAssetComponent"
                ltac:(constructor 2; constructor 1)) as K2.
  pose proof (Hk DetailCustomizer "HoudiniRuntimeSettings"
                ltac:(do 2 constructor 2; constructor 1)) as K3.
  pose proof (Hk ThumbnailRenderer "HoudiniAsset"
                ltac:(do 3 constructor 2; constructor 1)) as K4.
  pose proof (Hk ComponentVisualizer "HoudiniSplineComponent"
                ltac:(do 4 constructor 2; constructor 1)) as K5.
  pose proof (Hk ComponentVisualizer "HoudiniHandleComponent"
                ltac:(do 5 constructor 2; constructor 1)) as K6.
  pose proof (Hk UndoHook "FHoudiniEngineEditor"
                ltac:(do 6 constructor 2; constructor 1)) as K7.
  pose proof (Hk PlacementCategory "HoudiniEngine"
                ltac:(do 7 constructor 2; constructor 1)) as K8.
  destruct s as [ext gl cc sp ha ata sty cmds htools].
  cbn in Hata, K1, K2, K3, K4, K5, K6, K7, K8. subst ata.
  split; [|split; [|split; [|split; [|split; [|split]]]]].
  - unfold UnregisterAssetTypeActions. rewrite Hatl. cbn. round_trip.
  - unfold UnregisterDetails. rewrite Hpel. cbn. round_trip.
  - unfold UnregisterThumbnails. rewrite Huoi. cbn. round_trip.
  - unfold UnregisterForUndo, RegisterForUndo. destruct (GUnrealEd env); [|done].
    cbn. round_trip.
  - intros Hm. rewrite Hm in Hk.
    pose proof (Hk EditorMode (EM_HoudiniShelfEdModeId env)
                  ltac:(do 8 constructor 2; constructor 1)) as K9.
    cbn in K9 |- *. round_trip.
  - unfold UnregisterComponentVisualizers, RegisterComponentVisualizers.
    destruct (GUnrealEd env); [|done].
    destruct sp, ha; cbn; round_trip.
  - intros s1. unfold RegisterPlacementModeExtensions, UnregisterPlacementModeExtensions.
    rewrite Hpma. destruct (RuntimeSettings env); [|discriminate]. cbn [negb].
    destruct (bHidePlacementModeHoudiniTools env); intros Hs; apply (inj Some) in Hs; subst s1.
    + cbn. round_trip.
    + cbn. round_trip.
Qed.

Lemma unregister_undoes_register_witness :
  AssetTypeActions initial_state = [] /\
  UnregisterDetails editor_env (RegisterDetails initial_state) = initial_state.
Proof.
  split; [reflexivity|].
  refine (proj1 (proj2 (unregister_undoes_register editor_env initial_state _
                          eq_refl eq_refl eq_refl eq_refl eq_refl))).
  intros k _. apply lookup_empty.
Defined.

End LifecycleSpec.

(** ** The Houdini menu *)

Module MenuSpec.

Import Registration Menu.

(** X19: the three tables of the Houdini menu agree.  [BindMenuCommands]
    binds every command that [RegisterCommands] declares; the entries
    that [AddHoudiniMenuExtension] adds to the menu are, without
    repetition, the commands bound with a can-execute predicate; the
    command declared as a check box is the one bound with an is-checked
    predicate; the commands that are not in the menu (shortcuts only)
    have a key chord; and no two commands share a chord or a label. *)
Theorem menu_commands_consistent (s : State) :
  let bound := HEngineCommands (BindMenuCommands s) in
  (forall c, is_Some (bound !! c)) /\
  (forall c, c ∈ AddHoudiniMenuExtension.2 <->
             exists a, bound !! c = Some a /\ is_Some (CanExecuteAction a)) /\
  NoDup AddHoudiniMenuExtension.2 /\
  (forall c a, bound !! c = Some a ->
     (ActionType (RegisterCommands c) = Check <-> is_Some (IsActionChecked a))) /\
  (forall c, c ∉ AddHoudiniMenuExtension.2 -> DefaultChord (RegisterCommands c) <> NoChord) /\
  (forall c c', DefaultChord (RegisterCommands c) = DefaultChord (RegisterCommands c') ->
                DefaultChord (RegisterCommands c) <> NoChord -> c = c') /\
  (forall c c', Label (RegisterCommands c) = Label (RegisterCommands c') -> c = c').
Proof.
  cbv zeta. rewrite RegistrationSpec.HEngineCommands_BindMenuCommands.
  assert (Hbound : forall c, BoundCommands !! c =
            Some {| ExecuteAction :=
                      match c with
                      | OpenInHoudini => fn_OpenInHoudini | SaveHIPFile => fn_SaveHIPFile
                      | ReportBug => fn_ReportBug | CleanUpTempFolder => fn_CleanUpTempFolder
                      | BakeAllAssets => fn_BakeAllAssets
                      | PauseAssetCooking => fn_PauseAssetCooking
                      | CookSelec => fn_RecookSelection | RebuildSelec => fn_RebuildSelection
                      | BakeSelec => fn_BakeSelection
                      end;
                    CanExecuteAction :=
                      match c with
                      | OpenInHoudini => Some fn_CanOpenInHoudini
                      | SaveHIPFile => Some fn_CanSaveHIPFile
                      | ReportBug => Some fn_CanReportBug
                      | CleanUpTempFolder => Some fn_CanCleanUpTempFolder
                      | BakeAllAssets => Some fn_CanBakeAllAssets
                      | PauseAssetCooking => Some fn_CanPauseAssetCooking
                      | _ => None
                      end;
                    IsActionChecked :=
                      match c with
                      | PauseAssetCooking => Some fn_IsAssetCookingPaused
                      | _ => None
                      end |})
    by (intros []; vm_compute; reflexivity).
  split; [intros c; rewrite Hbound; by eexists|].
  split; [|split; [|split; [|split; [|split]]]].
  - intros c. rewrite Hbound. unfold AddHoudiniMenuExtension. cbn [snd]. split.
    + intros Hin. eexists. split; [done|]. cbn.
      RegistrationSpec.elem_cases Hin; subst c; by eexists.
    + intros (a & [= <-] & [p Hp]). cbn in Hp.
      destruct c; try discriminate Hp; repeat first [by constructor 1 | constructor 2].
  - unfold AddHoudiniMenuExtension. cbn [snd].
    repeat (constructor; [intros Hin; RegistrationSpec.elem_cases Hin; discriminate|]).
    constructor.
  - intros c a. rewrite Hbound. intros [= <-]. cbn.
    destruct c; cbn; split; try discriminate; try (by intros [? ?]); by eexists.
  - intros c Hnot. destruct c; cbn; try discriminate;
      exfalso; apply Hnot; unfold AddHoudiniMenuExtension; cbn [snd];
      repeat first [by constructor 1 | constructor 2].
  - intros c c'. destruct c, c'; cbn; intros Heq Hne; try done; discriminate.
  - intros c c'. destruct c, c'; cbn; intros Heq; try done; discriminate.
Qed.

End MenuSpec.
